(** * Tenant-scoped data access layer

    A shallow embedding of the domain services (projects, tasks, clients),
    the tenant access middlewares, the client-side list hooks and the
    filters of the tasks page, together with the properties stated about
    them.

    Conventions of the embedding:
    - JavaScript values are the inductive [value]; numbers are restricted
      to integers ([Z]), strings are byte strings.
    - A TypeScript interface whose members are all optional
      ([Partial<...>]) is a record of [option]s; [None] is [undefined].
    - [Record<string, any>] payloads and database rows are finite maps
      from column names ([gmap string _]).
    - [async] functions that can reject return a [result]. *)

From Stdlib Require Import ZArith Lia Bool List Ascii String.
From stdpp Require Import gmap strings list fin_maps pretty.

Set Warnings "-register-all".

(** ** Values *)

Inductive value : Type :=
| VUndef
| VNull
| VBool (b : bool)
| VNum (n : Z)
| VStr (s : string)
| VArr (items : list value)
| VObj (props : list (string * value)).

(** Outcome of a call that may throw (a rejected promise). *)
Inductive result (A : Type) : Type :=
| Ok (a : A)
| Throw (msg : string).
Arguments Ok {A} a.
Arguments Throw {A} msg.

Definition bind {A B} (r : result A) (k : A -> result B) : result B :=
  match r with
  | Ok a => k a
  | Throw e => Throw e
  end.

Definition is_ok {A} (r : result A) : bool :=
  match r with Ok _ => true | Throw _ => false end.

(** ** JavaScript operators used by the services *)

Module JS.

(** Truthiness of an optional string member: [undefined] and [''] are falsy. *)
Definition truthy_str (o : option string) : bool :=
  match o with
  | Some s => negb (String.eqb s "")
  | None => false
  end.

(** Truthiness of an optional number member: [undefined] and [0] are falsy. *)
Definition truthy_num (o : option Z) : bool :=
  match o with
  | Some n => negb (n =? 0)%Z
  | None => false
  end.

(** [x.length > 0] guarded by [x &&] for an optional array (arrays are
    always truthy). *)
Definition nonempty {A} (o : option (list A)) : bool :=
  match o with
  | Some (_ :: _) => true
  | _ => false
  end.

(** [x !== undefined]. *)
Definition defined {A} (o : option A) : bool :=
  match o with Some _ => true | None => false end.

(** The value of a member expression [obj.member]. *)
Definition str (o : option string) : value :=
  match o with Some s => VStr s | None => VUndef end.

Definition num (o : option Z) : value :=
  match o with Some n => VNum n | None => VUndef end.

Definition strs (o : option (list string)) : value :=
  match o with Some l => VArr (map VStr l) | None => VUndef end.

Definition arr (o : option (list value)) : value :=
  match o with Some l => VArr l | None => VUndef end.

(** [x || d] on each member type. *)
Definition str_or (o : option string) (d : value) : value :=
  if truthy_str o then str o else d.

Definition num_or (o : option Z) (d : value) : value :=
  if truthy_num o then num o else d.

Definition strs_or (o : option (list string)) (d : value) : value :=
  match o with Some l => VArr (map VStr l) | None => d end.

Definition arr_or (o : option (list value)) (d : value) : value :=
  match o with Some l => VArr l | None => d end.

(** [x || d] for a number with a number default. *)
Definition or_num (o : option Z) (d : Z) : Z :=
  if truthy_num o then default d o else d.

(** [x ?? d]: only [undefined] (and [null]) select the default. *)
Definition num_nullish (o : option Z) (d : value) : value :=
  match o with Some n => VNum n | None => d end.

(** White space removed by [String.prototype.trim], restricted to ASCII. *)
Definition is_space (c : ascii) : bool :=
  let n := nat_of_ascii c in
  (n =? 32) || (n =? 9) || (n =? 10) || (n =? 11) || (n =? 12) || (n =? 13).

Fixpoint trim_start (s : string) : string :=
  match s with
  | String c s' => if is_space c then trim_start s' else s
  | EmptyString => EmptyString
  end.

Fixpoint trim_end (s : string) : string :=
  match s with
  | String c s' =>
      match trim_end s' with
      | EmptyString => if is_space c then EmptyString else String c EmptyString
      | t => String c t
      end
  | EmptyString => EmptyString
  end.

Definition trim (s : string) : string := trim_end (trim_start s).

(** *** [JSON.stringify] *)

Definition dquote : ascii := ascii_of_nat 34.
Definition backslash : ascii := ascii_of_nat 92.

Definition hex_digit (n : nat) : ascii :=
  if n <? 10 then ascii_of_nat (48 + n) else ascii_of_nat (87 + n).

Definition escape_char (c : ascii) : string :=
  let n := nat_of_ascii c in
  if n =? 34 then String backslash (String dquote EmptyString)
  else if n =? 92 then String backslash (String backslash EmptyString)
  else if n =? 8 then String backslash "b"
  else if n =? 9 then String backslash "t"
  else if n =? 10 then String backslash "n"
  else if n =? 12 then String backslash "f"
  else if n =? 13 then String backslash "r"
  else if n <? 32 then
    String backslash
      (String "u" (String "0" (String "0"
        (String (hex_digit (n / 16)) (String (hex_digit (n mod 16)) EmptyString)))))
  else String c EmptyString.

Fixpoint escape (s : string) : string :=
  match s with
  | String c s' => escape_char c +:+ escape s'
  | EmptyString => EmptyString
  end.

Definition quote (s : string) : string :=
  String dquote (escape s +:+ String dquote EmptyString).

Fixpoint join_comma (l : list string) : string :=
  match l with
  | [] => ""
  | [x] => x
  | x :: rest => x +:+ "," +:+ join_comma rest
  end.

(** The text produced for a value other than [undefined]. Inside an array
    [undefined] prints as [null]; an object member that is [undefined] is
    left out. *)
Fixpoint stringify (v : value) : string :=
  match v with
  | VUndef | VNull => "null"
  | VBool b => if b then "true" else "false"
  | VNum n => pretty n
  | VStr s => quote s
  | VArr items => "[" +:+ join_comma (map stringify items) +:+ "]"
  | VObj props =>
      "{" +:+ join_comma
        (flat_map (fun kv =>
           let '(k, x) := kv in
           match x with
           | VUndef => []
           | _ => [quote k +:+ ":" +:+ stringify x]
           end) props) +:+ "}"
  end.

Definition JSON_stringify (v : value) : value :=
  match v with
  | VUndef => VUndef
  | _ => VStr (stringify v)
  end.

(** Truthiness of a value. *)
Definition truthy (v : value) : bool :=
  match v with
  | VUndef | VNull => false
  | VBool b => b
  | VNum n => negb (n =? 0)%Z
  | VStr s => negb (String.eqb s "")
  | VArr _ | VObj _ => true
  end.

(** A structured value (array or object), as opposed to a scalar. *)
Definition is_structured (v : value) : bool :=
  match v with
  | VArr _ | VObj _ => true
  | _ => false
  end.

(** The string a template literal puts in place of a value ([String(v)]):
    the elements of an array joined by commas, with nothing for [null] and
    [undefined]. *)
Fixpoint to_string (v : value) : string :=
  match v with
  | VUndef => "undefined"
  | VNull => "null"
  | VBool b => if b then "true" else "false"
  | VNum n => pretty n
  | VStr s => s
  | VArr items =>
      join_comma (map (fun x => match x with
                                | VUndef | VNull => ""
                                | _ => to_string x
                                end) items)
  | VObj _ => "[object Object]"
  end.

End JS.


(** ** Tenant tables and the CRUD helpers *)

Module DB.

(** What a column of a row holds: a scalar bound as it was given, or a
    JSON document (a [jsonb] column written through an explicit cast). *)
Inductive cell : Type :=
| Scalar (v : value)
| Jsonb (doc : value).

Abbreviation row := (gmap string cell).
Abbreviation table := (list row).

Definition is_null (c : option cell) : bool :=
  match c with
  | None | Some (Scalar VNull) | Some (Scalar VUndef) => true
  | _ => false
  end.

(** [col = 'text'] for a text parameter; a comparison with NULL is not true. *)
Definition text_eq (c : option cell) (s : string) : bool :=
  match c with
  | Some (Scalar (VStr s')) => String.eqb s' s
  | _ => false
  end.

(** [col = TRUE]. *)
Definition is_true (c : option cell) : bool :=
  match c with
  | Some (Scalar (VBool true)) => true
  | _ => false
  end.

(** [col IN (...)] inside a CHECK constraint: satisfied when not false,
    so NULL passes. *)
Definition check_in (c : option cell) (allowed : list string) : bool :=
  if is_null c then true
  else match c with
       | Some (Scalar (VStr s)) => existsb (String.eqb s) allowed
       | _ => false
       end.

Definition check_range (c : option cell) (lo hi : Z) : bool :=
  if is_null c then true
  else match c with
       | Some (Scalar (VNum n)) => (lo <=? n)%Z && (n <=? hi)%Z
       | _ => false
       end.

(** The part of a CREATE TABLE statement the helpers depend on. *)
Record table_def : Type := {
  required : list string;
  defaults : Z -> row;
  checks : row -> bool
}.

Definition row_ok (def : table_def) (r : row) : bool :=
  forallb (fun c => negb (is_null (r !! c))) (required def) && checks def r.

(** Modelled from the spec: the serialization step shared by
    insertInTenantSchema and updateInTenantSchema (utils/tenantHelpers is
    not among the sources). A structured value (array or object) is
    serialized to JSON text and its column is cast to jsonb, so the column
    holds that document; a scalar is bound as it is. *)
Definition bind_value (v : value) : cell :=
  if JS.is_structured v then Jsonb v else Scalar v.

(** Modelled from the spec: insertInTenantSchema. Takes a mapping from
    column names to values, binds every value, lets the table supply the
    server-generated [id], [created_at], [updated_at] and the other column
    defaults, and returns the inserted row. Fails when a required column is
    absent or the table refuses the row. *)
Definition insertInTenantSchema (def : table_def) (new_id : string) (now : Z)
    (t : table) (data : gmap string value) : result (table * row) :=
  let r := (bind_value <$> data)
             ∪ <["id" := Scalar (VStr new_id)]> (defaults def now) in
  if negb (forallb (fun c => negb (is_null (r !! c))) (required def))
  then Throw "ValidationError"
  else if negb (checks def r) then Throw "QueryError"
  else Ok (t ++ [r], r).

Definition has_id (id : string) (r : row) : bool := text_eq (r !! "id") id.

Definition apply_update (now : Z) (data : gmap string value) (r : row) : row :=
  <["updated_at" := Scalar (VNum now)]> ((bind_value <$> data) ∪ r).

(** Modelled from the spec: updateInTenantSchema. A sparse update: only the
    keys present in the mapping are changed, with the same binding rule as
    insert; [updated_at] is always refreshed. Returns the updated row, or
    [None] when no row has the id. Fails when the mapping is empty, or when
    the table refuses an updated row (nothing is changed then). *)
Definition updateInTenantSchema (def : table_def) (now : Z)
    (t : table) (id : string) (data : gmap string value)
  : result (table * option row) :=
  if (size data =? 0)%nat then Throw "No fields to update"
  else
    let upd r := if has_id id r then apply_update now data r else r in
    let t' := upd <$> t in
    if forallb (row_ok def) (filter (fun r => has_id id r = true) t')
    then Ok (t', head (filter (fun r => has_id id r = true) t'))
    else Throw "QueryError".

(** Modelled from the spec: softDeleteInTenantSchema. Sets
    [is_active = false] on the row with the id and returns that row, or
    [None] when no row has the id. *)
Definition softDeleteInTenantSchema (t : table) (id : string)
  : table * option row :=
  let del r := if has_id id r then <["is_active" := Scalar (VBool false)]> r else r in
  let t' := del <$> t in
  (t', head (filter (fun r => has_id id r = true) t')).

(** *** Fragments of the SELECT statements *)

Definition lower (c : ascii) : ascii :=
  let n := nat_of_ascii c in
  if (65 <=? n) && (n <=? 90) then ascii_of_nat (n + 32) else c.

(** [s LIKE p]: [%] matches any run, [_] any one character, a backslash
    makes the next character literal. *)
Fixpoint like (p s : list ascii) {struct p} : bool :=
  match p with
  | [] => match s with [] => true | _ => false end
  | c :: p' =>
      if Ascii.eqb c "%" then
        (fix any (s : list ascii) : bool :=
           like p' s || match s with [] => false | _ :: s' => any s' end) s
      else if Ascii.eqb c "_" then
        match s with [] => false | _ :: s' => like p' s' end
      else if Ascii.eqb c JS.backslash then
        match p' with
        | [] => false
        | e :: p'' =>
            match s with [] => false | x :: s' => Ascii.eqb e x && like p'' s' end
        end
      else
        match s with [] => false | x :: s' => Ascii.eqb c x && like p' s' end
  end.

(** [col ILIKE $n] with the parameter ['%' + search + '%']; case is folded
    for ASCII letters. NULL never matches. *)
Definition ilike (c : option cell) (search : string) : bool :=
  match c with
  | Some (Scalar (VStr s)) =>
      like (lower <$> list_ascii_of_string ("%" +:+ search +:+ "%"))
           (lower <$> list_ascii_of_string s)
  | _ => false
  end.

Definition str_in (l : list value) (s : string) : bool :=
  existsb (fun v => match v with VStr s' => String.eqb s' s | _ => false end) l.

(** [col ?| $n]: some string of the parameter is an element of the jsonb
    array (or a key of the jsonb object). *)
Definition has_any (c : option cell) (tags : list string) : bool :=
  match c with
  | Some (Jsonb (VArr l)) => existsb (str_in l) tags
  | Some (Jsonb (VObj props)) =>
      existsb (fun s => existsb (fun kv => String.eqb (fst kv) s) props) tags
  | Some (Jsonb (VStr s)) => existsb (String.eqb s) tags
  | _ => false
  end.

(** ORDER BY created_at DESC; NULLs come first in a descending order. *)
Definition created_at (r : row) : option Z :=
  match r !! "created_at" with
  | Some (Scalar (VNum n)) => Some n
  | _ => None
  end.

Definition newer_eq (a b : row) : bool :=
  match created_at a, created_at b with
  | None, _ => true
  | Some _, None => false
  | Some x, Some y => (y <=? x)%Z
  end.

Fixpoint insert_desc (r : row) (l : table) : table :=
  match l with
  | [] => [r]
  | x :: l' => if newer_eq x r then x :: insert_desc r l' else r :: l
  end.

Fixpoint order_by_created_desc (l : table) : table :=
  match l with
  | [] => []
  | r :: l' => insert_desc r (order_by_created_desc l')
  end.

(** [LIMIT l OFFSET o]; a negative limit or offset is an error. *)
Definition limit_offset (l o : Z) (rows : table) : result table :=
  if (l <? 0)%Z || (o <? 0)%Z then Throw "QueryError"
  else Ok (take (Z.to_nat l) (drop (Z.to_nat o) rows)).

End DB.

(** ** Paginated listing, as every service's list operation does it *)

Record Pagination : Type := {
  page : Z;
  limit : Z;
  total : Z;
  totalPages : Z;
  hasNext : bool;
  hasPrev : bool
}.

(** [Math.ceil(a / b)] for integers, [b] not zero. *)
Definition ceil_div (a b : Z) : Z := (- ((- a) / b))%Z.

(** The two statements of a list operation run against the same table:
    the page query (WHERE, ORDER BY created_at DESC, LIMIT, OFFSET) and its
    COUNT companion, followed by the construction of the pagination
    descriptor. [filters_page] and [filters_limit] are the optional
    [page] and [limit] members of the filters; [where_] is the WHERE
    clause. Rows are returned as stored: the column list of the SELECT
    (COALESCE defaults, timestamp formatting) is not part of the model. *)
Definition list_rows (filters_page filters_limit : option Z)
    (where_ : DB.row -> bool) (t : DB.table) : result (DB.table * Pagination) :=
  let page := JS.or_num filters_page 1 in
  let limit := JS.or_num filters_limit 50 in
  let offset := ((page - 1) * limit)%Z in
  let matching := List.filter where_ t in
  bind (DB.limit_offset limit offset (DB.order_by_created_desc matching)) (fun rows =>
  let total := Z.of_nat (length matching) in
  let totalPages := ceil_div total limit in
  Ok (rows,
      {| page := page; limit := limit; total := total; totalPages := totalPages;
         hasNext := (page <? totalPages)%Z; hasPrev := (1 <? page)%Z |})).

(** The query of every get-by-id operation:
    [WHERE id = $1 AND is_active = TRUE], then [result[0] || null]. *)
Definition get_by_id (t : DB.table) (id : string) : option DB.row :=
  head (List.filter (fun r => DB.has_id id r && DB.is_true (r !! "is_active")) t).

Definition set_if (c : bool) (k : string) (v : value)
    (data : gmap string value) : gmap string value :=
  if c then <[k := v]> data else data.

(** The number of rows a predicate keeps: a COUNT aggregate, with or
    without a FILTER clause, read back through [parseInt]. *)
Definition count_rows (w : DB.row -> bool) (t : DB.table) : Z :=
  Z.of_nat (length (List.filter w t)).

(** ** Tasks service *)

Module TasksService.

(** [CreateTaskData], with every member optional as in [UpdateTaskData];
    createTask checks the members it requires at run time. The literal
    unions of [status] and [priority] are erased at run time and are plain
    strings here. *)
Record TaskData : Type := {
  title : option string;
  description : option string;
  projectId : option string;
  projectTitle : option string;
  clientId : option string;
  clientName : option string;
  assignedTo : option string;
  status : option string;
  priority : option string;
  startDate : option string;
  endDate : option string;
  estimatedHours : option Z;
  actualHours : option Z;
  progress : option Z;
  tags : option (list string);
  notes : option string;
  subtasks : option (list value)
}.

Module Filters.
Record t : Type := {
  page : option Z;
  limit : option Z;
  status : option string;
  priority : option string;
  search : option string;
  assignedTo : option string;
  projectId : option string
}.
End Filters.

Definition statuses : list string :=
  ["not_started"; "in_progress"; "completed"; "on_hold"; "cancelled"].
Definition priorities : list string := ["low"; "medium"; "high"; "urgent"].

(** The CREATE TABLE statement of ensureTables: NOT NULL columns, DEFAULT
    clauses and CHECK constraints. *)
Definition table_def : DB.table_def := {|
  DB.required := ["title"; "assigned_to"; "created_by"];
  DB.defaults := fun now =>
    <["status" := DB.Scalar (VStr "not_started")]>
    (<["priority" := DB.Scalar (VStr "medium")]>
    (<["progress" := DB.Scalar (VNum 0)]>
    (<["tags" := DB.Jsonb (VArr [])]>
    (<["subtasks" := DB.Jsonb (VArr [])]>
    (<["created_at" := DB.Scalar (VNum now)]>
    (<["updated_at" := DB.Scalar (VNum now)]>
    (<["is_active" := DB.Scalar (VBool true)]> ∅)))))));
  DB.checks := fun r =>
    DB.check_in (r !! "status") statuses
    && DB.check_in (r !! "priority") priorities
    && DB.check_range (r !! "progress") 0 100
|}.

Definition where_ (filters : Filters.t) (r : DB.row) : bool :=
  DB.is_true (r !! "is_active")
  && (if JS.truthy_str (Filters.status filters)
      then DB.text_eq (r !! "status") (default "" (Filters.status filters)) else true)
  && (if JS.truthy_str (Filters.priority filters)
      then DB.text_eq (r !! "priority") (default "" (Filters.priority filters)) else true)
  && (if JS.truthy_str (Filters.assignedTo filters)
      then DB.text_eq (r !! "assigned_to") (default "" (Filters.assignedTo filters)) else true)
  && (if JS.truthy_str (Filters.projectId filters)
      then DB.text_eq (r !! "project_id") (default "" (Filters.projectId filters)) else true)
  && (if JS.truthy_str (Filters.search filters)
      then DB.ilike (r !! "title") (default "" (Filters.search filters))
           || DB.ilike (r !! "description") (default "" (Filters.search filters))
      else true).

(** What ensureTables does to the rows of a table that exists: CREATE
    TABLE IF NOT EXISTS and CREATE INDEX IF NOT EXISTS leave them as they
    are. (What happens when one of its statements fails is the subject of
    [Module EnsureTables].) *)
Definition ensureTables (t : DB.table) : DB.table := t.

Definition getTasks (t : DB.table) (filters : Filters.t)
  : result (DB.table * Pagination) :=
  let t := ensureTables t in
  list_rows (Filters.page filters) (Filters.limit filters) (where_ filters) t.

Definition getTaskById (t : DB.table) (taskId : string) : option DB.row :=
  let t := ensureTables t in
  get_by_id t taskId.

(** The mapping createTask hands to insertInTenantSchema. *)
Definition createTask_data (taskData : TaskData) (createdBy : string)
  : result (gmap string value) :=
  if negb (JS.truthy_str (title taskData)) then Throw "Título é obrigatório"
  else if negb (JS.truthy_str (assignedTo taskData)) then Throw "Responsável é obrigatório"
  else
    let data : gmap string value :=
      <["title" := JS.str (title taskData)]>
      (<["assigned_to" := JS.str (assignedTo taskData)]>
      (<["status" := JS.str_or (status taskData) (VStr "not_started")]>
      (<["priority" := JS.str_or (priority taskData) (VStr "medium")]>
      (<["progress" := JS.num_or (progress taskData) (VNum 0)]>
      (<["created_by" := VStr createdBy]> ∅))))) in
    let data := set_if (JS.truthy_str (description taskData))
                  "description" (JS.str (description taskData)) data in
    let data := set_if (JS.truthy_str (projectId taskData)
                        && negb (bool_decide (projectId taskData = Some "none")))
                  "project_id" (JS.str (projectId taskData)) data in
    let data := set_if (JS.truthy_str (projectTitle taskData))
                  "project_title" (JS.str (projectTitle taskData)) data in
    let data := set_if (JS.truthy_str (clientId taskData))
                  "client_id" (JS.str (clientId taskData)) data in
    let data := set_if (JS.truthy_str (clientName taskData))
                  "client_name" (JS.str (clientName taskData)) data in
    let data := set_if (JS.truthy_str (startDate taskData))
                  "start_date" (JS.str (startDate taskData)) data in
    let data := set_if (JS.truthy_str (endDate taskData))
                  "end_date" (JS.str (endDate taskData)) data in
    let data := set_if (JS.defined (estimatedHours taskData))
                  "estimated_hours" (JS.num (estimatedHours taskData)) data in
    let data := set_if (JS.defined (actualHours taskData))
                  "actual_hours" (JS.num (actualHours taskData)) data in
    let data := set_if (JS.truthy_str (notes taskData))
                  "notes" (JS.str (notes taskData)) data in
    let data := set_if (JS.nonempty (tags taskData))
                  "tags" (JS.strs (tags taskData)) data in
    let data := set_if (JS.nonempty (subtasks taskData))
                  "subtasks" (JS.JSON_stringify (JS.arr (subtasks taskData))) data in
    Ok data.

Definition createTask (new_id : string) (now : Z) (t : DB.table)
    (taskData : TaskData) (createdBy : string) : result (DB.table * DB.row) :=
  let t := ensureTables t in
  bind (createTask_data taskData createdBy) (fun data =>
  DB.insertInTenantSchema table_def new_id now t data).

(** The mapping updateTask hands to updateInTenantSchema. *)
Definition updateTask_data (updateData : TaskData) : result (gmap string value) :=
  let data : gmap string value := ∅ in
  let data := set_if (JS.defined (title updateData)) "title" (JS.str (title updateData)) data in
  let data := set_if (JS.defined (description updateData))
                "description" (JS.str (description updateData)) data in
  let data := set_if (JS.defined (projectId updateData))
                "project_id" (JS.str (projectId updateData)) data in
  let data := set_if (JS.defined (projectTitle updateData))
                "project_title" (JS.str (projectTitle updateData)) data in
  let data := set_if (JS.defined (clientId updateData))
                "client_id" (JS.str (clientId updateData)) data in
  let data := set_if (JS.defined (clientName updateData))
                "client_name" (JS.str (clientName updateData)) data in
  let data := set_if (JS.defined (assignedTo updateData))
                "assigned_to" (JS.str (assignedTo updateData)) data in
  let data := set_if (JS.defined (status updateData)) "status" (JS.str (status updateData)) data in
  let data := set_if (JS.defined (priority updateData))
                "priority" (JS.str (priority updateData)) data in
  let data := set_if (JS.defined (startDate updateData))
                "start_date" (JS.str (startDate updateData)) data in
  let data := set_if (JS.defined (endDate updateData))
                "end_date" (JS.str (endDate updateData)) data in
  let data := set_if (JS.defined (estimatedHours updateData))
                "estimated_hours" (JS.num (estimatedHours updateData)) data in
  let data := set_if (JS.defined (actualHours updateData))
                "actual_hours" (JS.num (actualHours updateData)) data in
  let data := set_if (JS.defined (progress updateData))
                "progress" (JS.num (progress updateData)) data in
  let data := set_if (JS.defined (tags updateData)) "tags" (JS.strs (tags updateData)) data in
  let data := set_if (JS.defined (notes updateData)) "notes" (JS.str (notes updateData)) data in
  let data := set_if (JS.defined (subtasks updateData))
                "subtasks" (JS.JSON_stringify (JS.arr (subtasks updateData))) data in
  if (size data =? 0)%nat then Throw "No fields to update" else Ok data.

Definition updateTask (now : Z) (t : DB.table) (taskId : string)
    (updateData : TaskData) : result (DB.table * option DB.row) :=
  let t := ensureTables t in
  bind (updateTask_data updateData) (fun data =>
  DB.updateInTenantSchema table_def now t taskId data).

Definition deleteTask (t : DB.table) (taskId : string) : DB.table * bool :=
  let t := ensureTables t in
  let '(t', task) := DB.softDeleteInTenantSchema t taskId in
  (t', match task with Some _ => true | None => false end).

(** What getTaskStats returns. *)
Module Stats.
Record t : Type := {
  total : Z;
  completed : Z;
  inProgress : Z;
  notStarted : Z;
  onHold : Z;
  urgent : Z
}.
End Stats.

(** The aggregate query of getTaskStats: every counter ranges over the
    rows with [is_active = TRUE]. *)
Definition getTaskStats (t : DB.table) : Stats.t :=
  let t := ensureTables t in
  let active := List.filter (fun r => DB.is_true (r !! "is_active")) t in
  {| Stats.total := count_rows (fun _ => true) active;
     Stats.completed := count_rows (fun r => DB.text_eq (r !! "status") "completed") active;
     Stats.inProgress := count_rows (fun r => DB.text_eq (r !! "status") "in_progress") active;
     Stats.notStarted := count_rows (fun r => DB.text_eq (r !! "status") "not_started") active;
     Stats.onHold := count_rows (fun r => DB.text_eq (r !! "status") "on_hold") active;
     Stats.urgent := count_rows (fun r => DB.text_eq (r !! "priority") "urgent") active |}.

End TasksService.

(** ** Projects service *)

Module ProjectsService.

(** [CreateProjectData], every member optional as in [UpdateProjectData]. *)
Record ProjectData : Type := {
  title : option string;
  description : option string;
  clientId : option string;
  clientName : option string;
  organization : option string;
  address : option string;
  budget : option Z;
  currency : option string;
  status : option string;
  priority : option string;
  progress : option Z;
  startDate : option string;
  dueDate : option string;
  tags : option (list string);
  assignedTo : option (list string);
  notes : option string;
  contacts : option (list value)
}.

Module Filters.
Record t : Type := {
  page : option Z;
  limit : option Z;
  status : option string;
  priority : option string;
  search : option string;
  tags : option (list string)
}.
End Filters.

Definition statuses : list string := ["contacted"; "proposal"; "won"; "lost"].
Definition priorities : list string := ["low"; "medium"; "high"].
Definition currencies : list string := ["BRL"; "USD"; "EUR"].

(** Modelled from the spec: the projects table is provisioned outside the
    sources. Its definition here has the common columns of every entity
    (is_active, created_at, updated_at) together with what ensureTables
    adds: the defaults of currency, assigned_to and contacts, and NOT NULL
    on start_date and due_date. *)
Definition table_def : DB.table_def := {|
  DB.required := ["start_date"; "due_date"];
  DB.defaults := fun now =>
    <["currency" := DB.Scalar (VStr "BRL")]>
    (<["assigned_to" := DB.Jsonb (VArr [])]>
    (<["contacts" := DB.Jsonb (VArr [])]>
    (<["created_at" := DB.Scalar (VNum now)]>
    (<["updated_at" := DB.Scalar (VNum now)]>
    (<["is_active" := DB.Scalar (VBool true)]> ∅)))));
  DB.checks := fun _ => true
|}.

(** The three UPDATE statements of ensureTables, on one row; timestamps
    count seconds. *)
Definition backfill (r : DB.row) : DB.row :=
  let r := if DB.is_null (r !! "due_date") && negb (DB.is_null (r !! "end_date"))
           then match r !! "end_date" with
                | Some c => <["due_date" := c]> r
                | None => r
                end
           else r in
  let r := if DB.is_null (r !! "start_date")
           then match r !! "created_at" with
                | Some c => <["start_date" := c]> r
                | None => r
                end
           else r in
  let r := if DB.is_null (r !! "due_date")
           then match DB.created_at r with
                | Some n => <["due_date" := DB.Scalar (VNum (n + 30 * 86400))]> r
                | None => r
                end
           else r in
  r.

(** What ensureTables does to the rows of a table that exists, every
    statement succeeding: the ADD COLUMN IF NOT EXISTS and SET NOT NULL
    statements leave the rows as they are, the UPDATE statements fill the
    missing dates. *)
Definition ensureTables (t : DB.table) : DB.table := backfill <$> t.

Definition where_ (filters : Filters.t) (r : DB.row) : bool :=
  DB.is_true (r !! "is_active")
  && (if JS.truthy_str (Filters.status filters)
      then DB.text_eq (r !! "status") (default "" (Filters.status filters)) else true)
  && (if JS.truthy_str (Filters.priority filters)
      then DB.text_eq (r !! "priority") (default "" (Filters.priority filters)) else true)
  && (if JS.truthy_str (Filters.search filters)
      then DB.ilike (r !! "title") (default "" (Filters.search filters))
           || DB.ilike (r !! "client_name") (default "" (Filters.search filters))
           || DB.ilike (r !! "organization") (default "" (Filters.search filters))
           || DB.ilike (r !! "description") (default "" (Filters.search filters))
      else true)
  && (if JS.nonempty (Filters.tags filters)
      then DB.has_any (r !! "tags") (default [] (Filters.tags filters)) else true).

Definition getProjects (t : DB.table) (filters : Filters.t)
  : result (DB.table * Pagination) :=
  let t := ensureTables t in
  list_rows (Filters.page filters) (Filters.limit filters) (where_ filters) t.

Definition getProjectById (t : DB.table) (projectId : string) : option DB.row :=
  let t := ensureTables t in
  get_by_id t projectId.

(** The mapping createProject hands to insertInTenantSchema. *)
Definition createProject_data (projectData : ProjectData) (createdBy : string)
  : result (gmap string value) :=
  if negb (JS.truthy_str (title projectData)) then Throw "Título é obrigatório"
  else if negb (JS.truthy_str (clientName projectData)) then Throw "Cliente é obrigatório"
  else if negb (JS.truthy_str (startDate projectData))
  then Throw "Data de início é obrigatória"
  else if negb (JS.truthy_str (dueDate projectData))
  then Throw "Data de vencimento é obrigatória"
  else if String.eqb createdBy "" then Throw "Usuário não identificado"
  else
    Ok (<["title" := JS.str (title projectData)]>
       (<["client_name" := JS.str (clientName projectData)]>
       (<["status" := JS.str_or (status projectData) (VStr "contacted")]>
       (<["priority" := JS.str_or (priority projectData) (VStr "medium")]>
       (<["start_date" := JS.str (startDate projectData)]>
       (<["due_date" := JS.str (dueDate projectData)]>
       (<["created_by" := VStr createdBy]>
       (<["description" := JS.str_or (description projectData) (VStr "")]>
       (<["client_id" := JS.str_or (clientId projectData) VNull]>
       (<["organization" := JS.str_or (organization projectData) (VStr "")]>
       (<["address" := JS.str_or (address projectData) (VStr "")]>
       (<["budget" := JS.num_nullish (budget projectData) (VNum 0)]>
       (<["currency" := JS.str_or (currency projectData) (VStr "BRL")]>
       (<["progress" := JS.num_nullish (progress projectData) (VNum 0)]>
       (<["tags" := JS.strs_or (tags projectData) (VArr [])]>
       (<["assigned_to" := JS.strs_or (assignedTo projectData) (VArr [])]>
       (<["contacts" := JS.arr_or (contacts projectData) (VArr [])]>
       (<["notes" := JS.str_or (notes projectData) (VStr "")]> ∅)))))))))))))))))).

Definition createProject (new_id : string) (now : Z) (t : DB.table)
    (projectData : ProjectData) (createdBy : string) : result (DB.table * DB.row) :=
  let t := ensureTables t in
  bind (createProject_data projectData createdBy) (fun data =>
  DB.insertInTenantSchema table_def new_id now t data).

(** The mapping updateProject hands to updateInTenantSchema. *)
Definition updateProject_data (updateData : ProjectData) : result (gmap string value) :=
  let data : gmap string value := ∅ in
  let data := set_if (JS.defined (title updateData)) "title" (JS.str (title updateData)) data in
  let data := set_if (JS.defined (description updateData))
                "description" (JS.str (description updateData)) data in
  let data := set_if (JS.defined (clientId updateData))
                "client_id" (JS.str (clientId updateData)) data in
  let data := set_if (JS.defined (clientName updateData))
                "client_name" (JS.str (clientName updateData)) data in
  let data := set_if (JS.defined (organization updateData))
                "organization" (JS.str (organization updateData)) data in
  let data := set_if (JS.defined (address updateData))
                "address" (JS.str (address updateData)) data in
  let data := set_if (JS.defined (budget updateData)) "budget" (JS.num (budget updateData)) data in
  let data := set_if (JS.defined (currency updateData))
                "currency" (JS.str (currency updateData)) data in
  let data := set_if (JS.defined (status updateData)) "status" (JS.str (status updateData)) data in
  let data := set_if (JS.defined (priority updateData))
                "priority" (JS.str (priority updateData)) data in
  let data := set_if (JS.defined (progress updateData))
                "progress" (JS.num (progress updateData)) data in
  let data := set_if (JS.defined (startDate updateData))
                "start_date" (JS.str (startDate updateData)) data in
  let data := set_if (JS.defined (dueDate updateData))
                "due_date" (JS.str (dueDate updateData)) data in
  let data := set_if (JS.defined (tags updateData)) "tags" (JS.strs (tags updateData)) data in
  let data := set_if (JS.defined (assignedTo updateData))
                "assigned_to" (JS.strs (assignedTo updateData)) data in
  let data := set_if (JS.defined (notes updateData)) "notes" (JS.str (notes updateData)) data in
  let data := set_if (JS.defined (contacts updateData))
                "contacts" (JS.arr (contacts updateData)) data in
  if (size data =? 0)%nat then Throw "No fields to update" else Ok data.

Definition updateProject (now : Z) (t : DB.table) (projectId : string)
    (updateData : ProjectData) : result (DB.table * option DB.row) :=
  let t := ensureTables t in
  bind (updateProject_data updateData) (fun data =>
  DB.updateInTenantSchema table_def now t projectId data).

Definition deleteProject (t : DB.table) (projectId : string) : DB.table * bool :=
  let t := ensureTables t in
  let '(t', project) := DB.softDeleteInTenantSchema t projectId in
  (t', match project with Some _ => true | None => false end).

End ProjectsService.

(** ** Clients service *)

Module ClientsService.

(** [CreateClientData], every member optional as in [UpdateClientData]. *)
Record ClientData : Type := {
  name : option string;
  email : option string;
  mobile : option string;
  phone : option string;
  organization : option string;
  country : option string;
  state : option string;
  city : option string;
  address : option string;
  zipCode : option string;
  budget : option Z;
  currency : option string;
  level : option string;
  status : option string;
  tags : option (list string);
  notes : option string;
  description : option string;
  cpf : option string;
  rg : option string;
  pis : option string;
  cei : option string;
  professionalTitle : option string;
  maritalStatus : option string;
  birthDate : option string;
  inssStatus : option string;
  amountPaid : option Z;
  referredBy : option string;
  registeredBy : option string
}.

Module Filters.
Record t : Type := {
  page : option Z;
  limit : option Z;
  status : option string;
  search : option string;
  tags : option (list string)
}.
End Filters.

Definition statuses : list string := ["active"; "inactive"; "pending"].
Definition currencies : list string := ["BRL"; "USD"; "EUR"].

(** The CREATE TABLE statement of ensureTables: NOT NULL columns and
    DEFAULT clauses; the statement has no CHECK constraint. *)
Definition table_def : DB.table_def := {|
  DB.required := ["name"; "email"; "created_by"];
  DB.defaults := fun now =>
    <["address" := DB.Jsonb (VObj [])]>
    (<["currency" := DB.Scalar (VStr "BRL")]>
    (<["status" := DB.Scalar (VStr "active")]>
    (<["tags" := DB.Jsonb (VArr [])]>
    (<["created_at" := DB.Scalar (VNum now)]>
    (<["updated_at" := DB.Scalar (VNum now)]>
    (<["is_active" := DB.Scalar (VBool true)]> ∅))))));
  DB.checks := fun _ => true
|}.

(** CREATE TABLE IF NOT EXISTS and CREATE INDEX IF NOT EXISTS leave the
    rows of an existing table as they are. *)
Definition ensureTables (t : DB.table) : DB.table := t.

Definition where_ (filters : Filters.t) (r : DB.row) : bool :=
  DB.is_true (r !! "is_active")
  && (if JS.truthy_str (Filters.status filters)
      then DB.text_eq (r !! "status") (default "" (Filters.status filters)) else true)
  && (if JS.truthy_str (Filters.search filters)
      then DB.ilike (r !! "name") (default "" (Filters.search filters))
           || DB.ilike (r !! "email") (default "" (Filters.search filters))
      else true)
  && (if JS.nonempty (Filters.tags filters)
      then DB.has_any (r !! "tags") (default [] (Filters.tags filters)) else true).

Definition getClients (t : DB.table) (filters : Filters.t)
  : result (DB.table * Pagination) :=
  let t := ensureTables t in
  list_rows (Filters.page filters) (Filters.limit filters) (where_ filters) t.

Definition getClientById (t : DB.table) (clientId : string) : option DB.row :=
  let t := ensureTables t in
  get_by_id t clientId.

(** The mapping createClient hands to insertInTenantSchema. *)
Definition createClient_data (clientData : ClientData) (createdBy : string)
  : gmap string value :=
  let data : gmap string value :=
    <["name" := JS.str (name clientData)]>
    (<["email" := JS.str (email clientData)]>
    (<["phone" := JS.str_or (mobile clientData) (JS.str_or (phone clientData) VNull)]>
    (<["organization" := JS.str_or (organization clientData) VNull]>
    (<["address" := JS.JSON_stringify (VObj
         [("street", JS.str_or (address clientData) (VStr ""));
          ("city", JS.str_or (city clientData) (VStr ""));
          ("state", JS.str_or (state clientData) (VStr ""));
          ("zipCode", JS.str_or (zipCode clientData) (VStr ""));
          ("country", JS.str_or (country clientData) (VStr "BR"))])]>
    (<["budget" := JS.num_or (budget clientData) VNull]>
    (<["currency" := JS.str_or (currency clientData) (VStr "BRL")]>
    (<["status" := JS.str_or (status clientData) (VStr "active")]>
    (<["tags" := JS.strs_or (tags clientData) (VArr [])]>
    (<["notes" := JS.str_or (description clientData) (JS.str_or (notes clientData) VNull)]>
    (<["cpf" := JS.str_or (cpf clientData) VNull]>
    (<["rg" := JS.str_or (rg clientData) VNull]>
    (<["professional_title" := JS.str_or (professionalTitle clientData) VNull]>
    (<["marital_status" := JS.str_or (maritalStatus clientData) VNull]>
    (<["created_by" := VStr createdBy]> ∅)))))))))))))) in
  set_if (JS.truthy_str (birthDate clientData)
          && negb (String.eqb (JS.trim (default "" (birthDate clientData))) ""))
    "birth_date" (JS.str (birthDate clientData)) data.

Definition createClient (new_id : string) (now : Z) (t : DB.table)
    (clientData : ClientData) (createdBy : string) : result (DB.table * DB.row) :=
  let t := ensureTables t in
  DB.insertInTenantSchema table_def new_id now t (createClient_data clientData createdBy).

(** The mapping updateClient hands to updateInTenantSchema. *)
Definition updateClient_data (updateData : ClientData) : result (gmap string value) :=
  let data : gmap string value := ∅ in
  let data := set_if (JS.defined (name updateData)) "name" (JS.str (name updateData)) data in
  let data := set_if (JS.defined (email updateData)) "email" (JS.str (email updateData)) data in
  let data := set_if (JS.defined (phone updateData)) "phone" (JS.str (phone updateData)) data in
  let data := set_if (JS.defined (organization updateData))
                "organization" (JS.str (organization updateData)) data in
  let data := set_if (JS.defined (address updateData))
                "address" (JS.JSON_stringify (JS.str (address updateData))) data in
  let data := set_if (JS.defined (budget updateData)) "budget" (JS.num (budget updateData)) data in
  let data := set_if (JS.defined (currency updateData))
                "currency" (JS.str (currency updateData)) data in
  let data := set_if (JS.defined (status updateData)) "status" (JS.str (status updateData)) data in
  let data := set_if (JS.defined (tags updateData)) "tags" (JS.strs (tags updateData)) data in
  let data := set_if (JS.defined (notes updateData)) "notes" (JS.str (notes updateData)) data in
  let data := set_if (JS.defined (cpf updateData)) "cpf" (JS.str (cpf updateData)) data in
  let data := set_if (JS.defined (rg updateData)) "rg" (JS.str (rg updateData)) data in
  let data := set_if (JS.defined (professionalTitle updateData))
                "professional_title" (JS.str (professionalTitle updateData)) data in
  let data := set_if (JS.defined (maritalStatus updateData))
                "marital_status" (JS.str (maritalStatus updateData)) data in
  let data := set_if (JS.defined (birthDate updateData))
                "birth_date" (JS.str (birthDate updateData)) data in
  if (size data =? 0)%nat then Throw "No fields to update" else Ok data.

Definition updateClient (now : Z) (t : DB.table) (clientId : string)
    (updateData : ClientData) : result (DB.table * option DB.row) :=
  let t := ensureTables t in
  bind (updateClient_data updateData) (fun data =>
  DB.updateInTenantSchema table_def now t clientId data).

Definition deleteClient (t : DB.table) (clientId : string) : DB.table * bool :=
  let t := ensureTables t in
  let '(t', client) := DB.softDeleteInTenantSchema t clientId in
  (t', match client with Some _ => true | None => false end).

(** What getClientsStats returns. *)
Module Stats.
Record t : Type := {
  total : Z;
  active : Z;
  inactive : Z;
  pending : Z;
  thisMonth : Z
}.
End Stats.

(** The aggregate query of getClientsStats over the rows with
    [is_active = TRUE]. [month_start] is the database clock's
    [DATE_TRUNC('month', NOW())], in the seconds timestamps count; a row
    without a creation time is not of this month. *)
Definition getClientsStats (month_start : Z) (t : DB.table) : Stats.t :=
  let t := ensureTables t in
  let active := List.filter (fun r => DB.is_true (r !! "is_active")) t in
  {| Stats.total := count_rows (fun _ => true) active;
     Stats.active := count_rows (fun r => DB.text_eq (r !! "status") "active") active;
     Stats.inactive := count_rows (fun r => DB.text_eq (r !! "status") "inactive") active;
     Stats.pending := count_rows (fun r => DB.text_eq (r !! "status") "pending") active;
     Stats.thisMonth :=
       count_rows (fun r => match DB.created_at r with
                            | Some n => (month_start <=? n)%Z
                            | None => false
                            end) active |}.

End ClientsService.

(** ** The ensure-schema step and statement failures *)

Module EnsureTables.

(** What [console.log] has printed, oldest first; the error object printed
    after the text is left out. *)
Abbreviation log := (list string).

Section Executor.

(** The tenant database: some state, and one entry point that runs a
    statement in the tenant's schema and either returns rows or rejects.
    [TenantDatabase.executeInTenantSchema] (config/database) is not among
    the sources, so it is a parameter here. *)
Variable S : Type.
Variable executeInTenantSchema : S -> string -> S * result (list (gmap string value)).

(** Modelled from the spec: queryTenantSchema (utils/tenantHelpers is not
    among the sources) runs the statement through the executor and returns
    its rows; a failure of the executor is surfaced to the caller. *)
Definition queryTenantSchema (s : S) (sql : string)
  : S * result (list (gmap string value)) :=
  executeInTenantSchema s sql.

(** [try { await tenantDB.executeInTenantSchema(sql) } catch (e) { console.log(msg, e) }] *)
Definition attempt (msg sql : string) (st : S * log) : S * log :=
  let '(s, l) := st in
  match executeInTenantSchema s sql with
  | (s', Ok _) => (s', l)
  | (s', Throw _) => (s', l ++ [msg])
  end.

(** [for (const q of stmts) { await queryTenantSchema(tenantDB, q) }] *)
Fixpoint run_all (stmts : list string) (s : S) : S * result unit :=
  match stmts with
  | [] => (s, Ok tt)
  | q :: rest =>
      match queryTenantSchema s q with
      | (s', Ok _) => run_all rest s'
      | (s', Throw e) => (s', Throw e)
      end
  end.

(** *** ProjectsService.ensureTables *)

Definition projects_checkTableQuery : string :=
  "SELECT EXISTS ( SELECT FROM information_schema.tables WHERE table_schema = '${schema}' AND table_name = 'projects' )".

Definition projects_alterStatements : list string := [
  "ALTER TABLE ${schema}.projects ADD COLUMN IF NOT EXISTS organization VARCHAR(255)";
  "ALTER TABLE ${schema}.projects ADD COLUMN IF NOT EXISTS address VARCHAR(255)";
  "ALTER TABLE ${schema}.projects ADD COLUMN IF NOT EXISTS currency VARCHAR(3) DEFAULT 'BRL'";
  "ALTER TABLE ${schema}.projects ADD COLUMN IF NOT EXISTS due_date TIMESTAMP WITH TIME ZONE";
  "ALTER TABLE ${schema}.projects ADD COLUMN IF NOT EXISTS completed_at TIMESTAMP WITH TIME ZONE";
  "ALTER TABLE ${schema}.projects ADD COLUMN IF NOT EXISTS assigned_to JSONB DEFAULT '[]'::jsonb";
  "ALTER TABLE ${schema}.projects ADD COLUMN IF NOT EXISTS contacts JSONB DEFAULT '[]'::jsonb"
].

(** The five statements that follow the loop, each with the text its
    [catch] prints. *)
Definition projects_migrations : list (string * string) := [
  ("Error migrating end_date to due_date:",
   "UPDATE ${schema}.projects SET due_date = end_date WHERE due_date IS NULL AND end_date IS NOT NULL");
  ("Error filling NULL start_date:",
   "UPDATE ${schema}.projects SET start_date = created_at WHERE start_date IS NULL");
  ("Error filling NULL due_date:",
   "UPDATE ${schema}.projects SET due_date = created_at + INTERVAL '30 days' WHERE due_date IS NULL");
  ("Column start_date already NOT NULL or error:",
   "ALTER TABLE ${schema}.projects ALTER COLUMN start_date SET NOT NULL");
  ("Column due_date already NOT NULL or error:",
   "ALTER TABLE ${schema}.projects ALTER COLUMN due_date SET NOT NULL")
].

(** [!tableExists || tableExists.length === 0 || !tableExists[0].exists] *)
Definition table_missing (rows : list (gmap string value)) : bool :=
  match rows with
  | [] => true
  | r :: _ => negb (JS.truthy (default VUndef (r !! "exists")))
  end.

Definition projects_ensureTables (st : S * log) : S * log * result unit :=
  let '(s, l) := st in
  match queryTenantSchema s projects_checkTableQuery with
  | (s', Throw e) => (s', l, Throw e)
  | (s', Ok tableExists) =>
      if table_missing tableExists
      then (s', l ++ ["Table projects does not exist in tenant schema"], Ok tt)
      else
        let st := fold_left (fun st sql => attempt "Alter table statement failed (ignored):" sql st)
                    projects_alterStatements (s', l) in
        let st := fold_left (fun st m => attempt (fst m) (snd m) st)
                    projects_migrations st in
        (st, Ok tt)
  end.

(** *** TasksService.ensureTables *)

Definition tasks_createTableQuery : string :=
  "CREATE TABLE IF NOT EXISTS ${schema}.tasks ( "
  +:+ "id UUID PRIMARY KEY DEFAULT gen_random_uuid(), "
  +:+ "title VARCHAR NOT NULL, description TEXT, project_id UUID, project_title VARCHAR, "
  +:+ "client_id UUID, client_name VARCHAR, assigned_to VARCHAR NOT NULL, "
  +:+ "status VARCHAR DEFAULT 'not_started' CHECK (status IN ('not_started', 'in_progress', 'completed', 'on_hold', 'cancelled')), "
  +:+ "priority VARCHAR DEFAULT 'medium' CHECK (priority IN ('low', 'medium', 'high', 'urgent')), "
  +:+ "start_date DATE, end_date DATE, estimated_hours DECIMAL(5,2), actual_hours DECIMAL(5,2), "
  +:+ "progress INTEGER DEFAULT 0 CHECK (progress >= 0 AND progress <= 100), "
  +:+ "tags JSONB DEFAULT '[]'::jsonb, notes TEXT, subtasks JSONB DEFAULT '[]'::jsonb, "
  +:+ "created_by VARCHAR NOT NULL, created_at TIMESTAMP DEFAULT NOW(), "
  +:+ "updated_at TIMESTAMP DEFAULT NOW(), is_active BOOLEAN DEFAULT TRUE )".

Definition index_on (tableName column suffix : string) : string :=
  "CREATE INDEX IF NOT EXISTS idx_" +:+ tableName +:+ "_" +:+ suffix
  +:+ " ON ${schema}." +:+ tableName +:+ "(" +:+ column +:+ ")".

Definition tasks_indexes : list string := [
  index_on "tasks" "assigned_to" "assigned_to";
  index_on "tasks" "status" "status";
  index_on "tasks" "priority" "priority";
  index_on "tasks" "project_id" "project_id";
  index_on "tasks" "client_id" "client_id";
  index_on "tasks" "is_active" "active";
  index_on "tasks" "created_by" "created_by"
].

Definition tasks_ensureTables (s : S) : S * result unit :=
  match queryTenantSchema s tasks_createTableQuery with
  | (s', Throw e) => (s', Throw e)
  | (s', Ok _) => run_all tasks_indexes s'
  end.

(** *** ClientsService.ensureTables *)

Definition clients_createTableQuery : string :=
  "CREATE TABLE IF NOT EXISTS ${schema}.clients ( "
  +:+ "id UUID PRIMARY KEY DEFAULT gen_random_uuid(), "
  +:+ "name VARCHAR NOT NULL, email VARCHAR NOT NULL, phone VARCHAR, organization VARCHAR, "
  +:+ "address JSONB DEFAULT '{}', budget DECIMAL(15,2), currency VARCHAR(3) DEFAULT 'BRL', "
  +:+ "level VARCHAR, status VARCHAR DEFAULT 'active', tags JSONB DEFAULT '[]', notes TEXT, "
  +:+ "description TEXT, cpf VARCHAR, rg VARCHAR, pis VARCHAR, cei VARCHAR, "
  +:+ "professional_title VARCHAR, marital_status VARCHAR, birth_date DATE, "
  +:+ "inss_status VARCHAR, amount_paid DECIMAL(15,2), referred_by VARCHAR, "
  +:+ "registered_by VARCHAR, created_by VARCHAR NOT NULL, "
  +:+ "created_at TIMESTAMP DEFAULT NOW(), updated_at TIMESTAMP DEFAULT NOW(), "
  +:+ "is_active BOOLEAN DEFAULT TRUE )".

Definition clients_indexes : list string := [
  index_on "clients" "name" "name";
  index_on "clients" "email" "email";
  index_on "clients" "status" "status";
  index_on "clients" "is_active" "active";
  index_on "clients" "created_by" "created_by"
].

Definition clients_ensureTables (s : S) : S * result unit :=
  match queryTenantSchema s clients_createTableQuery with
  | (s', Throw e) => (s', Throw e)
  | (s', Ok _) => run_all clients_indexes s'
  end.

(** A service operation: [await this.ensureTables(tenantDB)] and then the
    rest of the operation, which runs only when the ensure step returned. *)
Definition then_ {A} (ensured : S * result unit) (rest : S -> S * result A)
  : S * result A :=
  match ensured with
  | (s, Ok _) => rest s
  | (s, Throw e) => (s, Throw e)
  end.

End Executor.

End EnsureTables.

(** ** Tenant access middleware *)

Module TenantAccess.

(** [req.user], with the members the middleware reads. *)
Record User : Type := {
  id : option string;
  userId : option string;
  tenantId : option string;
  role : option string;
  accountType : option string
}.

(** What the middleware stores in [req.tenant]. *)
Record Tenant : Type := {
  tenant_id : string;
  name : string;
  isActive : bool
}.

(** Modelled from the spec: the TenantDatabase handle (config/database is
    not among the sources) binds a tenant id to its schema name. *)
Record TenantDatabase : Type := {
  handle_tenantId : string;
  schemaName : string
}.

Record TenantRequest : Type := {
  user : option User;
  tenant : option Tenant;
  tenantDB : option TenantDatabase
}.

(** Calls made to the tenant directory and the handle factory. *)
Inductive call : Type :=
| GetTenantById (tenantId : string)
| GetTenantDatabase (tenantId : string).

(** How the middleware ends: a response with a status and an error text,
    or [next()] with the request as it then is. *)
Inductive outcome : Type :=
| Respond (status : Z) (error : string)
| Next (req : TenantRequest).

Section Directory.

(** [database.getTenantById] and [tenantDB.getTenantDatabase] of
    config/database, which is not among the sources; either may reject. *)
Variable getTenantById : string -> result (option Tenant).
Variable getTenantDatabase : string -> result TenantDatabase.

Definition role_is (u : User) (r : string) : bool :=
  bool_decide (role u = Some r).

(** The middleware. Its outer [catch], which answers 500, guards only the
    dynamic import of config/database; module loading is taken to succeed. *)
Definition validateTenantAccess (req : TenantRequest) : list call * outcome :=
  match user req with
  | None => ([], Respond 401 "Authentication required")
  | Some u =>
      if role_is u "admin" || role_is u "superadmin" then ([], Next req)
      else if bool_decide (id u = Some "demo-user-id") then
        ([], Next {| user := user req;
                     tenant := Some {| tenant_id := "demo-tenant-id";
                                       name := "Demo Tenant";
                                       isActive := true |};
                     tenantDB := Some {| handle_tenantId := "demo-tenant-id";
                                         schemaName := "tenant_demotenantid" |} |})
      else if negb (JS.truthy_str (tenantId u)) then
        ([], Respond 403 "Access denied: Invalid user tenant association")
      else
        let tid := default "" (tenantId u) in
        match getTenantById tid with
        | Throw _ => ([GetTenantById tid], Respond 503 "Service temporarily unavailable")
        | Ok None => ([GetTenantById tid], Respond 403 "Access denied: Tenant not found")
        | Ok (Some t) =>
            if negb (isActive t) then
              ([GetTenantById tid], Respond 403 "Access denied: Tenant is inactive")
            else
              match getTenantDatabase tid with
              | Throw _ =>
                  ([GetTenantById tid; GetTenantDatabase tid],
                   Respond 503 "Service temporarily unavailable")
              | Ok h =>
                  ([GetTenantById tid; GetTenantDatabase tid],
                   Next {| user := user req;
                           tenant := Some {| tenant_id := tenant_id t;
                                             name := name t;
                                             isActive := isActive t |};
                           tenantDB := Some h |})
              end
        end
  end.

(** A route protected by the middleware: the handler, and with it every
    service operation of the request, runs only after [next()]. *)
Definition handle {A} (handler : TenantRequest -> A) (req : TenantRequest)
  : outcome + A :=
  match snd (validateTenantAccess req) with
  | Next req' => inr (handler req')
  | o => inl o
  end.

End Directory.

(** ensureTenantIsolation(allowedAccountTypes); [None] is a call without
    the argument. The middleware reads [user.role] without a guard, so a
    request without a user makes it throw. An array is truthy even when it
    is empty. *)
Definition ensureTenantIsolation (allowedAccountTypes : option (list string))
    (req : TenantRequest) : result outcome :=
  match user req with
  | None => Throw "TypeError: Cannot read properties of undefined (reading 'role')"
  | Some u =>
      if role_is u "admin" || role_is u "superadmin" then Ok (Next req)
      else
        match allowedAccountTypes with
        | Some allowed =>
            if negb (existsb (fun a => bool_decide (accountType u = Some a)) allowed)
            then Ok (Respond 403 "Access denied: Insufficient account permissions")
            else Ok (Next req)
        | None => Ok (Next req)
        end
  end.

End TenantAccess.

(** ** Client-side list hooks *)

Module UseClients.
Section Hook.

(** The rows of the list and the sample data of data/mockData, which is
    not among the sources. *)
Variable Client : Type.
Variable mockClients : list Client.

(** The hook's three [useState] cells. *)
Record State : Type := {
  clients : list Client;
  isLoading : bool;
  error : option string
}.

(** What [apiService.getClients] resolves to, and what loadClients returns. *)
Record Response : Type := {
  response_clients : option (list Client);
  response_pagination : option Pagination
}.

Definition setClients (v : list Client) (st : State) : State :=
  {| clients := v; isLoading := isLoading st; error := error st |}.
Definition setIsLoading (v : bool) (st : State) : State :=
  {| clients := clients st; isLoading := v; error := error st |}.
Definition setError (v : option string) (st : State) : State :=
  {| clients := clients st; isLoading := isLoading st; error := v |}.

Definition loadClients (api : result Response) (st : State) : State * Response :=
  let st := setIsLoading true st in
  let st := setError None st in
  let '(st, ret) :=
    match api with
    | Ok response =>
        match response_clients response with
        | None | Some [] =>
            (setClients mockClients st,
             {| response_clients := Some mockClients; response_pagination := None |})
        | Some l => (setClients l st, response)
        end
    | Throw _ =>
        let st := setError None st in
        let st := setClients mockClients st in
        (st, {| response_clients := Some mockClients; response_pagination := None |})
    end in
  (setIsLoading false st, ret).

End Hook.

Arguments clients {Client} s.
Arguments isLoading {Client} s.
Arguments error {Client} s.
Arguments response_clients {Client} r.
Arguments response_pagination {Client} r.
Arguments loadClients {Client} mockClients api st.

(** *** The mutations of the hook *)

Section Mutations.

Variable Client : Type.
Variable mockClients : list Client.

(** apiService (services/apiService is not among the sources): the server
    behind it is some state, and each call may change it and may reject.
    [Data] is the [data: any] handed to create and update, [Saved] what
    these calls resolve to; the members of them the hook reads are
    [data.name], [data.email] and [response.client?.id]. *)
Variable Server : Type.
Variable Data : Type.
Variable Saved : Type.
Variable data_name : Data -> value.
Variable data_email : Data -> value.
Variable client_id : Saved -> value.
Variable api_getClients : Server -> Server * result (Response Client).
Variable api_createClient : Server -> Data -> Server * result Saved.
Variable api_updateClient : Server -> string -> Data -> Server * result Saved.
Variable api_deleteClient : Server -> string -> Server * result unit.
Variable api_createNotification : Server -> value -> Server * result unit.

(** [await loadClients()]: the list call, then the state changes of
    loadClients on what it returned. *)
Definition reload (w : Server * State Client) : Server * State Client :=
  let '(srv, st) := w in
  let '(srv', api) := api_getClients srv in
  (srv', fst (loadClients mockClients api st)).

(** The notification createClient sends after a successful create. *)
Definition client_created (data : Data) (response : Saved) : value :=
  VObj [("type", VStr "client");
        ("title", VStr "Novo Cliente Cadastrado");
        ("message", VStr (JS.to_string (data_name data) +:+ " foi adicionado ao CRM"));
        ("payload", VObj [("clientId", client_id response);
                          ("clientName", data_name data);
                          ("clientEmail", data_email data);
                          ("action", VStr "client_created")]);
        ("link", VStr "/crm")].

(** createClient: the inner [try] swallows a failure of the notification;
    the outer [catch] rethrows. *)
Definition createClient (data : Data) (w : Server * State Client)
  : (Server * State Client) * result Saved :=
  let '(srv, st) := w in
  match api_createClient srv data with
  | (srv, Throw err) => ((srv, st), Throw err)
  | (srv, Ok response) =>
      let '(srv, _) := api_createNotification srv (client_created data response) in
      (reload (srv, st), Ok response)
  end.

Definition updateClient (id : string) (data : Data) (w : Server * State Client)
  : (Server * State Client) * result Saved :=
  let '(srv, st) := w in
  match api_updateClient srv id data with
  | (srv, Throw err) => ((srv, st), Throw err)
  | (srv, Ok response) => (reload (srv, st), Ok response)
  end.

Definition deleteClient (id : string) (w : Server * State Client)
  : (Server * State Client) * result unit :=
  let '(srv, st) := w in
  match api_deleteClient srv id with
  | (srv, Throw err) => ((srv, st), Throw err)
  | (srv, Ok _) => (reload (srv, st), Ok tt)
  end.

End Mutations.

Arguments reload {Client} mockClients {Server} api_getClients w.
Arguments client_created {Data Saved} data_name data_email client_id data response.
Arguments createClient {Client} mockClients {Server Data Saved}
  data_name data_email client_id api_getClients api_createClient api_createNotification data w.
Arguments updateClient {Client} mockClients {Server Data Saved}
  api_getClients api_updateClient id data w.
Arguments deleteClient {Client} mockClients {Server} api_getClients api_deleteClient id w.

End UseClients.

Module UseProjects.

(** The hook's [Project]; the sample projects of data/mockData have the
    same members, with a priority that may also be ['urgent']. *)
Record Project : Type := {
  id : string;
  title : string;
  description : option string;
  clientId : option string;
  clientName : string;
  organization : option string;
  address : option string;
  budget : option Z;
  currency : string;
  status : string;
  priority : string;
  progress : Z;
  startDate : option string;
  dueDate : option string;
  completedAt : option string;
  tags : list string;
  assignedTo : list string;
  notes : option string;
  contacts : list value;
  createdAt : string;
  updatedAt : string
}.

Record ByStatus : Type := { contacted : Z; proposal : Z; won : Z; lost : Z }.
Record ByPriority : Type := { low : Z; medium : Z; high : Z }.

Record ProjectStats : Type := {
  total : Z;
  avgProgress : Z;
  overdue : Z;
  revenue : Z;
  byStatus : ByStatus;
  byPriority : ByPriority
}.

Record State : Type := {
  projects : list Project;
  stats : option ProjectStats;
  isLoading : bool;
  error : option string
}.

Record Response : Type := {
  response_projects : option (list Project);
  response_pagination : option Pagination
}.

Definition setProjects (v : list Project) (st : State) : State :=
  {| projects := v; stats := stats st; isLoading := isLoading st; error := error st |}.
Definition setStats (v : option ProjectStats) (st : State) : State :=
  {| projects := projects st; stats := v; isLoading := isLoading st; error := error st |}.
Definition setIsLoading (v : bool) (st : State) : State :=
  {| projects := projects st; stats := stats st; isLoading := v; error := error st |}.
Definition setError (v : option string) (st : State) : State :=
  {| projects := projects st; stats := stats st; isLoading := isLoading st; error := v |}.

Section Hook.

Variable mockProjectsData : list Project.

(** The clock: today's local midnight, and the local midnight of the day
    a date string denotes ([None] for an invalid date). *)
Variable today : Z.
Variable midnight_of : string -> option Z.

Definition count (f : Project -> bool) (l : list Project) : Z :=
  Z.of_nat (length (List.filter f l)).

Definition sum (f : Project -> Z) (l : list Project) : Z :=
  fold_left (fun acc p => (acc + f p)%Z) l 0%Z.

(** [Math.round(a / b)] for integers, [b] positive: halves round up. *)
Definition round_div (a b : Z) : Z := ((2 * a + b) / (2 * b))%Z.

Definition is_overdue (p : Project) : bool :=
  if negb (JS.truthy_str (dueDate p)) then false
  else match midnight_of (default "" (dueDate p)) with
       | Some d => (d <? today)%Z
                   && negb (String.eqb (status p) "won")
                   && negb (String.eqb (status p) "lost")
       | None => false
       end.

Definition calculateStatsFromProjects (projectsList : list Project) : ProjectStats :=
  {| total := Z.of_nat (length projectsList);
     avgProgress :=
       if (0 <? length projectsList)%nat
       then round_div (sum progress projectsList) (Z.of_nat (length projectsList))
       else 0%Z;
     overdue := count is_overdue projectsList;
     revenue :=
       sum (fun p => default 0%Z (budget p))
           (List.filter (fun p => String.eqb (status p) "won") projectsList);
     byStatus :=
       {| contacted := count (fun p => String.eqb (status p) "contacted") projectsList;
          proposal := count (fun p => String.eqb (status p) "proposal") projectsList;
          won := count (fun p => String.eqb (status p) "won") projectsList;
          lost := count (fun p => String.eqb (status p) "lost") projectsList |};
     byPriority :=
       {| low := count (fun p => String.eqb (priority p) "low") projectsList;
          medium := count (fun p => String.eqb (priority p) "medium") projectsList;
          high := count (fun p => String.eqb (priority p) "high") projectsList |} |}.

Definition convertProjects (projectsList : list Project) : list Project :=
  (fun p =>
     {| id := id p; title := title p; description := description p;
        clientId := clientId p; clientName := clientName p;
        organization := organization p; address := address p;
        budget := budget p; currency := currency p; status := status p;
        priority := if String.eqb (priority p) "urgent" then "high" else priority p;
        progress := progress p; startDate := startDate p; dueDate := dueDate p;
        completedAt := completedAt p; tags := tags p; assignedTo := assignedTo p;
        notes := notes p; contacts := contacts p;
        createdAt := createdAt p; updatedAt := updatedAt p |}) <$> projectsList.

Definition use_mock (st : State) : State * Response :=
  let convertedProjects := convertProjects mockProjectsData in
  let st := setProjects convertedProjects st in
  let mockStats := calculateStatsFromProjects convertedProjects in
  let st := setStats (Some mockStats) st in
  (st, {| response_projects := Some convertedProjects; response_pagination := None |}).

Definition loadProjects (api : result Response) (st : State) : State * Response :=
  let st := setIsLoading true st in
  let st := setError None st in
  let '(st, ret) :=
    match api with
    | Ok response =>
        match response_projects response with
        | None | Some [] => use_mock st
        | Some l => (setProjects l st, response)
        end
    | Throw _ =>
        let st := setError None st in
        use_mock st
    end in
  (setIsLoading false st, ret).

End Hook.
(** *** Statistics and mutations of the hook *)

Section Mutations.

Variable mockProjectsData : list Project.
Variable today : Z.
Variable midnight_of : string -> option Z.

(** apiService (services/apiService is not among the sources): the server
    behind it is some state, and each call may change it and may reject.
    [Data] is the [Partial<Project>] handed to create and update, [Saved]
    what these calls resolve to; the members of them the hook reads are
    [data.title] and [response.project?.id]. *)
Variable Server : Type.
Variable Data : Type.
Variable Saved : Type.
Variable data_title : Data -> value.
Variable project_id : Saved -> value.
Variable api_getProjects : Server -> Server * result Response.
Variable api_getProjectsStats : Server -> Server * result ProjectStats.
Variable api_createProject : Server -> Data -> Server * result Saved.
Variable api_updateProject : Server -> string -> Data -> Server * result Saved.
Variable api_deleteProject : Server -> string -> Server * result unit.
Variable api_createNotification : Server -> value -> Server * result unit.

(** loadStats. The [projects] it reads in its [catch] is the constant of
    the render that created the function, [rendered] here: state changes
    made meanwhile through [setProjects] do not reach it. *)
Definition loadStats (rendered : list Project) (api : result ProjectStats) (st : State)
  : State * ProjectStats :=
  match api with
  | Ok response => (setStats (Some response) st, response)
  | Throw _ =>
      if (0 <? length rendered)%nat then
        let calculatedStats := calculateStatsFromProjects today midnight_of rendered in
        (setStats (Some calculatedStats) st, calculatedStats)
      else
        let convertedProjects := convertProjects mockProjectsData in
        let mockStats := calculateStatsFromProjects today midnight_of convertedProjects in
        (setStats (Some mockStats) st, mockStats)
  end.

(** [await loadProjects(); await loadStats();] *)
Definition reload (rendered : list Project) (w : Server * State) : Server * State :=
  let '(srv, st) := w in
  let '(srv, listed) := api_getProjects srv in
  let st := fst (loadProjects mockProjectsData today midnight_of listed st) in
  let '(srv, counted) := api_getProjectsStats srv in
  (srv, fst (loadStats rendered counted st)).

(** The notification createProject sends after a successful create. *)
Definition project_created (data : Data) (response : Saved) : value :=
  VObj [("type", VStr "project");
        ("title", VStr "Novo Projeto Criado");
        ("message", VStr (JS.to_string (data_title data) +:+ " foi adicionado aos projetos"));
        ("payload", VObj [("projectId", project_id response);
                          ("projectTitle", data_title data);
                          ("action", VStr "project_created")]);
        ("link", VStr "/projetos")].

Definition createProject (rendered : list Project) (data : Data) (w : Server * State)
  : (Server * State) * result Saved :=
  let '(srv, st) := w in
  match api_createProject srv data with
  | (srv, Throw err) => ((srv, st), Throw err)
  | (srv, Ok response) =>
      let '(srv, _) := api_createNotification srv (project_created data response) in
      (reload rendered (srv, st), Ok response)
  end.

Definition updateProject (rendered : list Project) (id : string) (data : Data)
    (w : Server * State) : (Server * State) * result Saved :=
  let '(srv, st) := w in
  match api_updateProject srv id data with
  | (srv, Throw err) => ((srv, st), Throw err)
  | (srv, Ok response) => (reload rendered (srv, st), Ok response)
  end.

Definition deleteProject (rendered : list Project) (id : string) (w : Server * State)
  : (Server * State) * result unit :=
  let '(srv, st) := w in
  match api_deleteProject srv id with
  | (srv, Throw err) => ((srv, st), Throw err)
  | (srv, Ok _) => (reload rendered (srv, st), Ok tt)
  end.

End Mutations.

Arguments reload mockProjectsData today midnight_of {Server}
  api_getProjects api_getProjectsStats rendered w.
Arguments createProject mockProjectsData today midnight_of {Server Data Saved}
  data_title project_id api_getProjects api_getProjectsStats api_createProject
  api_createNotification rendered data w.
Arguments updateProject mockProjectsData today midnight_of {Server Data Saved}
  api_getProjects api_getProjectsStats api_updateProject rendered id data w.
Arguments deleteProject mockProjectsData today midnight_of {Server}
  api_getProjects api_getProjectsStats api_deleteProject rendered id w.

End UseProjects.

(** ** The tasks page *)

Module TasksPage.

(** [a.includes(b)]: [b] occurs in [a]. *)
Fixpoint starts_with (b a : list ascii) : bool :=
  match b, a with
  | [], _ => true
  | x :: b', y :: a' => Ascii.eqb x y && starts_with b' a'
  | _ :: _, [] => false
  end.

Fixpoint includes (a b : list ascii) : bool :=
  starts_with b a
  || match a with
     | [] => false
     | _ :: a' => includes a' b
     end.

(** [s.toLowerCase()]; case is folded for ASCII letters. *)
Definition toLowerCase (s : string) : list ascii :=
  DB.lower <$> list_ascii_of_string s.

(** [Array.from(new Set(l))]: the first occurrences, in order. *)
Fixpoint distinct (seen l : list string) : list string :=
  match l with
  | [] => []
  | x :: l' =>
      if existsb (String.eqb x) seen then distinct seen l'
      else x :: distinct (x :: seen) l'
  end.

Section Page.

(** [Task] of types/tasks, which is not among the sources: a parameter,
    with the members the page reads. *)
Variable Task : Type.
Variable title : Task -> string.
Variable description : Task -> option string.
Variable clientName : Task -> option string.
Variable status : Task -> string.
Variable priority : Task -> string.
Variable assignedTo : Task -> string.

(** [x?.toLowerCase().includes(...)] is [undefined], hence falsy, for an
    absent member. *)
Definition matchesSearch (searchTerm : string) (task : Task) : bool :=
  includes (toLowerCase (title task)) (toLowerCase searchTerm)
  || match description task with
     | Some d => includes (toLowerCase d) (toLowerCase searchTerm)
     | None => false
     end
  || match clientName task with
     | Some c => includes (toLowerCase c) (toLowerCase searchTerm)
     | None => false
     end.

Definition filteredTasks (tasks : list Task)
    (searchTerm statusFilter priorityFilter assigneeFilter : string) : list Task :=
  List.filter (fun task =>
    let matchesStatus :=
      String.eqb statusFilter "all" || String.eqb (status task) statusFilter in
    let matchesPriority :=
      String.eqb priorityFilter "all" || String.eqb (priority task) priorityFilter in
    let matchesAssignee :=
      String.eqb assigneeFilter "all" || String.eqb (assignedTo task) assigneeFilter in
    matchesSearch searchTerm task && matchesStatus && matchesPriority && matchesAssignee)
    tasks.

Record TaskBoard : Type := {
  board_id : string;
  board_name : string;
  board_color : string;
  board_tasks : list Task
}.

Definition taskBoards (filtered : list Task) : list TaskBoard := [
  {| board_id := "not_started"; board_name := "🔴 Não Feito"; board_color := "red";
     board_tasks := List.filter (fun task => String.eqb (status task) "not_started") filtered |};
  {| board_id := "in_progress"; board_name := "🟡 Em Progresso"; board_color := "yellow";
     board_tasks := List.filter (fun task => String.eqb (status task) "in_progress") filtered |};
  {| board_id := "completed"; board_name := "🟢 Feito"; board_color := "green";
     board_tasks := List.filter (fun task => String.eqb (status task) "completed") filtered |};
  {| board_id := "on_hold"; board_name := "⏸️ Pausado"; board_color := "gray";
     board_tasks := List.filter (fun task => String.eqb (status task) "on_hold") filtered |};
  {| board_id := "cancelled"; board_name := "❌ Cancelado"; board_color := "red";
     board_tasks := List.filter (fun task => String.eqb (status task) "cancelled") filtered |}
].

Record TaskStats : Type := {
  total : Z;
  notStarted : Z;
  inProgress : Z;
  completed : Z;
  onHold : Z;
  urgent : Z
}.

Definition taskStats (filtered : list Task) : TaskStats :=
  let count f := Z.of_nat (length (List.filter f filtered)) in
  {| total := Z.of_nat (length filtered);
     notStarted := count (fun t => String.eqb (status t) "not_started");
     inProgress := count (fun t => String.eqb (status t) "in_progress");
     completed := count (fun t => String.eqb (status t) "completed");
     onHold := count (fun t => String.eqb (status t) "on_hold");
     urgent := count (fun t => String.eqb (priority t) "urgent") |}.

Definition uniqueAssignees (tasks : list Task) : list string :=
  distinct [] (map assignedTo tasks).

End Page.

Arguments board_id {Task} t.
Arguments board_name {Task} t.
Arguments board_color {Task} t.
Arguments board_tasks {Task} t.
Arguments matchesSearch {Task} title description clientName searchTerm task.
Arguments filteredTasks {Task} title description clientName status priority assignedTo
  tasks searchTerm statusFilter priorityFilter assigneeFilter.
Arguments taskBoards {Task} status filtered.
Arguments taskStats {Task} status priority filtered.
Arguments uniqueAssignees {Task} assignedTo tasks.

End TasksPage.

(** * Vocabulary of the properties *)

(** ** What the properties speak about *)

(** The string consists of white space only. *)
Fixpoint all_space (s : string) : bool :=
  match s with
  | String c s' => JS.is_space c && all_space s'
  | EmptyString => true
  end.

(** The list call returned no rows, or failed. *)
Definition empty_or_failed {R A} (rows : R -> option (list A)) (api : result R) : Prop :=
  match api with
  | Throw _ => True
  | Ok response => rows response = None \/ rows response = Some []
  end.

(** What the soft delete does to one row. *)
Definition deactivate (id : string) (r : DB.row) : DB.row :=
  if DB.has_id id r then <["is_active" := DB.Scalar (VBool false)]> r else r.

(** A soft-deleted entity is hidden from get-by-id and from every list
    call, and its row stays in the table with is_active = false. *)
Definition soft_deleted_is_hidden {F : Type}
    (delete : DB.table -> string -> DB.table * bool)
    (getById : DB.table -> string -> option DB.row)
    (list : DB.table -> F -> result (DB.table * Pagination)) : Prop :=
  forall (t : DB.table) (id : string),
    snd (delete t id) = true ->
    let t' := fst (delete t id) in
    getById t' id = None
    /\ (forall filters rows pg r,
          list t' filters = Ok (rows, pg) -> r ∈ rows -> DB.has_id id r = false)
    /\ length t' = length t
    /\ exists r, r ∈ t' /\ DB.has_id id r = true
                 /\ r !! "is_active" = Some (DB.Scalar (VBool false)).

(** The row an update returns, if it returns one. *)
Definition updated_row (res : result (DB.table * option DB.row)) : option DB.row :=
  match res with
  | Ok (_, Some r) => Some r
  | _ => None
  end.

(** The mapping from column names to supplied values that a table of
    columns denotes: a column is supplied when its member is not
    [undefined]. *)
Definition supplied (columns : list (string * value)) (c : string) : option value :=
  match List.find (fun kv => String.eqb (fst kv) c) columns with
  | Some (_, VUndef) | None => None
  | Some (_, v) => Some v
  end.

(** The columns updateProject writes, each with the member it comes from. *)
Definition project_update_columns (u : ProjectsService.ProjectData)
  : list (string * value) :=
  [ ("title", JS.str (ProjectsService.title u));
    ("description", JS.str (ProjectsService.description u));
    ("client_id", JS.str (ProjectsService.clientId u));
    ("client_name", JS.str (ProjectsService.clientName u));
    ("organization", JS.str (ProjectsService.organization u));
    ("address", JS.str (ProjectsService.address u));
    ("budget", JS.num (ProjectsService.budget u));
    ("currency", JS.str (ProjectsService.currency u));
    ("status", JS.str (ProjectsService.status u));
    ("priority", JS.str (ProjectsService.priority u));
    ("progress", JS.num (ProjectsService.progress u));
    ("start_date", JS.str (ProjectsService.startDate u));
    ("due_date", JS.str (ProjectsService.dueDate u));
    ("tags", JS.strs (ProjectsService.tags u));
    ("assigned_to", JS.strs (ProjectsService.assignedTo u));
    ("notes", JS.str (ProjectsService.notes u));
    ("contacts", JS.arr (ProjectsService.contacts u)) ].

(** The columns updateTask writes; subtasks, which it serializes itself,
    is not listed. *)
Definition task_update_columns (u : TasksService.TaskData) : list (string * value) :=
  [ ("title", JS.str (TasksService.title u));
    ("description", JS.str (TasksService.description u));
    ("project_id", JS.str (TasksService.projectId u));
    ("project_title", JS.str (TasksService.projectTitle u));
    ("client_id", JS.str (TasksService.clientId u));
    ("client_name", JS.str (TasksService.clientName u));
    ("assigned_to", JS.str (TasksService.assignedTo u));
    ("status", JS.str (TasksService.status u));
    ("priority", JS.str (TasksService.priority u));
    ("start_date", JS.str (TasksService.startDate u));
    ("end_date", JS.str (TasksService.endDate u));
    ("estimated_hours", JS.num (TasksService.estimatedHours u));
    ("actual_hours", JS.num (TasksService.actualHours u));
    ("progress", JS.num (TasksService.progress u));
    ("tags", JS.strs (TasksService.tags u));
    ("notes", JS.str (TasksService.notes u)) ].

(** The columns updateClient writes; address, which it serializes
    itself, is not listed. *)
Definition client_update_columns (u : ClientsService.ClientData) : list (string * value) :=
  [ ("name", JS.str (ClientsService.name u));
    ("email", JS.str (ClientsService.email u));
    ("phone", JS.str (ClientsService.phone u));
    ("organization", JS.str (ClientsService.organization u));
    ("budget", JS.num (ClientsService.budget u));
    ("currency", JS.str (ClientsService.currency u));
    ("status", JS.str (ClientsService.status u));
    ("tags", JS.strs (ClientsService.tags u));
    ("notes", JS.str (ClientsService.notes u));
    ("cpf", JS.str (ClientsService.cpf u));
    ("rg", JS.str (ClientsService.rg u));
    ("professional_title", JS.str (ClientsService.professionalTitle u));
    ("marital_status", JS.str (ClientsService.maritalStatus u));
    ("birth_date", JS.str (ClientsService.birthDate u)) ].

(** [x !== undefined] on a value. *)
Definition value_defined (v : value) : bool :=
  match v with VUndef => false | _ => true end.

(** The payload a sequence of [if (x !== undefined) data.k = x]
    statements builds, the first statement first. *)
Definition payload_from (m : gmap string value) (columns : list (string * value))
  : gmap string value :=
  fold_left (fun data kv => set_if (value_defined (snd kv)) (fst kv) (snd kv) data)
    columns m.

(** An update is sparse: the row it returns is the first row with the id
    as the ensure step left it, with [updated_at] refreshed and exactly
    the supplied columns of the table changed to the supplied values;
    every other column keeps its value. Columns in [left_out] are not
    spoken about. *)
Definition update_is_sparse {U : Type}
    (update : Z -> DB.table -> string -> U -> result (DB.table * option DB.row))
    (ensure : DB.table -> DB.table)
    (columns : U -> list (string * value))
    (left_out : list string) : Prop :=
  forall now t id u r',
    updated_row (update now t id u) = Some r' ->
    exists r,
      head (filter (fun r => DB.has_id id r = true) (ensure t)) = Some r
      /\ r' !! "updated_at" = Some (DB.Scalar (VNum now))
      /\ forall c, c <> "updated_at" -> c ∉ left_out ->
           r' !! c = match supplied (columns u) c with
                     | Some v => Some (DB.bind_value v)
                     | None => r !! c
                     end.

(** An update hands a member over unchanged, whatever token it holds. *)
Definition passes_through {U : Type}
    (update_data : U -> result (gmap string value))
    (member : U -> option string) (column : string) : Prop :=
  forall u s data,
    member u = Some s -> update_data u = Ok data -> data !! column = Some (VStr s).

(** A create hands a non-empty member over unchanged, whatever token it
    holds (an empty or absent one selects the default). *)
Definition create_passes_through {U : Type}
    (create_data : U -> string -> result (gmap string value))
    (member : U -> option string) (column : string) : Prop :=
  forall u createdBy s data,
    member u = Some s -> s <> "" ->
    create_data u createdBy = Ok data -> data !! column = Some (VStr s).

(** The total a list call reports, when it returns. *)
Definition reported_total (res : result (DB.table * Pagination)) : option Z :=
  match res with
  | Ok (_, pg) => Some (total pg)
  | Throw _ => None
  end.

(** Filters of a task list call that select by status and priority alone,
    on the default page. *)
Definition tasks_by (status priority : option string) : TasksService.Filters.t :=
  {| TasksService.Filters.page := None;
     TasksService.Filters.limit := None;
     TasksService.Filters.status := status;
     TasksService.Filters.priority := priority;
     TasksService.Filters.search := None;
     TasksService.Filters.assignedTo := None;
     TasksService.Filters.projectId := None |}.

(** Filters of a client list call that select by status alone, on the
    default page. *)
Definition clients_by (status : option string) : ClientsService.Filters.t :=
  {| ClientsService.Filters.page := None;
     ClientsService.Filters.limit := None;
     ClientsService.Filters.status := status;
     ClientsService.Filters.search := None;
     ClientsService.Filters.tags := None |}.

(** The row is active and its status is one of the given tokens. *)
Definition status_among (tokens : list string) (r : DB.row) : bool :=
  existsb (DB.text_eq (r !! "status")) tokens.

(** The rows a list call returns; none when it fails. *)
Definition rows_of (res : result (DB.table * Pagination)) : DB.table :=
  match res with
  | Ok (rows, _) => rows
  | Throw _ => []
  end.

(** The number of pages a list call reports; none when it fails. *)
Definition reported_pages (res : result (DB.table * Pagination)) : Z :=
  match res with
  | Ok (_, pg) => totalPages pg
  | Throw _ => 0%Z
  end.

(** The same filters, asking for page [p]. *)
Definition tasks_page (p : Z) (f : TasksService.Filters.t) : TasksService.Filters.t :=
  {| TasksService.Filters.page := Some p;
     TasksService.Filters.limit := TasksService.Filters.limit f;
     TasksService.Filters.status := TasksService.Filters.status f;
     TasksService.Filters.priority := TasksService.Filters.priority f;
     TasksService.Filters.search := TasksService.Filters.search f;
     TasksService.Filters.assignedTo := TasksService.Filters.assignedTo f;
     TasksService.Filters.projectId := TasksService.Filters.projectId f |}.

Definition projects_page (p : Z) (f : ProjectsService.Filters.t)
  : ProjectsService.Filters.t :=
  {| ProjectsService.Filters.page := Some p;
     ProjectsService.Filters.limit := ProjectsService.Filters.limit f;
     ProjectsService.Filters.status := ProjectsService.Filters.status f;
     ProjectsService.Filters.priority := ProjectsService.Filters.priority f;
     ProjectsService.Filters.search := ProjectsService.Filters.search f;
     ProjectsService.Filters.tags := ProjectsService.Filters.tags f |}.

Definition clients_page (p : Z) (f : ClientsService.Filters.t)
  : ClientsService.Filters.t :=
  {| ClientsService.Filters.page := Some p;
     ClientsService.Filters.limit := ClientsService.Filters.limit f;
     ClientsService.Filters.status := ClientsService.Filters.status f;
     ClientsService.Filters.search := ClientsService.Filters.search f;
     ClientsService.Filters.tags := ClientsService.Filters.tags f |}.

(** The rows of the pages 1 to [n] of a list call, one page after the
    other. *)
Definition pages_upto {F : Type} (list : F -> result (DB.table * Pagination))
    (at_page : Z -> F) (n : Z) : DB.table :=
  concat ((fun i : nat => rows_of (list (at_page (Z.of_nat (S i)))))
            <$> seq 0 (Z.to_nat n)).

(** The same filters, with the given page and limit members. *)
Definition tasks_paged (page limit : option Z) (f : TasksService.Filters.t)
  : TasksService.Filters.t :=
  {| TasksService.Filters.page := page;
     TasksService.Filters.limit := limit;
     TasksService.Filters.status := TasksService.Filters.status f;
     TasksService.Filters.priority := TasksService.Filters.priority f;
     TasksService.Filters.search := TasksService.Filters.search f;
     TasksService.Filters.assignedTo := TasksService.Filters.assignedTo f;
     TasksService.Filters.projectId := TasksService.Filters.projectId f |}.

(** A character with a meaning of its own in a LIKE pattern. *)
Definition wildcard (c : ascii) : bool :=
  Ascii.eqb c "%" || Ascii.eqb c "_" || Ascii.eqb c JS.backslash.

(** The text holds none of them. *)
Definition plain (q : string) : bool :=
  forallb (fun c => negb (wildcard c)) (list_ascii_of_string q).

(** The characters of a text with ASCII letters in lower case. *)
Definition folded (s : string) : list ascii := DB.lower <$> list_ascii_of_string s.

(** The column holds a text of which [q] is a part, letter case aside. *)
Definition contains_ci (c : option DB.cell) (q : string) : Prop :=
  exists s before after,
    c = Some (DB.Scalar (VStr s)) /\ folded s = before ++ folded q ++ after.

(** Filters of a project list call that select by status alone, on the
    default page. *)
Definition projects_by (status : option string) : ProjectsService.Filters.t :=
  {| ProjectsService.Filters.page := None;
     ProjectsService.Filters.limit := None;
     ProjectsService.Filters.status := status;
     ProjectsService.Filters.priority := None;
     ProjectsService.Filters.search := None;
     ProjectsService.Filters.tags := None |}.

(** A created entity can be read back. When create returns a row for an
    id no row of the table has yet, get-by-id returns that row for the new
    id and what it returned before for every other id; the row is active,
    carries the new id, the creator and the time of the insert as creation
    and update time; and the unfiltered list counts one row more. *)
Definition created_is_readable {D F : Type}
    (create : string -> Z -> DB.table -> D -> string -> result (DB.table * DB.row))
    (getById : DB.table -> string -> option DB.row)
    (list : DB.table -> F -> result (DB.table * Pagination))
    (unfiltered : F) : Prop :=
  forall new_id now (t : DB.table) data createdBy t' r,
    create new_id now t data createdBy = Ok (t', r) ->
    (forall x, x ∈ t -> DB.has_id new_id x = false) ->
    getById t' new_id = Some r
    /\ (forall id, id <> new_id -> getById t' id = getById t id)
    /\ r !! "id" = Some (DB.Scalar (VStr new_id))
    /\ r !! "is_active" = Some (DB.Scalar (VBool true))
    /\ r !! "created_by" = Some (DB.Scalar (VStr createdBy))
    /\ r !! "created_at" = Some (DB.Scalar (VNum now))
    /\ r !! "updated_at" = Some (DB.Scalar (VNum now))
    /\ reported_total (list t' unfiltered)
       = Z.succ <$> reported_total (list t unfiltered).

(** A user who is neither an administrator nor the demo user. *)
Definition regular (u : TenantAccess.User) : Prop :=
  TenantAccess.role u <> Some "admin"
  /\ TenantAccess.role u <> Some "superadmin"
  /\ TenantAccess.id u <> Some "demo-user-id".

(** An executor together with the statements it has been given so far,
    oldest first. *)
Definition traced {S : Type}
    (exec : S -> string -> S * result (list (gmap string value)))
    (st : S * list string) (sql : string)
  : (S * list string) * result (list (gmap string value)) :=
  let '(s, ran) := st in
  let '(s', r) := exec s sql in
  ((s', ran ++ [sql]), r).

(** Every statement of the list succeeds, in whatever state it is run. *)
Definition all_succeed {S : Type}
    (exec : S -> string -> S * result (list (gmap string value)))
    (stmts : list string) : Prop :=
  forall s q, q ∈ stmts -> is_ok (snd (exec s q)) = true.

(** Every statement of the list fails, in whatever state it is run. *)
Definition all_fail {S : Type}
    (exec : S -> string -> S * result (list (gmap string value)))
    (stmts : list string) : Prop :=
  forall s q, q ∈ stmts -> is_ok (snd (exec s q)) = false.

(** The statements ProjectsService.ensureTables runs after its table
    check, in the order of the source. *)
Definition projects_statements : list string :=
  EnsureTables.projects_alterStatements ++ (snd <$> EnsureTables.projects_migrations).

(** None of the members a table of columns maps is supplied. *)
Definition no_member_supplied (columns : list (string * value)) : bool :=
  forallb (fun kv => negb (value_defined (snd kv))) columns.

(** Filters of a task list call with a search text alone. *)
Definition tasks_search (q : string) : TasksService.Filters.t :=
  {| TasksService.Filters.page := None;
     TasksService.Filters.limit := None;
     TasksService.Filters.status := None;
     TasksService.Filters.priority := None;
     TasksService.Filters.search := Some q;
     TasksService.Filters.assignedTo := None;
     TasksService.Filters.projectId := None |}.

(** The state the list hook is in after a load: not loading, no error
    shown, and a list that is not empty unless the sample data is. *)
Definition settled {Client : Type} (mockClients : list Client)
    (st : UseClients.State Client) : Prop :=
  UseClients.isLoading st = false
  /\ UseClients.error st = None
  /\ (mockClients <> [] -> UseClients.clients st <> []).

(** How a mutation of the list hook relates to the API call it wraps: a
    rejected call is rethrown with its error, the hook's state is left as
    it was and no further call is made; after a call that resolved the
    mutation resolves and the list has been loaded again. *)
Definition rethrows_or_reloads {Client Server A B : Type} (mockClients : list Client)
    (call : Server -> Server * result B)
    (mutation : Server * UseClients.State Client
                -> (Server * UseClients.State Client) * result A) : Prop :=
  forall srv st,
    match call srv with
    | (srv', Throw err) => mutation (srv, st) = ((srv', st), Throw err)
    | (_, Ok _) =>
        is_ok (snd (mutation (srv, st))) = true
        /\ settled mockClients (snd (fst (mutation (srv, st))))
    end.

(** The same filters, with the given page and limit members. *)
Definition projects_paged (page limit : option Z) (f : ProjectsService.Filters.t)
  : ProjectsService.Filters.t :=
  {| ProjectsService.Filters.page := page;
     ProjectsService.Filters.limit := limit;
     ProjectsService.Filters.status := ProjectsService.Filters.status f;
     ProjectsService.Filters.priority := ProjectsService.Filters.priority f;
     ProjectsService.Filters.search := ProjectsService.Filters.search f;
     ProjectsService.Filters.tags := ProjectsService.Filters.tags f |}.

Definition clients_paged (page limit : option Z) (f : ClientsService.Filters.t)
  : ClientsService.Filters.t :=
  {| ClientsService.Filters.page := page;
     ClientsService.Filters.limit := limit;
     ClientsService.Filters.status := ClientsService.Filters.status f;
     ClientsService.Filters.search := ClientsService.Filters.search f;
     ClientsService.Filters.tags := ClientsService.Filters.tags f |}.

(** Every row a list call has to show: the first page of a second call
    whose limit is the total the first call reports (and at least 1), so
    that the page has room for all of them. [sized] gives the filters
    with a limit. *)
Definition listed {F : Type} (list : F -> result (DB.table * Pagination))
    (sized : option Z -> F) : DB.table :=
  rows_of (list (sized (Some (Z.max 1 (default 0%Z (reported_total (list (sized None)))))))).

(** Filters of a project list call that select by tags alone. *)
Definition projects_tagged (tags : list string) : ProjectsService.Filters.t :=
  {| ProjectsService.Filters.page := None;
     ProjectsService.Filters.limit := None;
     ProjectsService.Filters.status := None;
     ProjectsService.Filters.priority := None;
     ProjectsService.Filters.search := None;
     ProjectsService.Filters.tags := Some tags |}.

(** Filters of a client list call that select by tags alone. *)
Definition clients_tagged (tags : list string) : ClientsService.Filters.t :=
  {| ClientsService.Filters.page := None;
     ClientsService.Filters.limit := None;
     ClientsService.Filters.status := None;
     ClientsService.Filters.search := None;
     ClientsService.Filters.tags := Some tags |}.

(** Get-by-id and the unfiltered list agree on the entities there are:
    what get-by-id returns for an id is a row with that id on some page
    of the list, and every row on a page of the list has an id for which
    get-by-id returns a row. *)
Definition readable_is_listed (getById : DB.table -> string -> option DB.row)
    (listed_rows : DB.table -> DB.table) : Prop :=
  forall t : DB.table,
    (forall id r, getById t id = Some r -> r ∈ listed_rows t /\ DB.has_id id r = true)
    /\ (forall r id, r ∈ listed_rows t -> DB.has_id id r = true -> is_Some (getById t id)).

(** The columns createProject writes. *)
Definition project_create_columns : list string :=
  ["title"; "client_name"; "status"; "priority"; "start_date"; "due_date"; "created_by";
   "description"; "client_id"; "organization"; "address"; "budget"; "currency";
   "progress"; "tags"; "assigned_to"; "contacts"; "notes"].

(** How a mutation of the projects hook relates to the API call it wraps.
    A rejected call is rethrown with its error, the hook's state is left
    as it was and no further call is made. After a call that resolved the
    mutation resolves; the hook is not loading and shows no error; the
    list shown is what loadProjects makes of a list call; and the
    statistics shown are what a statistics call resolved to or, when that
    call was rejected, the statistics computed from [rendered], the list
    as it was rendered before the mutation (from the sample data when
    that list was empty). *)
Definition reloads_list_and_stats {Server A B : Type}
    (mockProjectsData : list UseProjects.Project) (today : Z)
    (midnight_of : string -> option Z)
    (api_getProjects : Server -> Server * result UseProjects.Response)
    (api_getProjectsStats : Server -> Server * result UseProjects.ProjectStats)
    (rendered : list UseProjects.Project)
    (call : Server -> Server * result B)
    (mutation : Server * UseProjects.State -> (Server * UseProjects.State) * result A)
  : Prop :=
  forall srv st,
    match call srv with
    | (srv', Throw err) => mutation (srv, st) = ((srv', st), Throw err)
    | (_, Ok _) =>
        let st' := snd (fst (mutation (srv, st))) in
        is_ok (snd (mutation (srv, st))) = true
        /\ UseProjects.isLoading st' = false
        /\ UseProjects.error st' = None
        /\ (exists at_list,
              UseProjects.projects st'
              = UseProjects.projects
                  (fst (UseProjects.loadProjects mockProjectsData today midnight_of
                          (snd (api_getProjects at_list)) st)))
        /\ (exists at_stats,
              UseProjects.stats st'
              = Some match snd (api_getProjectsStats at_stats) with
                     | Ok counted => counted
                     | Throw _ =>
                         UseProjects.calculateStatsFromProjects today midnight_of
                           (if (0 <? length rendered)%nat then rendered
                            else UseProjects.convertProjects mockProjectsData)
                     end)
    end.

(** ** Sample data *)

(** An executor that records the statements it is given and rejects those
    selected by [rejects]; a table check finds the table. *)
Definition recording (rejects : string -> bool) (ran : list string) (sql : string)
  : list string * result (list (gmap string value)) :=
  (ran ++ [sql],
   if rejects sql then Throw "statement failed"
   else Ok [ {[ "exists" := VBool true ]} ]).

(** One hundred and twenty active projects, created one second apart. *)
Definition projects_120 : DB.table :=
  (fun i : nat =>
     <["id" := DB.Scalar (VStr (pretty i))]>
     (<["is_active" := DB.Scalar (VBool true)]>
     (<["created_at" := DB.Scalar (VNum (Z.of_nat i))]>
     (<["start_date" := DB.Scalar (VStr "2024-01-01")]>
     (<["due_date" := DB.Scalar (VStr "2024-02-01")]> ∅))))) <$> seq 0 120.

(** Filters that ask for page [p] of 50 rows. *)
Definition page_of_50 (p : Z) : ProjectsService.Filters.t :=
  {| ProjectsService.Filters.page := Some p;
     ProjectsService.Filters.limit := Some 50%Z;
     ProjectsService.Filters.status := None;
     ProjectsService.Filters.priority := None;
     ProjectsService.Filters.search := None;
     ProjectsService.Filters.tags := None |}.

(** A stored project, active, with the given id and creation time. *)
Definition stored_project (id : string) (created : Z) : DB.row :=
  <["id" := DB.Scalar (VStr id)]>
  (<["title" := DB.Scalar (VStr "Inventory")]>
  (<["status" := DB.Scalar (VStr "contacted")]>
  (<["start_date" := DB.Scalar (VStr "2024-01-01")]>
  (<["due_date" := DB.Scalar (VStr "2024-02-01")]>
  (<["tags" := DB.Jsonb (VArr [VStr "civil"])]>
  (<["created_at" := DB.Scalar (VNum created)]>
  (<["updated_at" := DB.Scalar (VNum created)]>
  (<["is_active" := DB.Scalar (VBool true)]> ∅)))))))).

(** A stored client, active, with the given id and level. *)
Definition stored_client (id level : string) : DB.row :=
  <["id" := DB.Scalar (VStr id)]>
  (<["name" := DB.Scalar (VStr "Ana")]>
  (<["email" := DB.Scalar (VStr "ana@example.org")]>
  (<["level" := DB.Scalar (VStr level)]>
  (<["status" := DB.Scalar (VStr "active")]>
  (<["created_by" := DB.Scalar (VStr "u1")]>
  (<["created_at" := DB.Scalar (VNum 10)]>
  (<["updated_at" := DB.Scalar (VNum 10)]>
  (<["is_active" := DB.Scalar (VBool true)]> ∅)))))))).

(** A stored task, active, with the given id and status. *)
Definition stored_task (id status : string) : DB.row :=
  <["id" := DB.Scalar (VStr id)]>
  (<["title" := DB.Scalar (VStr "File the appeal")]>
  (<["assigned_to" := DB.Scalar (VStr "u1")]>
  (<["status" := DB.Scalar (VStr status)]>
  (<["priority" := DB.Scalar (VStr "medium")]>
  (<["progress" := DB.Scalar (VNum 0)]>
  (<["created_by" := DB.Scalar (VStr "u1")]>
  (<["created_at" := DB.Scalar (VNum 10)]>
  (<["updated_at" := DB.Scalar (VNum 10)]>
  (<["is_active" := DB.Scalar (VBool true)]> ∅))))))))).

(** Client data with a name, an email, a level and a status, and no other
    member. *)
Definition client_data (name email level status : option string)
  : ClientsService.ClientData :=
  {| ClientsService.name := name;
     ClientsService.email := email;
     ClientsService.mobile := None;
     ClientsService.phone := None;
     ClientsService.organization := None;
     ClientsService.country := None;
     ClientsService.state := None;
     ClientsService.city := None;
     ClientsService.address := None;
     ClientsService.zipCode := None;
     ClientsService.budget := None;
     ClientsService.currency := None;
     ClientsService.level := level;
     ClientsService.status := status;
     ClientsService.tags := None;
     ClientsService.notes := None;
     ClientsService.description := None;
     ClientsService.cpf := None;
     ClientsService.rg := None;
     ClientsService.pis := None;
     ClientsService.cei := None;
     ClientsService.professionalTitle := None;
     ClientsService.maritalStatus := None;
     ClientsService.birthDate := None;
     ClientsService.inssStatus := None;
     ClientsService.amountPaid := None;
     ClientsService.referredBy := None;
     ClientsService.registeredBy := None |}.

(** Project data with a description, a status and tags, and no other
    member. *)
Definition project_data (description status : option string)
    (tags : option (list string)) : ProjectsService.ProjectData :=
  {| ProjectsService.title := None;
     ProjectsService.description := description;
     ProjectsService.clientId := None;
     ProjectsService.clientName := None;
     ProjectsService.organization := None;
     ProjectsService.address := None;
     ProjectsService.budget := None;
     ProjectsService.currency := None;
     ProjectsService.status := status;
     ProjectsService.priority := None;
     ProjectsService.progress := None;
     ProjectsService.startDate := None;
     ProjectsService.dueDate := None;
     ProjectsService.tags := tags;
     ProjectsService.assignedTo := None;
     ProjectsService.notes := None;
     ProjectsService.contacts := None |}.

(** Task data with a status and a priority, and no other member. *)
Definition task_data (status priority : option string) : TasksService.TaskData :=
  {| TasksService.title := None;
     TasksService.description := None;
     TasksService.projectId := None;
     TasksService.projectTitle := None;
     TasksService.clientId := None;
     TasksService.clientName := None;
     TasksService.assignedTo := None;
     TasksService.status := status;
     TasksService.priority := priority;
     TasksService.startDate := None;
     TasksService.endDate := None;
     TasksService.estimatedHours := None;
     TasksService.actualHours := None;
     TasksService.progress := None;
     TasksService.tags := None;
     TasksService.notes := None;
     TasksService.subtasks := None |}.

(** A project row from before the date columns were required: it has an
    end date and a creation time, and neither a start date nor a due
    date. *)
Definition legacy_project (id : string) (created : Z) : DB.row :=
  <["id" := DB.Scalar (VStr id)]>
  (<["title" := DB.Scalar (VStr "Probate")]>
  (<["end_date" := DB.Scalar (VStr "2024-03-01")]>
  (<["created_at" := DB.Scalar (VNum created)]>
  (<["is_active" := DB.Scalar (VBool true)]> ∅)))).

(** A server that records the calls made to it: creating a client
    resolves, while the notification call and the list call are
    rejected. *)
Definition offline_getClients (calls : list string)
  : list string * result (UseClients.Response string) :=
  (calls ++ ["getClients"], Throw "offline").

Definition offline_createClient (calls : list string) (data : string)
  : list string * result string :=
  (calls ++ ["createClient"], Ok ("id of " +:+ data)).

Definition offline_createNotification (calls : list string) (notification : value)
  : list string * result unit :=
  (calls ++ ["createNotification"], Throw "offline").

(** A project of the hook with the given id, status, priority and
    progress. *)
Definition sample_project (id status priority : string) (progress : Z)
  : UseProjects.Project :=
  {| UseProjects.id := id;
     UseProjects.title := "Inventory";
     UseProjects.description := None;
     UseProjects.clientId := None;
     UseProjects.clientName := "Ana";
     UseProjects.organization := None;
     UseProjects.address := None;
     UseProjects.budget := Some 1000%Z;
     UseProjects.currency := "BRL";
     UseProjects.status := status;
     UseProjects.priority := priority;
     UseProjects.progress := progress;
     UseProjects.startDate := Some "2024-01-01";
     UseProjects.dueDate := Some "2024-02-01";
     UseProjects.completedAt := None;
     UseProjects.tags := [];
     UseProjects.assignedTo := [];
     UseProjects.notes := None;
     UseProjects.contacts := [];
     UseProjects.createdAt := "2024-01-01T00:00:00Z";
     UseProjects.updatedAt := "2024-01-01T00:00:00Z" |}.

(** Three tasks of the page, each a title, a status and an assignee; none
    has a description or a client name, all have priority medium. *)
Definition page_tasks : list (string * string * string) :=
  [("Draft the appeal", "completed", "ana");
   ("File the appeal", "cancelled", "bia");
   ("Call the client", "completed", "ana")].

Definition page_filtered (tasks : list (string * string * string))
    (searchTerm statusFilter priorityFilter assigneeFilter : string)
  : list (string * string * string) :=
  TasksPage.filteredTasks (fun t => fst (fst t)) (fun _ => None) (fun _ => None)
    (fun t => snd (fst t)) (fun _ => "medium") snd
    tasks searchTerm statusFilter priorityFilter assigneeFilter.

(** Task data with a title, an assignee and a status, and no other
    member. *)
Definition new_task (title assignedTo status : option string) : TasksService.TaskData :=
  {| TasksService.title := title;
     TasksService.description := None;
     TasksService.projectId := None;
     TasksService.projectTitle := None;
     TasksService.clientId := None;
     TasksService.clientName := None;
     TasksService.assignedTo := assignedTo;
     TasksService.status := status;
     TasksService.priority := None;
     TasksService.startDate := None;
     TasksService.endDate := None;
     TasksService.estimatedHours := None;
     TasksService.actualHours := None;
     TasksService.progress := None;
     TasksService.tags := None;
     TasksService.notes := None;
     TasksService.subtasks := None |}.

(** Client data with a name, an email and tags, and no other member. *)
Definition tagged_client (name email : option string) (tags : option (list string))
  : ClientsService.ClientData :=
  {| ClientsService.name := name;
     ClientsService.email := email;
     ClientsService.mobile := None;
     ClientsService.phone := None;
     ClientsService.organization := None;
     ClientsService.country := None;
     ClientsService.state := None;
     ClientsService.city := None;
     ClientsService.address := None;
     ClientsService.zipCode := None;
     ClientsService.budget := None;
     ClientsService.currency := None;
     ClientsService.level := None;
     ClientsService.status := None;
     ClientsService.tags := tags;
     ClientsService.notes := None;
     ClientsService.description := None;
     ClientsService.cpf := None;
     ClientsService.rg := None;
     ClientsService.pis := None;
     ClientsService.cei := None;
     ClientsService.professionalTitle := None;
     ClientsService.maritalStatus := None;
     ClientsService.birthDate := None;
     ClientsService.inssStatus := None;
     ClientsService.amountPaid := None;
     ClientsService.referredBy := None;
     ClientsService.registeredBy := None |}.

(** ** Statements that do not hold as they were made *)

(** The statement of C3 as it was made, on the status of a new client: a
    status outside the recognized tokens makes the create fail. *)
Definition C3_as_stated (new_id : string) (now : Z) (t : DB.table)
    (clientData : ClientsService.ClientData) (createdBy : string) : Prop :=
  forall s,
    ClientsService.status clientData = Some s ->
    s ∉ ClientsService.statuses ->
    is_ok (ClientsService.createClient new_id now t clientData createdBy) = false.

(** The statement of C5 as it was made, on the [level] member of a
    client: a key present in the partial data changes its column to the
    supplied value. *)
Definition C5_as_stated (now : Z) (t : DB.table) (id : string)
    (u : ClientsService.ClientData) : Prop :=
  forall r' s,
    updated_row (ClientsService.updateClient now t id u) = Some r' ->
    ClientsService.level u = Some s ->
    r' !! "level" = Some (DB.Scalar (VStr s)).

(** The statement of C7 as it was made: whenever the user's tenant id
    resolves to no tenant or to an inactive one, the middleware answers
    403 and the handler does not run. *)
Definition C7_as_stated
    (getTenantById : string -> result (option TenantAccess.Tenant))
    (getTenantDatabase : string -> result TenantAccess.TenantDatabase)
    (req : TenantAccess.TenantRequest) : Prop :=
  forall u tid,
    TenantAccess.user req = Some u ->
    TenantAccess.tenantId u = Some tid ->
    (getTenantById tid = Ok None
     \/ exists t, getTenantById tid = Ok (Some t) /\ TenantAccess.isActive t = false) ->
    exists e,
      snd (TenantAccess.validateTenantAccess getTenantById getTenantDatabase req)
      = TenantAccess.Respond 403 e.

(** * Properties *)

(** ** [JSON.stringify] on an array of strings *)

Example stringify_tags :
  JS.stringify (VArr [VStr "a"; VStr "b"])
  = "[" +:+ JS.quote "a" +:+ "," +:+ JS.quote "b" +:+ "]"
  /\ String.length (JS.stringify (VArr [VStr "a"; VStr "b"])) = 9
  /\ String.get 1 (JS.stringify (VArr [VStr "a"; VStr "b"])) = Some JS.dquote.
Proof. repeat split; reflexivity. Qed.

(** ** Reading a payload *)

Lemma lookup_set_if_eq c k v (m : gmap string value) :
  set_if c k v m !! k = if c then Some v else m !! k.
Proof. destruct c; simpl; [apply lookup_insert_eq | reflexivity]. Qed.

Lemma lookup_set_if_ne c k k' v (m : gmap string value) :
  k <> k' -> set_if c k v m !! k' = m !! k'.
Proof. intros Hne. destruct c; simpl; [by apply lookup_insert_ne | reflexivity]. Qed.

(** Reads one column of a payload built by inserts and [set_if]s. *)
Ltac read_payload :=
  repeat first
    [ rewrite lookup_set_if_eq
    | rewrite lookup_set_if_ne by discriminate
    | rewrite lookup_insert_eq
    | rewrite lookup_insert_ne by discriminate
    | rewrite lookup_empty ].

Lemma trim_start_empty s : JS.trim_start s = "" <-> all_space s = true.
Proof.
  induction s as [|c s IH]; simpl; [tauto|].
  destruct (JS.is_space c); simpl; [exact IH | split; discriminate].
Qed.

Lemma trim_end_trim_start s : JS.trim_end (JS.trim_start s) = "" <-> JS.trim_start s = "".
Proof.
  induction s as [|c s IH]; simpl; [tauto|].
  destruct (JS.is_space c) eqn:Hc; [exact IH|].
  simpl. rewrite Hc. split; [|discriminate].
  destruct (JS.trim_end s); discriminate.
Qed.

(** [trim] leaves nothing exactly when the string is white space only. *)
Lemma trim_empty_iff s : JS.trim s = "" <-> all_space s = true.
Proof. unfold JS.trim. rewrite trim_end_trim_start. apply trim_start_empty. Qed.

(** ** What create leaves out (C10) *)



(** ** The tenant access middleware (C7, C9) *)

Lemma role_is_false u r :
  TenantAccess.role u <> Some r -> TenantAccess.role_is u r = false.
Proof. intros H. unfold TenantAccess.role_is. by apply bool_decide_eq_false_2. Qed.

(** C9. A user whose role is ['admin'] or ['superadmin'] proceeds with the
    request untouched and without any call to the tenant directory or the
    handle factory: no tenant is resolved, no isActive check is made, no
    tenantDB is attached. Any other user whose id is ['demo-user-id'] is
    given the tenant ['demo-tenant-id'] and a handle on the schema
    ['tenant_demotenantid'], again without a call to the directory. *)
Theorem C9_admin_and_demo_bypass :
  forall getTenantById getTenantDatabase req u,
    TenantAccess.user req = Some u ->
    ((TenantAccess.role u = Some "admin" \/ TenantAccess.role u = Some "superadmin") ->
       TenantAccess.validateTenantAccess getTenantById getTenantDatabase req
       = ([], TenantAccess.Next req))
    /\ (TenantAccess.role u <> Some "admin" ->
        TenantAccess.role u <> Some "superadmin" ->
        TenantAccess.id u = Some "demo-user-id" ->
        TenantAccess.validateTenantAccess getTenantById getTenantDatabase req
        = ([], TenantAccess.Next
                 {| TenantAccess.user := Some u;
                    TenantAccess.tenant :=
                      Some {| TenantAccess.tenant_id := "demo-tenant-id";
                              TenantAccess.name := "Demo Tenant";
                              TenantAccess.isActive := true |};
                    TenantAccess.tenantDB :=
                      Some {| TenantAccess.handle_tenantId := "demo-tenant-id";
                              TenantAccess.schemaName := "tenant_demotenantid" |} |})).
Proof.
  intros dir fac req u Hu. unfold TenantAccess.validateTenantAccess. rewrite Hu.
  split.
  - intros [H|H]; unfold TenantAccess.role_is; rewrite H.
    + reflexivity.
    + rewrite (bool_decide_eq_true_2 (Some "superadmin" = Some "superadmin")) by reflexivity.
      by rewrite orb_true_r.
  - intros Ha Hs Hd.
    rewrite (role_is_false _ _ Ha), (role_is_false _ _ Hs). simpl.
    rewrite Hd. reflexivity.
Qed.

(** An admin whose tenant id is unknown to the directory, and a demo user. *)
Lemma C9_admin_and_demo_bypass_witness :
  let dir := fun _ : string => Ok (None : option TenantAccess.Tenant) in
  let fac := fun _ : string => Throw "unreachable" : result TenantAccess.TenantDatabase in
  let admin := {| TenantAccess.id := Some "u1"; TenantAccess.userId := Some "u1";
                  TenantAccess.tenantId := Some "ghost";
                  TenantAccess.role := Some "admin";
                  TenantAccess.accountType := None |} in
  let demo := {| TenantAccess.id := Some "demo-user-id"; TenantAccess.userId := None;
                 TenantAccess.tenantId := None;
                 TenantAccess.role := Some "user";
                 TenantAccess.accountType := None |} in
  let req u := {| TenantAccess.user := Some u; TenantAccess.tenant := None;
                  TenantAccess.tenantDB := None |} in
  TenantAccess.validateTenantAccess dir fac (req admin) = ([], TenantAccess.Next (req admin))
  /\ snd (TenantAccess.validateTenantAccess dir fac (req demo))
     = TenantAccess.Next
         {| TenantAccess.user := Some demo;
            TenantAccess.tenant :=
              Some {| TenantAccess.tenant_id := "demo-tenant-id";
                      TenantAccess.name := "Demo Tenant";
                      TenantAccess.isActive := true |};
            TenantAccess.tenantDB :=
              Some {| TenantAccess.handle_tenantId := "demo-tenant-id";
                      TenantAccess.schemaName := "tenant_demotenantid" |} |}.
Proof.
  intros dir fac admin demo req. split.
  - apply (proj1 (C9_admin_and_demo_bypass dir fac (req admin) admin eq_refl)).
    left. reflexivity.
  - rewrite (proj2 (C9_admin_and_demo_bypass dir fac (req demo) demo eq_refl));
      [reflexivity | discriminate | discriminate | reflexivity].
Defined.

(** An admin whose tenant id resolves to no tenant is let through. *)
Lemma C7_counterexample :
  ~ C7_as_stated
      (fun _ => Ok None)
      (fun _ => Throw "no handle")
      {| TenantAccess.user :=
           Some {| TenantAccess.id := Some "u1"; TenantAccess.userId := Some "u1";
                   TenantAccess.tenantId := Some "ghost";
                   TenantAccess.role := Some "admin";
                   TenantAccess.accountType := None |};
         TenantAccess.tenant := None;
         TenantAccess.tenantDB := None |}.
Proof.
  intros H.
  destruct (H _ "ghost" eq_refl eq_refl (or_introl eq_refl)) as [e He].
  vm_compute in He. discriminate He.
Qed.

(** C7 (amended). For a user who is neither admin, superadmin nor the demo
    user: when the user's tenant id resolves to no tenant, or to a tenant
    with isActive = false, the middleware answers 403 and the handler,
    hence every service operation of the request, does not run. *)
Theorem C7_unknown_or_inactive_tenant_is_refused :
  forall getTenantById getTenantDatabase req u tid,
    TenantAccess.user req = Some u ->
    TenantAccess.role u <> Some "admin" ->
    TenantAccess.role u <> Some "superadmin" ->
    TenantAccess.id u <> Some "demo-user-id" ->
    TenantAccess.tenantId u = Some tid ->
    (getTenantById tid = Ok None
     \/ exists t, getTenantById tid = Ok (Some t) /\ TenantAccess.isActive t = false) ->
    exists e,
      snd (TenantAccess.validateTenantAccess getTenantById getTenantDatabase req)
      = TenantAccess.Respond 403 e
      /\ forall (A : Type) (handler : TenantAccess.TenantRequest -> A),
           TenantAccess.handle getTenantById getTenantDatabase handler req
           = inl (TenantAccess.Respond 403 e).
Proof.
  intros dir fac req u tid Hu Ha Hs Hd Ht Hdir.
  assert (Hv : exists e,
    snd (TenantAccess.validateTenantAccess dir fac req) = TenantAccess.Respond 403 e).
  { unfold TenantAccess.validateTenantAccess. rewrite Hu.
    rewrite (role_is_false _ _ Ha), (role_is_false _ _ Hs). simpl.
    rewrite bool_decide_eq_false_2 by exact Hd.
    rewrite Ht. simpl.
    destruct (String.eqb tid ""); simpl; [eauto|].
    destruct Hdir as [-> | (t & -> & Hi)]; [eauto|].
    rewrite Hi. simpl. eauto. }
  destruct Hv as [e He]. exists e. split; [exact He|].
  intros A handler. unfold TenantAccess.handle. by rewrite He.
Qed.

(** A regular user of an inactive tenant. *)
Lemma C7_unknown_or_inactive_tenant_is_refused_witness :
  let dir := fun _ : string =>
    Ok (Some {| TenantAccess.tenant_id := "t1"; TenantAccess.name := "Closed";
                TenantAccess.isActive := false |}) in
  let fac := fun tid : string =>
    Ok {| TenantAccess.handle_tenantId := tid; TenantAccess.schemaName := "tenant_t1" |} in
  let u := {| TenantAccess.id := Some "u7"; TenantAccess.userId := Some "u7";
              TenantAccess.tenantId := Some "t1";
              TenantAccess.role := Some "user";
              TenantAccess.accountType := Some "SIMPLES" |} in
  let req := {| TenantAccess.user := Some u; TenantAccess.tenant := None;
                TenantAccess.tenantDB := None |} in
  exists e,
    snd (TenantAccess.validateTenantAccess dir fac req) = TenantAccess.Respond 403 e
    /\ forall (A : Type) (handler : TenantAccess.TenantRequest -> A),
         TenantAccess.handle dir fac handler req = inl (TenantAccess.Respond 403 e).
Proof.
  intros dir fac u req.
  apply (C7_unknown_or_inactive_tenant_is_refused dir fac req u "t1");
    [reflexivity | discriminate | discriminate | discriminate | reflexivity |].
  right. eexists. split; reflexivity.
Defined.

(** ** The list hooks (C8) *)

(** C8. Whenever the list call returns zero rows or fails, loadClients and
    loadProjects display the sample data and report no error: the error
    cell is [null] and the loading flag is off. For loadClients the
    resulting state is the one a populated result carrying the sample
    rows would have produced. *)
Theorem C8_list_hooks_substitute_sample_data :
  (forall (Client : Type) (mockClients : list Client) api st,
     empty_or_failed (@UseClients.response_clients Client) api ->
     UseClients.loadClients mockClients api st
     = ({| UseClients.clients := mockClients;
           UseClients.isLoading := false;
           UseClients.error := None |},
        {| UseClients.response_clients := Some mockClients;
           UseClients.response_pagination := None |})
     /\ fst (UseClients.loadClients mockClients api st)
        = fst (UseClients.loadClients mockClients
                 (Ok {| UseClients.response_clients := Some mockClients;
                        UseClients.response_pagination := None |}) st))
  /\ (forall mockProjectsData today midnight_of api st,
        empty_or_failed UseProjects.response_projects api ->
        let shown := UseProjects.convertProjects mockProjectsData in
        UseProjects.loadProjects mockProjectsData today midnight_of api st
        = ({| UseProjects.projects := shown;
              UseProjects.stats :=
                Some (UseProjects.calculateStatsFromProjects today midnight_of shown);
              UseProjects.isLoading := false;
              UseProjects.error := None |},
           {| UseProjects.response_projects := Some shown;
              UseProjects.response_pagination := None |})).
Proof.
  split.
  - intros Client mock api st H. split.
    + destruct api as [r|e]; simpl in H.
      * unfold UseClients.loadClients. destruct H as [-> | ->]; reflexivity.
      * reflexivity.
    + unfold UseClients.loadClients.
      destruct api as [r|e]; simpl in H; [destruct H as [-> | ->]|];
        destruct mock; reflexivity.
  - intros mock today mid api st H shown.
    destruct api as [r|e]; simpl in H.
    + unfold UseProjects.loadProjects. destruct H as [-> | ->]; reflexivity.
    + reflexivity.
Qed.

(** A failed call and an empty page, with one sample client. *)
Lemma C8_list_hooks_substitute_sample_data_witness :
  let st0 := {| UseClients.clients := ([] : list string);
                UseClients.isLoading := false;
                UseClients.error := Some "stale" |} in
  UseClients.error
    (fst (UseClients.loadClients ["Ana"] (Throw "Network Error") st0)) = None
  /\ UseClients.clients
       (fst (UseClients.loadClients ["Ana"]
               (Ok {| UseClients.response_clients := Some [];
                      UseClients.response_pagination := None |}) st0)) = ["Ana"].
Proof.
  intros st0. split.
  - rewrite (proj1 (proj1 C8_list_hooks_substitute_sample_data string ["Ana"]
                      (Throw "Network Error") st0 I)).
    reflexivity.
  - rewrite (proj1 (proj1 C8_list_hooks_substitute_sample_data string ["Ana"]
                      (Ok {| UseClients.response_clients := Some [];
                             UseClients.response_pagination := None |}) st0
                      (or_intror eq_refl))).
    reflexivity.
Defined.

(** ** Failing statements in the ensure-schema step (C2) *)

Section EnsureTablesProps.

Variable S : Type.
Variable exec : S -> string -> S * result (list (gmap string value)).

(** One guarded statement cannot fail, whatever the executor does. *)
Lemma attempt_log msg sql s l :
  exists s' l', EnsureTables.attempt S exec msg sql (s, l) = (s', l ++ l').
Proof.
  unfold EnsureTables.attempt. destruct (exec s sql) as [s' [rows|e]].
  - exists s', []. by rewrite app_nil_r.
  - exists s', [msg]. reflexivity.
Qed.

(** ProjectsService.ensureTables returns normally once its table check has
    returned, whichever of its twelve migration statements fail. *)
Lemma projects_ensureTables_tolerates s l s' rows :
  exec s EnsureTables.projects_checkTableQuery = (s', Ok rows) ->
  exists s'' l',
    EnsureTables.projects_ensureTables S exec (s, l) = (s'', l', Ok tt).
Proof.
  intros H. unfold EnsureTables.projects_ensureTables, EnsureTables.queryTenantSchema.
  rewrite H. destruct (EnsureTables.table_missing rows); [eauto|].
  match goal with |- context [(?st, Ok tt)] => destruct st as [s'' l'] end. eauto.
Qed.

(** The loop of TasksService.ensureTables and ClientsService.ensureTables
    stops at the first statement that fails and rethrows its error. *)
Lemma run_all_propagates before q rest s s1 s2 e :
  EnsureTables.run_all S exec before s = (s1, Ok tt) ->
  exec s1 q = (s2, Throw e) ->
  EnsureTables.run_all S exec (before ++ q :: rest) s = (s2, Throw e).
Proof.
  revert s. induction before as [|b before IH]; intros s Hb Hq; simpl in *.
  - injection Hb as ->. unfold EnsureTables.queryTenantSchema. by rewrite Hq.
  - unfold EnsureTables.queryTenantSchema in *.
    destruct (exec s b) as [s' [rows|e']]; [by apply IH | discriminate].
Qed.

End EnsureTablesProps.

(** With every migration statement failing, ProjectsService.ensureTables
    still runs all twelve, logs twelve lines and returns. *)
Example projects_ensureTables_all_failing :
  let rejects sql := negb (String.eqb sql EnsureTables.projects_checkTableQuery) in
  match EnsureTables.projects_ensureTables _ (recording rejects) ([], []) with
  | (ran, l, r) =>
      r = Ok tt
      /\ ran = EnsureTables.projects_checkTableQuery
               :: EnsureTables.projects_alterStatements
               ++ (snd <$> EnsureTables.projects_migrations)
      /\ length l = 12
  end.
Proof. vm_compute. repeat split. Qed.

(** C2 (the code departs from it). In TasksService.ensureTables no
    statement is guarded: when the database rejects the second CREATE
    INDEX statement, ensureTables rethrows, the remaining statements are
    not run, and the rest of the operation that awaited it never runs. *)
Theorem C2_tasks_ensureTables_rethrows :
  let failing := EnsureTables.index_on "tasks" "status" "status" in
  let exec := recording (String.eqb failing) in
  EnsureTables.tasks_ensureTables _ exec []
  = ([EnsureTables.tasks_createTableQuery;
      EnsureTables.index_on "tasks" "assigned_to" "assigned_to";
      failing],
     Throw "statement failed")
  /\ forall (A : Type) (rest : list string -> list string * result A),
       snd (EnsureTables.then_ _ (EnsureTables.tasks_ensureTables _ exec []) rest)
       = Throw "statement failed".
Proof.
  intros failing exec.
  assert (H : EnsureTables.tasks_ensureTables _ exec []
              = ([EnsureTables.tasks_createTableQuery;
                  EnsureTables.index_on "tasks" "assigned_to" "assigned_to";
                  failing],
                 Throw "statement failed")) by (vm_compute; reflexivity).
  split; [exact H|]. intros A rest. rewrite H. reflexivity.
Qed.

(** ** JSON-bearing members on their way to the helper (C1) *)

(** createProject hands tags, assigned_to and contacts over as arrays. *)
Lemma createProject_hands_over_arrays projectData createdBy data :
  ProjectsService.createProject_data projectData createdBy = Ok data ->
  data !! "tags" = Some (VArr (VStr <$> default [] (ProjectsService.tags projectData)))
  /\ data !! "assigned_to"
     = Some (VArr (VStr <$> default [] (ProjectsService.assignedTo projectData)))
  /\ data !! "contacts" = Some (VArr (default [] (ProjectsService.contacts projectData))).
Proof.
  unfold ProjectsService.createProject_data.
  repeat match goal with
         | |- (if ?c then Throw _ else _) = _ -> _ => destruct c; [discriminate|]
         end.
  intros [= <-]. repeat split; read_payload.
  - by destruct (ProjectsService.tags projectData).
  - by destruct (ProjectsService.assignedTo projectData).
  - by destruct (ProjectsService.contacts projectData).
Qed.

(** createTask hands non-empty subtasks over as the text JSON.stringify
    made of them, and createClient does the same with the address. *)
Lemma createTask_hands_over_text taskData createdBy data x l :
  TasksService.createTask_data taskData createdBy = Ok data ->
  TasksService.subtasks taskData = Some (x :: l) ->
  data !! "subtasks" = Some (VStr (JS.stringify (VArr (x :: l)))).
Proof.
  unfold TasksService.createTask_data.
  repeat match goal with
         | |- (if ?c then Throw _ else _) = _ -> _ => destruct c; [discriminate|]
         end.
  intros [= <-] Hs. read_payload. by rewrite Hs.
Qed.

Lemma createClient_hands_over_text clientData createdBy :
  exists text,
    ClientsService.createClient_data clientData createdBy !! "address" = Some (VStr text).
Proof.
  unfold ClientsService.createClient_data. read_payload. simpl. eauto.
Qed.


(** ** Rows of a list operation *)

Lemma insert_desc_Permutation r l : DB.insert_desc r l ≡ₚ r :: l.
Proof.
  induction l as [|x l IH]; simpl; [reflexivity|].
  destruct (DB.newer_eq x r); [|reflexivity].
  rewrite IH. apply Permutation_swap.
Qed.

Lemma order_by_created_desc_Permutation l : DB.order_by_created_desc l ≡ₚ l.
Proof.
  induction l as [|r l IH]; simpl; [reflexivity|].
  rewrite insert_desc_Permutation. by rewrite IH.
Qed.

Lemma limit_offset_ok l o rows :
  (0 <= l)%Z -> (0 <= o)%Z ->
  DB.limit_offset l o rows = Ok (take (Z.to_nat l) (drop (Z.to_nat o) rows)).
Proof.
  intros Hl Ho. unfold DB.limit_offset.
  destruct (Z.ltb_spec l 0); [lia|]. destruct (Z.ltb_spec o 0); [lia|]. reflexivity.
Qed.

Lemma limit_offset_elem l o rows page r :
  DB.limit_offset l o rows = Ok page -> r ∈ page -> r ∈ rows.
Proof.
  unfold DB.limit_offset. destruct (_ || _); [discriminate|].
  intros [= <-] Hr.
  apply (subseteq_take (Z.to_nat l)), (subseteq_drop (Z.to_nat o)) in Hr. exact Hr.
Qed.

(** [Math.ceil(n / l)] is the least number of pages of [l] rows that hold
    [n] rows. *)
Lemma ceil_div_spec n l :
  (0 < l)%Z -> ((ceil_div n l - 1) * l < n <= ceil_div n l * l)%Z.
Proof.
  intros Hl. unfold ceil_div.
  pose proof (Z.div_mod (- n) l ltac:(lia)) as Hdm.
  pose proof (Z.mod_pos_bound (- n) l Hl) as Hb.
  nia.
Qed.

(** The result of a list operation over a table, for a page and a limit
    that are at least one. *)
Lemma list_rows_spec filters_page filters_limit where_ t :
  let p := JS.or_num filters_page 1 in
  let l := JS.or_num filters_limit 50 in
  let n := Z.of_nat (length (List.filter where_ t)) in
  (1 <= p)%Z -> (1 <= l)%Z ->
  exists rows pg,
    list_rows filters_page filters_limit where_ t = Ok (rows, pg)
    /\ page pg = p /\ limit pg = l /\ total pg = n
    /\ ((totalPages pg - 1) * l < n <= totalPages pg * l)%Z
    /\ hasNext pg = (p <? totalPages pg)%Z
    /\ hasPrev pg = (1 <? p)%Z
    /\ Z.of_nat (length rows) = Z.min l (Z.max 0 (n - (p - 1) * l)).
Proof.
  intros p l n Hp Hl. unfold list_rows. fold p l.
  rewrite limit_offset_ok by nia. simpl.
  eexists _, _. split; [reflexivity|]. simpl.
  repeat split; try reflexivity; try (apply ceil_div_spec; lia).
  rewrite length_take, length_drop.
  rewrite (Permutation_length (order_by_created_desc_Permutation _)).
  fold n. nia.
Qed.

Lemma list_rows_elem filters_page filters_limit where_ t rows pg r :
  list_rows filters_page filters_limit where_ t = Ok (rows, pg) ->
  r ∈ rows -> r ∈ t /\ where_ r = true.
Proof.
  unfold list_rows.
  destruct (DB.limit_offset _ _ _) as [page|e] eqn:E; simpl; [|discriminate].
  intros [= <- _] Hr. apply (limit_offset_elem _ _ _ _ _ E) in Hr.
  rewrite order_by_created_desc_Permutation in Hr.
  apply list_elem_of_In, filter_In in Hr as [Hin Hw].
  split; [by apply list_elem_of_In | exact Hw].
Qed.

(** The UPDATE statements of ProjectsService.ensureTables touch only the
    two date columns. *)
Lemma backfill_lookup r k :
  k <> "due_date" -> k <> "start_date" ->
  ProjectsService.backfill r !! k = r !! k.
Proof.
  intros Hd Hs. unfold ProjectsService.backfill.
  repeat (case_match; simpl); rewrite ?lookup_insert_ne by congruence; reflexivity.
Qed.

Lemma where_backfill filters r :
  ProjectsService.where_ filters (ProjectsService.backfill r)
  = ProjectsService.where_ filters r.
Proof.
  unfold ProjectsService.where_. by rewrite !backfill_lookup by discriminate.
Qed.

Lemma filter_fmap_length (w : DB.row -> bool) (f : DB.row -> DB.row) (t : DB.table) :
  (forall r, w (f r) = w r) ->
  length (List.filter w (f <$> t)) = length (List.filter w t).
Proof.
  intros Hw. induction t as [|r t IH]; simpl; [reflexivity|].
  rewrite Hw. destruct (w r); simpl; [f_equal|]; exact IH.
Qed.

(** ** Pagination (C6) *)

(** C6. For a list call over [N] active rows matching the filters, with
    page [p] (1 when absent) and limit [L] (50 when absent), both at least
    one: the call returns, its descriptor has total = N, totalPages the
    ceiling of N / L, hasNext = (p < totalPages), hasPrev = (p > 1), and
    the page holds min(L, max(0, N - (p - 1) * L)) rows. *)
Theorem C6_getProjects_pagination :
  forall (t : DB.table) (filters : ProjectsService.Filters.t),
    let p := JS.or_num (ProjectsService.Filters.page filters) 1 in
    let L := JS.or_num (ProjectsService.Filters.limit filters) 50 in
    let N := Z.of_nat (length (List.filter (ProjectsService.where_ filters) t)) in
    (1 <= p)%Z -> (1 <= L)%Z ->
    (ProjectsService.Filters.page filters = None -> p = 1%Z)
    /\ (ProjectsService.Filters.limit filters = None -> L = 50%Z)
    /\ (forall r, ProjectsService.where_ filters r = true ->
                  r !! "is_active" = Some (DB.Scalar (VBool true)))
    /\ exists rows pg,
         ProjectsService.getProjects t filters = Ok (rows, pg)
         /\ page pg = p /\ limit pg = L /\ total pg = N
         /\ ((totalPages pg - 1) * L < N <= totalPages pg * L)%Z
         /\ hasNext pg = (p <? totalPages pg)%Z
         /\ hasPrev pg = (1 <? p)%Z
         /\ Z.of_nat (length rows) = Z.min L (Z.max 0 (N - (p - 1) * L)).
Proof.
  intros t filters p L N Hp HL.
  split; [by intros H; unfold p; rewrite H|].
  split; [by intros H; unfold L; rewrite H|].
  split.
  - intros r Hr. unfold ProjectsService.where_ in Hr.
    repeat (apply andb_prop in Hr as [Hr _]).
    unfold DB.is_true in Hr.
    destruct (r !! "is_active") as [[[| |[]| | | |]|]|]; try discriminate. reflexivity.
  - unfold ProjectsService.getProjects, ProjectsService.ensureTables.
    destruct (list_rows_spec (ProjectsService.Filters.page filters)
                (ProjectsService.Filters.limit filters)
                (ProjectsService.where_ filters)
                (ProjectsService.backfill <$> t) Hp HL)
      as (rows & pg & Hrun & Hpage & Hlimit & Htotal & Hpages & Hnext & Hprev & Hlen).
    rewrite (filter_fmap_length _ _ _ (where_backfill filters)) in Htotal, Hpages, Hlen.
    exists rows, pg. repeat split; try assumption; apply Hpages.
Qed.

(** The list operations of the other two services paginate the same way. *)
Lemma getTasks_pagination (t : DB.table) (filters : TasksService.Filters.t) :
  let p := JS.or_num (TasksService.Filters.page filters) 1 in
  let L := JS.or_num (TasksService.Filters.limit filters) 50 in
  let N := Z.of_nat (length (List.filter (TasksService.where_ filters) t)) in
  (1 <= p)%Z -> (1 <= L)%Z ->
  exists rows pg,
    TasksService.getTasks t filters = Ok (rows, pg)
    /\ page pg = p /\ limit pg = L /\ total pg = N
    /\ ((totalPages pg - 1) * L < N <= totalPages pg * L)%Z
    /\ hasNext pg = (p <? totalPages pg)%Z
    /\ hasPrev pg = (1 <? p)%Z
    /\ Z.of_nat (length rows) = Z.min L (Z.max 0 (N - (p - 1) * L)).
Proof. intros p L N Hp HL. by apply list_rows_spec. Qed.

Lemma getClients_pagination (t : DB.table) (filters : ClientsService.Filters.t) :
  let p := JS.or_num (ClientsService.Filters.page filters) 1 in
  let L := JS.or_num (ClientsService.Filters.limit filters) 50 in
  let N := Z.of_nat (length (List.filter (ClientsService.where_ filters) t)) in
  (1 <= p)%Z -> (1 <= L)%Z ->
  exists rows pg,
    ClientsService.getClients t filters = Ok (rows, pg)
    /\ page pg = p /\ limit pg = L /\ total pg = N
    /\ ((totalPages pg - 1) * L < N <= totalPages pg * L)%Z
    /\ hasNext pg = (p <? totalPages pg)%Z
    /\ hasPrev pg = (1 <? p)%Z
    /\ Z.of_nat (length rows) = Z.min L (Z.max 0 (N - (p - 1) * L)).
Proof. intros p L N Hp HL. by apply list_rows_spec. Qed.

(** With 120 active rows and limit 50, page 3 has 20 rows, no next page,
    and there are 3 pages. *)
Lemma C6_getProjects_pagination_witness :
  exists rows pg,
    ProjectsService.getProjects projects_120 (page_of_50 3) = Ok (rows, pg)
    /\ length rows = 20%nat
    /\ totalPages pg = 3%Z
    /\ hasNext pg = false
    /\ hasPrev pg = true.
Proof.
  destruct (C6_getProjects_pagination projects_120 (page_of_50 3))
    as (_ & _ & _ & rows & pg & Hrun & Hpage & Hlimit & Htotal & Hpages & Hnext & Hprev & Hlen).
  - vm_compute. discriminate.
  - vm_compute. discriminate.
  - assert (HN : Z.of_nat (length
                   (List.filter (ProjectsService.where_ (page_of_50 3)) projects_120))
                 = 120%Z) by (vm_compute; reflexivity).
    rewrite HN in Hpages, Hlen.
    change (JS.or_num (ProjectsService.Filters.page (page_of_50 3)) 1) with 3%Z in *.
    change (JS.or_num (ProjectsService.Filters.limit (page_of_50 3)) 50) with 50%Z in *.
    assert (Hp3 : totalPages pg = 3%Z) by lia.
    exists rows, pg. rewrite Hnext, Hprev, Hp3.
    repeat split; [exact Hrun | lia].
Defined.

(** The same table, page 1: fifty rows, a next page, no previous page. *)
Example getProjects_first_page :
  match ProjectsService.getProjects projects_120 (page_of_50 1) with
  | Ok (rows, pg) =>
      length rows = 50%nat
      /\ pg = {| page := 1; limit := 50; total := 120; totalPages := 3;
                 hasNext := true; hasPrev := false |}
  | Throw _ => False
  end.
Proof. vm_compute. split; reflexivity. Qed.

Example getProjects_third_page :
  match ProjectsService.getProjects projects_120 (page_of_50 3) with
  | Ok (rows, pg) =>
      length rows = 20%nat
      /\ pg = {| page := 3; limit := 50; total := 120; totalPages := 3;
                 hasNext := false; hasPrev := true |}
  | Throw _ => False
  end.
Proof. vm_compute. split; reflexivity. Qed.

(** ** Soft delete (C4) *)

Lemma softDelete_table t id :
  fst (DB.softDeleteInTenantSchema t id) = deactivate id <$> t.
Proof. reflexivity. Qed.

Lemma softDelete_row t id :
  snd (DB.softDeleteInTenantSchema t id)
  = head (filter (fun r => DB.has_id id r = true) (deactivate id <$> t)).
Proof. reflexivity. Qed.

Lemma has_id_deactivate id id' r :
  DB.has_id id' (deactivate id r) = DB.has_id id' r.
Proof.
  unfold deactivate. destruct (DB.has_id id r); [|reflexivity].
  unfold DB.has_id. by rewrite lookup_insert_ne.
Qed.

Lemma deactivate_inactive id r :
  DB.has_id id r = true ->
  deactivate id r !! "is_active" = Some (DB.Scalar (VBool false)).
Proof. intros H. unfold deactivate. rewrite H. apply lookup_insert_eq. Qed.

Lemma softDelete_found t id :
  is_Some (snd (DB.softDeleteInTenantSchema t id)) ->
  exists r, r ∈ t /\ DB.has_id id r = true.
Proof.
  rewrite softDelete_row. intros [o Ho].
  apply head_Some_elem_of in Ho. apply list_elem_of_filter in Ho as [Hid Hin].
  apply list_elem_of_fmap in Hin as (r & -> & Hr).
  exists r. split; [exact Hr|]. by rewrite has_id_deactivate in Hid.
Qed.

Section SoftDeleteHides.

(** What the ensure step of a service does to a row; it touches neither
    the id nor the is_active flag. *)
Variable ensure : DB.row -> DB.row.
Hypothesis ensure_id : forall r, ensure r !! "id" = r !! "id".
Hypothesis ensure_active : forall r, ensure r !! "is_active" = r !! "is_active".

Lemma has_id_ensure id r : DB.has_id id (ensure r) = DB.has_id id r.
Proof. unfold DB.has_id. by rewrite ensure_id. Qed.

(** After the soft delete no row with the id is active, also after a
    later ensure step. *)
Lemma deleted_rows_inactive (t : DB.table) id r :
  r ∈ ensure <$> (deactivate id <$> (ensure <$> t)) ->
  DB.has_id id r = true ->
  r !! "is_active" = Some (DB.Scalar (VBool false)).
Proof.
  intros Hin Hid.
  apply list_elem_of_fmap in Hin as (r1 & -> & Hin).
  apply list_elem_of_fmap in Hin as (r2 & -> & Hin).
  rewrite has_id_ensure, has_id_deactivate in Hid.
  rewrite ensure_active. by apply deactivate_inactive.
Qed.

Lemma get_by_id_deleted (t : DB.table) id :
  get_by_id (ensure <$> (deactivate id <$> (ensure <$> t))) id = None.
Proof.
  unfold get_by_id. apply head_None.
  match goal with |- ?l = [] => destruct l as [|r l'] eqn:E end; [reflexivity|].
  assert (Hin : In r (r :: l')) by (left; reflexivity).
  rewrite <- E in Hin. apply filter_In in Hin as [Hin Hc].
  apply andb_prop in Hc as [Hid Hact].
  apply list_elem_of_In in Hin.
  rewrite (deleted_rows_inactive _ _ _ Hin Hid) in Hact. discriminate.
Qed.

Lemma list_rows_deleted filters_page filters_limit where_ (t : DB.table) id rows pg r :
  (forall r, where_ r = true -> DB.is_true (r !! "is_active") = true) ->
  list_rows filters_page filters_limit where_
    (ensure <$> (deactivate id <$> (ensure <$> t))) = Ok (rows, pg) ->
  r ∈ rows -> DB.has_id id r = false.
Proof.
  intros Hw Hrun Hr.
  destruct (list_rows_elem _ _ _ _ _ _ _ Hrun Hr) as [Hin Hwr].
  destruct (DB.has_id id r) eqn:Hid; [|reflexivity].
  apply Hw in Hwr. rewrite (deleted_rows_inactive _ _ _ Hin Hid) in Hwr. discriminate.
Qed.

Lemma deleted_row_retained (t : DB.table) id :
  is_Some (snd (DB.softDeleteInTenantSchema (ensure <$> t) id)) ->
  exists r, r ∈ deactivate id <$> (ensure <$> t)
            /\ DB.has_id id r = true
            /\ r !! "is_active" = Some (DB.Scalar (VBool false)).
Proof.
  intros H. apply softDelete_found in H as (r & Hin & Hid).
  exists (deactivate id r). split; [|split].
  - apply list_elem_of_fmap. eauto.
  - by rewrite has_id_deactivate.
  - by apply deactivate_inactive.
Qed.

End SoftDeleteHides.

Lemma found_is_Some (o : option DB.row) :
  match o with Some _ => true | None => false end = true -> is_Some o.
Proof. destruct o; [eauto | discriminate]. Qed.

Lemma tasks_where_active filters r :
  TasksService.where_ filters r = true -> DB.is_true (r !! "is_active") = true.
Proof.
  unfold TasksService.where_. intros H. by repeat (apply andb_prop in H as [H _]).
Qed.

Lemma projects_where_active filters r :
  ProjectsService.where_ filters r = true -> DB.is_true (r !! "is_active") = true.
Proof.
  unfold ProjectsService.where_. intros H. by repeat (apply andb_prop in H as [H _]).
Qed.

Lemma clients_where_active filters r :
  ClientsService.where_ filters r = true -> DB.is_true (r !! "is_active") = true.
Proof.
  unfold ClientsService.where_. intros H. by repeat (apply andb_prop in H as [H _]).
Qed.

(** The three services delete, get and list through the same helpers;
    only the ensure step differs. *)
Lemma soft_delete_hides_with (ensure : DB.row -> DB.row) {F : Type}
    (where_ : F -> DB.row -> bool) (fpage flimit : F -> option Z) :
  (forall r, ensure r !! "id" = r !! "id") ->
  (forall r, ensure r !! "is_active" = r !! "is_active") ->
  (forall filters r, where_ filters r = true -> DB.is_true (r !! "is_active") = true) ->
  soft_deleted_is_hidden
    (fun t id =>
       let t := ensure <$> t in
       let '(t', found) := DB.softDeleteInTenantSchema t id in
       (t', match found with Some _ => true | None => false end))
    (fun t id => get_by_id (ensure <$> t) id)
    (fun t filters => list_rows (fpage filters) (flimit filters) (where_ filters)
                        (ensure <$> t)).
Proof.
  intros Hid Hact Hw t id Hfound.
  apply found_is_Some in Hfound.
  split; [exact (get_by_id_deleted ensure Hid Hact t id)|].
  split.
  { intros filters rows pg r.
    exact (list_rows_deleted ensure Hid Hact _ _ (where_ filters) t id rows pg r
             (Hw filters)). }
  split.
  { change (length (deactivate id <$> (ensure <$> t)) = length t).
    by rewrite !length_fmap. }
  exact (deleted_row_retained ensure t id Hfound).
Qed.

(** C4. For every entity (project, task, client) and every id on which
    the soft delete succeeds: a subsequent get-by-id returns null, a
    subsequent list call with any filters does not include the id, and
    the row is still in the table, with is_active = false. *)
Theorem C4_soft_deleted_entities_are_hidden :
  soft_deleted_is_hidden ProjectsService.deleteProject
    ProjectsService.getProjectById ProjectsService.getProjects
  /\ soft_deleted_is_hidden TasksService.deleteTask
       TasksService.getTaskById TasksService.getTasks
  /\ soft_deleted_is_hidden ClientsService.deleteClient
       ClientsService.getClientById ClientsService.getClients.
Proof.
  split; [|split].
  - apply (soft_delete_hides_with ProjectsService.backfill ProjectsService.where_
             ProjectsService.Filters.page ProjectsService.Filters.limit).
    + intros r. by apply backfill_lookup.
    + intros r. by apply backfill_lookup.
    + apply projects_where_active.
  - pose proof (soft_delete_hides_with (fun r => r) TasksService.where_
                  TasksService.Filters.page TasksService.Filters.limit
                  (fun _ => eq_refl) (fun _ => eq_refl) tasks_where_active) as H.
    intros t id. specialize (H t id). simpl in H. rewrite !list_fmap_id in H.
    unfold TasksService.deleteTask, TasksService.getTaskById, TasksService.getTasks,
      TasksService.ensureTables.
    intros Hfound. specialize (H Hfound).
    destruct H as (Hget & Hlist & Hlen & Hrow).
    split; [exact Hget|].
    split; [|split; [exact Hlen | exact Hrow]].
    intros filters rows pg r Hrun. exact (Hlist filters rows pg r Hrun).
  - pose proof (soft_delete_hides_with (fun r => r) ClientsService.where_
                  ClientsService.Filters.page ClientsService.Filters.limit
                  (fun _ => eq_refl) (fun _ => eq_refl) clients_where_active) as H.
    intros t id. specialize (H t id). simpl in H. rewrite !list_fmap_id in H.
    unfold ClientsService.deleteClient, ClientsService.getClientById,
      ClientsService.getClients, ClientsService.ensureTables.
    intros Hfound. specialize (H Hfound).
    destruct H as (Hget & Hlist & Hlen & Hrow).
    split; [exact Hget|].
    split; [|split; [exact Hlen | exact Hrow]].
    intros filters rows pg r Hrun. exact (Hlist filters rows pg r Hrun).
Qed.

(** Two projects; the first is deleted. *)
Lemma C4_soft_deleted_entities_are_hidden_witness :
  let t0 := [stored_project "p1" 10; stored_project "p2" 20] in
  let t' := fst (ProjectsService.deleteProject t0 "p1") in
  match ProjectsService.getProjectById t0 "p1" with Some _ => True | None => False end
  /\ snd (ProjectsService.deleteProject t0 "p1") = true
  /\ ProjectsService.getProjectById t' "p1" = None
  /\ length t' = 2%nat
  /\ exists r, r ∈ t' /\ DB.has_id "p1" r = true
               /\ r !! "is_active" = Some (DB.Scalar (VBool false)).
Proof.
  intros t0 t'.
  assert (Hfound : snd (ProjectsService.deleteProject t0 "p1") = true)
    by (vm_compute; reflexivity).
  destruct (proj1 C4_soft_deleted_entities_are_hidden t0 "p1" Hfound)
    as (Hget & _ & Hlen & Hrow).
  split; [by vm_compute|].
  split; [exact Hfound|].
  split; [exact Hget|].
  split; [exact Hlen | exact Hrow].
Defined.

(** ** Sparse update (C5) *)

Lemma apply_update_lookup now (data : gmap string value) (r : DB.row) c :
  c <> "updated_at" ->
  DB.apply_update now data r !! c
  = match data !! c with
    | Some v => Some (DB.bind_value v)
    | None => r !! c
    end.
Proof.
  intros Hc. unfold DB.apply_update.
  rewrite lookup_insert_ne by congruence.
  rewrite lookup_union, lookup_fmap.
  destruct (data !! c); simpl; [|by destruct (r !! c)].
  by destruct (r !! c).
Qed.

Lemma apply_update_updated_at now (data : gmap string value) (r : DB.row) :
  DB.apply_update now data r !! "updated_at" = Some (DB.Scalar (VNum now)).
Proof. apply lookup_insert_eq. Qed.

Lemma has_id_apply_update now (data : gmap string value) (r : DB.row) id :
  data !! "id" = None ->
  DB.has_id id (DB.apply_update now data r) = DB.has_id id r.
Proof.
  intros Hd. unfold DB.has_id. rewrite apply_update_lookup by discriminate.
  by rewrite Hd.
Qed.

Lemma head_filter_fmap_has_id (f : DB.row -> DB.row) id (t : DB.table) :
  (forall r, DB.has_id id (f r) = DB.has_id id r) ->
  head (filter (fun r => DB.has_id id r = true) (f <$> t))
  = f <$> head (filter (fun r => DB.has_id id r = true) t).
Proof.
  intros Hf. induction t as [|r t IH]; [reflexivity|].
  rewrite fmap_cons, !filter_cons, Hf.
  destruct (decide (DB.has_id id r = true)); [reflexivity | exact IH].
Qed.

(** What the update helper returns is the first row with the id, with the
    mapping applied to it. *)
Lemma updateInTenantSchema_row def now (t : DB.table) id (data : gmap string value) r' :
  data !! "id" = None ->
  updated_row (DB.updateInTenantSchema def now t id data) = Some r' ->
  exists r,
    head (filter (fun r => DB.has_id id r = true) t) = Some r
    /\ r' = DB.apply_update now data r.
Proof.
  intros Hd. unfold DB.updateInTenantSchema.
  destruct (size data =? 0)%nat; [discriminate|].
  set (upd := fun r : DB.row => if DB.has_id id r then DB.apply_update now data r else r).
  assert (Hupd : forall r, DB.has_id id (upd r) = DB.has_id id r).
  { intros r. unfold upd. destruct (DB.has_id id r) eqn:E; [|exact E].
    by rewrite has_id_apply_update. }
  rewrite (head_filter_fmap_has_id upd id t Hupd).
  destruct (forallb _ _); [|discriminate]. simpl.
  destruct (head (filter _ t)) as [r|] eqn:E; simpl; [|discriminate].
  intros [= <-]. exists r. split; [reflexivity|].
  apply head_Some_elem_of, list_elem_of_filter in E as [Hid _].
  unfold upd. by rewrite Hid.
Qed.

Lemma supplied_not_column columns c :
  c ∉ (fst <$> columns) -> supplied columns c = None.
Proof.
  unfold supplied. induction columns as [|[k v] columns IH]; [reflexivity|].
  rewrite fmap_cons, not_elem_of_cons. simpl. intros [Hne Hin].
  destruct (String.eqb_spec k c); [congruence | by apply IH].
Qed.

Lemma payload_from_lookup columns m c :
  NoDup (fst <$> columns) ->
  payload_from m columns !! c
  = match supplied columns c with
    | Some v => Some v
    | None => m !! c
    end.
Proof.
  revert m. induction columns as [|[k v] columns IH]; intros m Hnd; [reflexivity|].
  rewrite fmap_cons in Hnd. cbn [fst] in Hnd. apply NoDup_cons in Hnd as [Hk Hnd].
  change (payload_from m ((k, v) :: columns))
    with (payload_from (set_if (value_defined v) k v m) columns).
  rewrite (IH _ Hnd). unfold supplied at 2. cbn [List.find fst].
  destruct (String.eqb_spec k c) as [Heq|Hne].
  - subst c. rewrite (supplied_not_column _ _ Hk), lookup_set_if_eq. by destruct v.
  - fold (supplied columns c). by rewrite lookup_set_if_ne.
Qed.

Lemma defined_str o : value_defined (JS.str o) = JS.defined o.
Proof. by destruct o. Qed.
Lemma defined_num o : value_defined (JS.num o) = JS.defined o.
Proof. by destruct o. Qed.
Lemma defined_strs o : value_defined (JS.strs o) = JS.defined o.
Proof. by destruct o. Qed.
Lemma defined_arr o : value_defined (JS.arr o) = JS.defined o.
Proof. by destruct o. Qed.
Lemma defined_stringify_arr o :
  value_defined (JS.JSON_stringify (JS.arr o)) = JS.defined o.
Proof. by destruct o. Qed.
Lemma defined_stringify_str o :
  value_defined (JS.JSON_stringify (JS.str o)) = JS.defined o.
Proof. by destruct o. Qed.

(** Unfolds [payload_from] over a table of columns into the chain of
    statements the service has. *)
Ltac unfold_payload cols :=
  unfold payload_from, cols; cbn [fold_left fst snd];
  rewrite ?defined_stringify_arr, ?defined_stringify_str,
    ?defined_str, ?defined_num, ?defined_strs, ?defined_arr.

Lemma updateProject_data_columns u data c :
  ProjectsService.updateProject_data u = Ok data ->
  data !! c = supplied (project_update_columns u) c.
Proof.
  unfold ProjectsService.updateProject_data.
  match goal with |- (if ?b then _ else _) = _ -> _ => destruct b; [discriminate|] end.
  intros [= <-].
  transitivity (payload_from ∅ (project_update_columns u) !! c).
  { unfold_payload project_update_columns. reflexivity. }
  rewrite payload_from_lookup.
  - rewrite lookup_empty. by destruct (supplied _ c).
  - cbn [project_update_columns fmap list_fmap fst]. apply (bool_decide_unpack _). by vm_compute.
Qed.

Lemma updateTask_data_columns u data c :
  TasksService.updateTask_data u = Ok data ->
  c <> "subtasks" ->
  data !! c = supplied (task_update_columns u) c.
Proof.
  unfold TasksService.updateTask_data.
  match goal with |- (if ?b then _ else _) = _ -> _ => destruct b; [discriminate|] end.
  intros [= <-] Hc. rewrite lookup_set_if_ne by congruence.
  transitivity (payload_from ∅ (task_update_columns u) !! c).
  { unfold_payload task_update_columns. reflexivity. }
  rewrite payload_from_lookup.
  - rewrite lookup_empty. by destruct (supplied _ c).
  - cbn [task_update_columns fmap list_fmap fst]. apply (bool_decide_unpack _). by vm_compute.
Qed.

Lemma updateClient_data_columns u data c :
  ClientsService.updateClient_data u = Ok data ->
  c <> "address" ->
  data !! c = supplied (client_update_columns u) c.
Proof.
  unfold ClientsService.updateClient_data.
  match goal with |- (if ?b then _ else _) = _ -> _ => destruct b; [discriminate|] end.
  intros [= <-] Hc.
  set (code_columns :=
         take 4 (client_update_columns u)
         ++ ("address", JS.JSON_stringify (JS.str (ClientsService.address u)))
            :: drop 4 (client_update_columns u)).
  transitivity (payload_from ∅ code_columns !! c).
  { cbv [payload_from code_columns client_update_columns firstn skipn app fold_left fst snd].
    rewrite ?defined_stringify_str, ?defined_str, ?defined_num, ?defined_strs.
    reflexivity. }
  rewrite payload_from_lookup.
  - rewrite lookup_empty.
    transitivity (supplied code_columns c); [by destruct (supplied _ c)|].
    cbv [supplied code_columns client_update_columns firstn skipn app List.find fst].
    by rewrite (proj2 (String.eqb_neq "address" c)) by congruence.
  - cbv [code_columns client_update_columns firstn skipn app fmap list_fmap fst].
    apply (bool_decide_unpack _). by vm_compute.
Qed.




(** ** Enumerated tokens (C3) *)

Lemma check_in_refuses s allowed :
  s ∉ allowed -> DB.check_in (Some (DB.Scalar (VStr s))) allowed = false.
Proof.
  intros Hs. unfold DB.check_in. simpl.
  apply not_true_is_false. intros H. apply existsb_exists in H as (x & Hin & Hx).
  apply String.eqb_eq in Hx as <-. apply Hs. by apply list_elem_of_In.
Qed.

Lemma check_in_accepts s allowed :
  s ∈ allowed -> DB.check_in (Some (DB.Scalar (VStr s))) allowed = true.
Proof.
  intros Hs. unfold DB.check_in. simpl.
  apply existsb_exists. exists s. split; [by apply list_elem_of_In | apply String.eqb_refl].
Qed.

(** The row insert builds has every supplied column, bound. *)
Lemma inserted_row_lookup def new_id now (t : DB.table) (data : gmap string value) t' r c v :
  DB.insertInTenantSchema def new_id now t data = Ok (t', r) ->
  data !! c = Some v ->
  r !! c = Some (DB.bind_value v).
Proof.
  unfold DB.insertInTenantSchema.
  destruct (negb (forallb _ _)); [discriminate|].
  destruct (negb (DB.checks _ _)); [discriminate|].
  intros [= _ <-] Hc. apply lookup_union_Some_l. by rewrite lookup_fmap, Hc.
Qed.

(** Insert fails when the table's CHECK constraints refuse the row. *)
Lemma insert_refused def new_id now (t : DB.table) (data : gmap string value) :
  DB.checks def ((DB.bind_value <$> data)
                   ∪ <["id" := DB.Scalar (VStr new_id)]> (DB.defaults def now)) = false ->
  is_ok (DB.insertInTenantSchema def new_id now t data) = false.
Proof.
  intros H. unfold DB.insertInTenantSchema.
  destruct (negb (forallb _ _)); [reflexivity|]. by rewrite H.
Qed.

(** Update fails when the table refuses the updated version of a row
    that has the id. *)
Lemma update_refused def now (t : DB.table) id (data : gmap string value) r :
  data !! "id" = None ->
  r ∈ t -> DB.has_id id r = true ->
  DB.row_ok def (DB.apply_update now data r) = false ->
  is_ok (DB.updateInTenantSchema def now t id data) = false.
Proof.
  intros Hd Hin Hid Hbad. unfold DB.updateInTenantSchema.
  destruct (size data =? 0)%nat; [reflexivity|].
  match goal with |- context [forallb ?f ?l] => destruct (forallb f l) eqn:E end;
    [|reflexivity].
  exfalso. rewrite forallb_forall in E.
  specialize (E (DB.apply_update now data r)). rewrite Hbad in E.
  assert (In (DB.apply_update now data r)
            (filter (fun r => DB.has_id id r = true)
               ((fun r => if DB.has_id id r then DB.apply_update now data r else r) <$> t)));
    [|by specialize (E H)].
  apply list_elem_of_In, list_elem_of_filter. split.
  - by rewrite has_id_apply_update.
  - apply list_elem_of_fmap. exists r. by rewrite Hid.
Qed.

(** Update succeeds, on the first row with the id, when the table accepts
    the updated version of every row that has the id. *)
Lemma update_accepted def now (t : DB.table) id (data : gmap string value) r :
  data !! "id" = None -> data <> ∅ ->
  head (filter (fun r => DB.has_id id r = true) t) = Some r ->
  (forall x, x ∈ t -> DB.has_id id x = true ->
             DB.row_ok def (DB.apply_update now data x) = true) ->
  updated_row (DB.updateInTenantSchema def now t id data)
  = Some (DB.apply_update now data r).
Proof.
  intros Hd Hne Hhead Hok. unfold DB.updateInTenantSchema.
  destruct (Nat.eqb_spec (size data) 0) as [Hz|_];
    [by apply map_size_empty_iff in Hz|].
  set (upd := fun r : DB.row => if DB.has_id id r then DB.apply_update now data r else r).
  assert (Hupd : forall r, DB.has_id id (upd r) = DB.has_id id r).
  { intros x. unfold upd. destruct (DB.has_id id x) eqn:E; [|exact E].
    by rewrite has_id_apply_update. }
  rewrite (head_filter_fmap_has_id upd id t Hupd), Hhead.
  assert (Hall : forallb (DB.row_ok def)
                   (filter (fun r => DB.has_id id r = true) (upd <$> t)) = true).
  { apply forallb_forall. intros y Hy.
    apply list_elem_of_In, list_elem_of_filter in Hy as [Hyid Hy].
    apply list_elem_of_fmap in Hy as (x & -> & Hx).
    rewrite Hupd in Hyid. unfold upd. rewrite Hyid. by apply Hok. }
  rewrite Hall. simpl. unfold upd.
  apply head_Some_elem_of, list_elem_of_filter in Hhead as [Hid _]. by rewrite Hid.
Qed.

Lemma createTask_data_tokens taskData createdBy data :
  TasksService.createTask_data taskData createdBy = Ok data ->
  data !! "status" = Some (JS.str_or (TasksService.status taskData) (VStr "not_started"))
  /\ data !! "priority" = Some (JS.str_or (TasksService.priority taskData) (VStr "medium"))
  /\ data !! "id" = None.
Proof.
  unfold TasksService.createTask_data.
  repeat match goal with
         | |- (if ?c then Throw _ else _) = _ -> _ => destruct c; [discriminate|]
         end.
  intros [= <-]. repeat split; by read_payload.
Qed.

Lemma str_or_token s d : s <> "" -> JS.str_or (Some s) d = VStr s.
Proof.
  intros Hs. unfold JS.str_or. simpl.
  by destruct (String.eqb_spec s "").
Qed.

(** The tasks table refuses a task whose status or priority is not one
    of its tokens. *)
Lemma createTask_refused new_id now t taskData createdBy s :
  (TasksService.status taskData = Some s /\ s ∉ TasksService.statuses
   \/ TasksService.priority taskData = Some s /\ s ∉ TasksService.priorities) ->
  s <> "" ->
  is_ok (TasksService.createTask new_id now t taskData createdBy) = false.
Proof.
  intros Hbad Hs. unfold TasksService.createTask.
  destruct (TasksService.createTask_data taskData createdBy) as [data|e] eqn:Hd;
    [|reflexivity].
  destruct (createTask_data_tokens _ _ _ Hd) as (Hst & Hpr & _).
  simpl. apply insert_refused.
  cbn [DB.checks TasksService.table_def].
  destruct Hbad as [[Hm Hno]|[Hm Hno]]; rewrite Hm in *.
  - rewrite (lookup_union_Some_l _ _ "status" (DB.Scalar (VStr s))).
    + by rewrite check_in_refuses.
    + by rewrite lookup_fmap, Hst, str_or_token.
  - rewrite (lookup_union_Some_l _ _ "priority" (DB.Scalar (VStr s))).
    + by rewrite check_in_refuses, andb_false_r.
    + by rewrite lookup_fmap, Hpr, str_or_token.
Qed.

(** Looks a column up in a table of columns. *)
Ltac read_columns :=
  cbv [supplied project_update_columns task_update_columns client_update_columns
       List.find fst];
  cbn [String.eqb Ascii.eqb Bool.eqb andb].

Lemma updateTask_refused now (t : DB.table) id u s :
  (TasksService.status u = Some s /\ s ∉ TasksService.statuses
   \/ TasksService.priority u = Some s /\ s ∉ TasksService.priorities) ->
  (exists r, r ∈ t /\ DB.has_id id r = true) ->
  is_ok (TasksService.updateTask now t id u) = false.
Proof.
  intros Hbad (r & Hin & Hid). unfold TasksService.updateTask, TasksService.ensureTables.
  destruct (TasksService.updateTask_data u) as [data|e] eqn:Hd; [|reflexivity].
  simpl. apply (update_refused _ _ _ _ _ r); try assumption.
  - by rewrite (updateTask_data_columns _ _ "id" Hd).
  - unfold DB.row_ok. cbn [DB.checks TasksService.table_def].
    rewrite !apply_update_lookup by discriminate.
    rewrite (updateTask_data_columns _ _ "status" Hd) by discriminate.
    rewrite (updateTask_data_columns _ _ "priority" Hd) by discriminate.
    read_columns.
    destruct Hbad as [[Hm Hno]|[Hm Hno]]; rewrite Hm;
      cbv [JS.str DB.bind_value JS.is_structured].
    + by rewrite check_in_refuses, andb_false_r.
    + by rewrite check_in_refuses, !andb_false_r.
Qed.

Lemma update_passes_through :
  passes_through ProjectsService.updateProject_data ProjectsService.status "status"
  /\ passes_through ProjectsService.updateProject_data ProjectsService.priority "priority"
  /\ passes_through ProjectsService.updateProject_data ProjectsService.currency "currency"
  /\ passes_through TasksService.updateTask_data TasksService.status "status"
  /\ passes_through TasksService.updateTask_data TasksService.priority "priority"
  /\ passes_through ClientsService.updateClient_data ClientsService.status "status"
  /\ passes_through ClientsService.updateClient_data ClientsService.currency "currency".
Proof.
  repeat split; intros u s data Hm Hd.
  - rewrite (updateProject_data_columns _ _ _ Hd). read_columns. by rewrite Hm.
  - rewrite (updateProject_data_columns _ _ _ Hd). read_columns. by rewrite Hm.
  - rewrite (updateProject_data_columns _ _ _ Hd). read_columns. by rewrite Hm.
  - rewrite (updateTask_data_columns _ _ _ Hd) by discriminate. read_columns. by rewrite Hm.
  - rewrite (updateTask_data_columns _ _ _ Hd) by discriminate. read_columns. by rewrite Hm.
  - rewrite (updateClient_data_columns _ _ _ Hd) by discriminate. read_columns. by rewrite Hm.
  - rewrite (updateClient_data_columns _ _ _ Hd) by discriminate. read_columns. by rewrite Hm.
Qed.

(** The clients table has no CHECK constraint: createClient stores any
    non-empty status it is given. *)
Lemma createClient_stores_status new_id now (t : DB.table) clientData createdBy n e s :
  ClientsService.name clientData = Some n ->
  ClientsService.email clientData = Some e ->
  ClientsService.status clientData = Some s ->
  s <> "" ->
  match ClientsService.createClient new_id now t clientData createdBy with
  | Ok (_, r) => r !! "status" = Some (DB.Scalar (VStr s))
  | Throw _ => False
  end.
Proof.
  intros Hn He Hs Hne. unfold ClientsService.createClient, ClientsService.ensureTables.
  remember (ClientsService.createClient_data clientData createdBy) as data eqn:Hdata.
  assert (Hname : data !! "name" = Some (VStr n)).
  { subst data. unfold ClientsService.createClient_data. read_payload. by rewrite Hn. }
  assert (Hemail : data !! "email" = Some (VStr e)).
  { subst data. unfold ClientsService.createClient_data. read_payload. by rewrite He. }
  assert (Hby : data !! "created_by" = Some (VStr createdBy)).
  { subst data. unfold ClientsService.createClient_data. by read_payload. }
  assert (Hstatus : data !! "status" = Some (VStr s)).
  { subst data. unfold ClientsService.createClient_data. read_payload.
    by rewrite Hs, str_or_token. }
  clear Hdata. unfold DB.insertInTenantSchema.
  remember ((DB.bind_value <$> data)
              ∪ <["id" := DB.Scalar (VStr new_id)]>
                  (DB.defaults ClientsService.table_def now)) as r eqn:Hr.
  assert (Hrow : forall c v, data !! c = Some v -> r !! c = Some (DB.bind_value v)).
  { intros c v Hc. subst r. apply lookup_union_Some_l. by rewrite lookup_fmap, Hc. }
  clear Hr.
  cbn [DB.required DB.checks ClientsService.table_def forallb].
  rewrite (Hrow _ _ Hname), (Hrow _ _ Hemail), (Hrow _ _ Hby).
  cbn [DB.bind_value JS.is_structured DB.is_null negb andb].
  exact (Hrow _ _ Hstatus).
Qed.

Lemma lookup_nonempty (data : gmap string value) c v :
  data !! c = Some v -> data <> ∅.
Proof. intros H ->. by rewrite lookup_empty in H. Qed.

Lemma head_filter_found (t : DB.table) id :
  (exists r, r ∈ t /\ DB.has_id id r = true) ->
  exists r0, head (filter (fun r => DB.has_id id r = true) t) = Some r0.
Proof.
  intros (r & Hin & Hid).
  destruct (filter (fun r => DB.has_id id r = true) t) as [|r0 l] eqn:E; [|by eauto].
  assert (Hr : r ∈ filter (fun r => DB.has_id id r = true) t)
    by (by apply list_elem_of_filter).
  rewrite E in Hr. by apply elem_of_nil in Hr.
Qed.

(** updateTask sets any status of the table from any status. *)
Lemma updateTask_reaches now (t : DB.table) id s :
  s ∈ TasksService.statuses ->
  (exists r, r ∈ t /\ DB.has_id id r = true) ->
  (forall x, x ∈ t -> DB.has_id id x = true ->
             DB.row_ok TasksService.table_def x = true) ->
  exists r',
    updated_row (TasksService.updateTask now t id (task_data (Some s) None)) = Some r'
    /\ r' !! "status" = Some (DB.Scalar (VStr s)).
Proof.
  intros Hs Hfound Hrows.
  destruct (head_filter_found t id Hfound) as [r Hhead].
  unfold TasksService.updateTask, TasksService.ensureTables.
  destruct (TasksService.updateTask_data (task_data (Some s) None)) as [data|e] eqn:Hd.
  - assert (Hcol : forall c, c <> "subtasks" ->
                     data !! c = supplied (task_update_columns (task_data (Some s) None)) c)
      by (intros c Hc; by apply updateTask_data_columns).
    assert (Hstatus : data !! "status" = Some (VStr s)) by (by rewrite Hcol).
    simpl. rewrite (update_accepted _ _ _ _ _ r).
    + eexists. split; [reflexivity|].
      rewrite apply_update_lookup by discriminate. by rewrite Hstatus.
    + by rewrite Hcol.
    + by eapply lookup_nonempty.
    + exact Hhead.
    + intros x Hx Hid. specialize (Hrows x Hx Hid).
      unfold DB.row_ok in *.
      cbn [DB.required DB.checks TasksService.table_def forallb] in *.
      rewrite !apply_update_lookup by discriminate.
      rewrite !Hcol by discriminate. read_columns.
      cbv [task_data TasksService.title TasksService.assignedTo TasksService.status
           TasksService.priority TasksService.progress JS.str JS.num
           DB.bind_value JS.is_structured].
      rewrite (check_in_accepts _ _ Hs).
      apply andb_prop in Hrows as [Hreq Hchk].
      apply andb_prop in Hchk as [Hchk Hprog].
      apply andb_prop in Hchk as [_ Hprio].
      by rewrite Hreq, Hprio, Hprog.
  - exfalso. unfold TasksService.updateTask_data in Hd.
    match type of Hd with
    | (if (size ?d =? 0)%nat then _ else _) = _ =>
        destruct (Nat.eqb_spec (size d) 0) as [Hz|Hz]; [|discriminate];
        apply map_size_empty_iff in Hz;
        assert (Hst : d !! "status" = Some (VStr s)) by (by read_payload)
    end.
    rewrite Hz in Hst. by rewrite lookup_empty in Hst.
Qed.

Lemma backfill_dated x :
  DB.is_null (x !! "start_date") = false ->
  DB.is_null (x !! "due_date") = false ->
  ProjectsService.backfill x = x.
Proof.
  intros Hstart Hdue. unfold ProjectsService.backfill.
  rewrite Hdue. cbn [andb]. by rewrite Hstart, Hdue.
Qed.

(** updateProject sets any status from any status; the projects table
    puts no constraint on the token. *)
Lemma updateProject_reaches now (t : DB.table) id s :
  (exists r, r ∈ t /\ DB.has_id id r = true) ->
  (forall x, x ∈ t -> DB.has_id id x = true ->
             DB.row_ok ProjectsService.table_def x = true) ->
  exists r',
    updated_row (ProjectsService.updateProject now t id (project_data None (Some s) None))
    = Some r'
    /\ r' !! "status" = Some (DB.Scalar (VStr s)).
Proof.
  intros Hfound Hrows.
  destruct (head_filter_found t id Hfound) as [r Hhead].
  assert (Hdated : forall x, x ∈ t -> DB.has_id id x = true ->
                     ProjectsService.backfill x = x
                     /\ DB.is_null (x !! "start_date") = false
                     /\ DB.is_null (x !! "due_date") = false).
  { intros x Hx Hid. specialize (Hrows x Hx Hid). unfold DB.row_ok in Hrows.
    cbn [DB.required DB.checks ProjectsService.table_def forallb] in Hrows.
    apply andb_prop in Hrows as [Hreq _].
    apply andb_prop in Hreq as [Hstart Hreq].
    apply andb_prop in Hreq as [Hdue _].
    apply negb_true_iff in Hstart, Hdue. split; [by apply backfill_dated | by split]. }
  unfold ProjectsService.updateProject, ProjectsService.ensureTables.
  destruct (ProjectsService.updateProject_data (project_data None (Some s) None))
    as [data|e] eqn:Hd.
  - assert (Hcol : forall c,
              data !! c = supplied (project_update_columns (project_data None (Some s) None)) c)
      by (intros c; by apply updateProject_data_columns).
    assert (Hstatus : data !! "status" = Some (VStr s)) by (by rewrite Hcol).
    simpl. rewrite (update_accepted _ _ _ _ _ (ProjectsService.backfill r)).
    + eexists. split; [reflexivity|].
      rewrite apply_update_lookup by discriminate. by rewrite Hstatus.
    + by rewrite Hcol.
    + by eapply lookup_nonempty.
    + rewrite head_filter_fmap_has_id, Hhead; [reflexivity|].
      intros x. unfold DB.has_id. by rewrite backfill_lookup.
    + intros y Hy Hid. apply list_elem_of_fmap in Hy as (x & -> & Hx).
      assert (Hidx : DB.has_id id x = true).
      { unfold DB.has_id in *. by rewrite backfill_lookup in Hid. }
      destruct (Hdated x Hx Hidx) as (-> & Hstart & Hdue).
      unfold DB.row_ok.
      cbn [DB.required DB.checks ProjectsService.table_def forallb].
      rewrite !apply_update_lookup by discriminate.
      rewrite !Hcol. read_columns.
      cbv [project_data ProjectsService.startDate ProjectsService.dueDate JS.str].
      by rewrite Hstart, Hdue.
  - exfalso. unfold ProjectsService.updateProject_data in Hd.
    match type of Hd with
    | (if (size ?d =? 0)%nat then _ else _) = _ =>
        destruct (Nat.eqb_spec (size d) 0) as [Hz|Hz]; [|discriminate];
        apply map_size_empty_iff in Hz;
        assert (Hst : d !! "status" = Some (VStr s)) by (by read_payload)
    end.
    rewrite Hz in Hst. by rewrite lookup_empty in Hst.
Qed.

Lemma create_passes_tokens_through :
  create_passes_through ProjectsService.createProject_data ProjectsService.status "status"
  /\ create_passes_through ProjectsService.createProject_data
       ProjectsService.priority "priority"
  /\ create_passes_through ProjectsService.createProject_data
       ProjectsService.currency "currency"
  /\ create_passes_through TasksService.createTask_data TasksService.status "status"
  /\ create_passes_through TasksService.createTask_data TasksService.priority "priority"
  /\ create_passes_through (fun u by_ => Ok (ClientsService.createClient_data u by_))
       ClientsService.status "status"
  /\ create_passes_through (fun u by_ => Ok (ClientsService.createClient_data u by_))
       ClientsService.currency "currency".
Proof.
  repeat split; intros u createdBy s data Hm Hs;
    unfold ProjectsService.createProject_data, TasksService.createTask_data,
      ClientsService.createClient_data;
    repeat match goal with
           | |- (if ?c then Throw _ else _) = _ -> _ => destruct c; [discriminate|]
           end;
    intros [= <-]; read_payload; by rewrite Hm, str_or_token.
Qed.


(** The client of the counterexample is stored and read back with the
    status it was given. *)
Example createClient_stores_archived :
  match ClientsService.createClient "c9" 50 []
          (client_data (Some "Bo") (Some "bo@example.org") None (Some "archived")) "u1" with
  | Ok (t', r) =>
      r !! "status" = Some (DB.Scalar (VStr "archived"))
      /\ ClientsService.getClientById t' "c9" ≫= (fun r => r !! "status")
         = Some (DB.Scalar (VStr "archived"))
  | Throw _ => False
  end.
Proof. vm_compute. split; reflexivity. Qed.



(** * Further properties of the code

    Properties of the same code that the statements above do not cover:
    the statistics and the page arithmetic of the services, the search
    filter, the row migrations of the ensure step and the statements it
    sends, reading back what was created, the two middlewares, the
    mutations and the computed statistics of the hooks, and the filters,
    boards and counters of the tasks page. *)

(** ** Counting rows *)

Lemma count_rows_nonneg w (t : DB.table) : (0 <= count_rows w t)%Z.
Proof. unfold count_rows. lia. Qed.

Lemma count_rows_cons w r (t : DB.table) :
  count_rows w (r :: t) = ((if w r then 1 else 0) + count_rows w t)%Z.
Proof. unfold count_rows. simpl. destruct (w r); simpl; lia. Qed.

Lemma count_rows_filter w v (t : DB.table) :
  count_rows w (List.filter v t) = count_rows (fun r => v r && w r) t.
Proof.
  induction t as [|r t IH]; [reflexivity|]. simpl.
  destruct (v r) eqn:E; rewrite ?count_rows_cons, ?E, IH; simpl; reflexivity.
Qed.

Lemma count_rows_ext w v (t : DB.table) :
  (forall r, r ∈ t -> w r = v r) -> count_rows w t = count_rows v t.
Proof.
  induction t as [|r t IH]; intros H; [reflexivity|].
  rewrite !count_rows_cons, (H r) by left. rewrite IH; [reflexivity|].
  intros x Hx. apply H. by right.
Qed.

(** Counters over predicates no row satisfies together add up to the
    counter of their disjunction. *)
Lemma count_rows_or w v (t : DB.table) :
  (forall r, w r && v r = false) ->
  count_rows (fun r => w r || v r) t = (count_rows w t + count_rows v t)%Z.
Proof.
  intros H. induction t as [|r t IH]; [reflexivity|].
  rewrite !count_rows_cons, IH. specialize (H r).
  destruct (w r), (v r); simpl in *; try discriminate; lia.
Qed.

Lemma count_rows_le w (t : DB.table) : (count_rows w t <= Z.of_nat (length t))%Z.
Proof.
  induction t as [|r t IH]; [reflexivity|].
  rewrite count_rows_cons. simpl length. destruct (w r); lia.
Qed.

Lemma count_rows_all w (t : DB.table) :
  count_rows w t = Z.of_nat (length t) <-> forall r, r ∈ t -> w r = true.
Proof.
  induction t as [|r t IH].
  - split; [intros _ r Hr; by apply elem_of_nil in Hr | reflexivity].
  - rewrite count_rows_cons. simpl length. pose proof (count_rows_le w t) as Hle.
    split.
    + intros H r' Hr'. destruct (w r) eqn:E; [|lia].
      apply elem_of_cons in Hr' as [->|Hr']; [exact E|].
      apply IH; [lia | exact Hr'].
    + intros H. rewrite (H r) by left.
      assert (count_rows w t = Z.of_nat (length t)) by (apply IH; intros x Hx; apply H; by right).
      lia.
Qed.

Lemma count_rows_true (t : DB.table) : count_rows (fun _ => true) t = Z.of_nat (length t).
Proof. apply count_rows_all. reflexivity. Qed.

Lemma text_eq_exclusive c s1 s2 :
  s1 <> s2 -> DB.text_eq c s1 && DB.text_eq c s2 = false.
Proof.
  intros Hne. unfold DB.text_eq. destruct c as [[[| | | |s| |]|]|]; try reflexivity.
  destruct (String.eqb_spec s s1), (String.eqb_spec s s2); try reflexivity. congruence.
Qed.

(** ** Statistics of the services *)

Lemma list_rows_default_total where_ (t : DB.table) :
  reported_total (list_rows None None where_ t) = Some (count_rows where_ t).
Proof. reflexivity. Qed.

(** X1. The counters of getTaskStats are the totals the list operation
    reports for the same table: [total] is the total of the unfiltered
    list, each status counter the total of the list filtered by that
    status, and [urgent] the total of the list filtered by priority
    urgent. *)
Theorem X1_task_stats_agree_with_list_totals :
  forall t : DB.table,
    let stats := TasksService.getTaskStats t in
    let listed status priority :=
      reported_total (TasksService.getTasks t (tasks_by status priority)) in
    listed None None = Some (TasksService.Stats.total stats)
    /\ listed (Some "completed") None = Some (TasksService.Stats.completed stats)
    /\ listed (Some "in_progress") None = Some (TasksService.Stats.inProgress stats)
    /\ listed (Some "not_started") None = Some (TasksService.Stats.notStarted stats)
    /\ listed (Some "on_hold") None = Some (TasksService.Stats.onHold stats)
    /\ listed None (Some "urgent") = Some (TasksService.Stats.urgent stats).
Proof.
  intros t stats listed. unfold listed, stats, TasksService.getTasks,
    TasksService.getTaskStats, TasksService.ensureTables.
  cbn [TasksService.Filters.page TasksService.Filters.limit tasks_by
       TasksService.Stats.total TasksService.Stats.completed TasksService.Stats.inProgress
       TasksService.Stats.notStarted TasksService.Stats.onHold TasksService.Stats.urgent].
  rewrite !list_rows_default_total, !count_rows_filter.
  repeat split; f_equal; apply count_rows_ext; intros r _;
    unfold TasksService.where_; simpl; by rewrite ?andb_true_r.
Qed.

Lemma status_among_cons c s tokens :
  existsb (DB.text_eq c) (s :: tokens) = DB.text_eq c s || existsb (DB.text_eq c) tokens.
Proof. reflexivity. Qed.

Lemma text_eq_not_among c s tokens :
  s ∉ tokens -> DB.text_eq c s && existsb (DB.text_eq c) tokens = false.
Proof.
  induction tokens as [|x tokens IH]; intros Hs; simpl; [apply andb_false_r|].
  apply not_elem_of_cons in Hs as [Hx Hs].
  rewrite andb_orb_distrib_r, (text_eq_exclusive c s x Hx), IH by exact Hs. reflexivity.
Qed.

(** The counters of distinct tokens of one column add up to the counter of
    the rows holding one of them. *)
Lemma count_rows_tokens col tokens (t : DB.table) :
  NoDup tokens ->
  count_rows (fun r => existsb (DB.text_eq (r !! col)) tokens) t
  = fold_right (fun s acc => (count_rows (fun r => DB.text_eq (r !! col) s) t + acc)%Z)
      0%Z tokens.
Proof.
  induction 1 as [|s tokens Hs Hnd IH]; simpl.
  - unfold count_rows. induction t; simpl; auto.
  - rewrite <- IH. apply (count_rows_or (fun r => DB.text_eq (r !! col) s)).
    intros r. by apply text_eq_not_among.
Qed.

(** X2. The four status counters of getTaskStats never add up to more than
    [total], and [urgent] never exceeds it; the status counters add up to
    [total] exactly when every active task has one of the four statuses
    they count (an active task that is cancelled, or has no status, is in
    [total] and in none of them). *)
Theorem X2_task_stats_counters_within_total :
  forall t : DB.table,
    let stats := TasksService.getTaskStats t in
    let counted := (TasksService.Stats.completed stats + TasksService.Stats.inProgress stats
                    + TasksService.Stats.notStarted stats + TasksService.Stats.onHold stats)%Z in
    (0 <= counted <= TasksService.Stats.total stats)%Z
    /\ (0 <= TasksService.Stats.urgent stats <= TasksService.Stats.total stats)%Z
    /\ (counted = TasksService.Stats.total stats
        <-> forall r, r ∈ t -> DB.is_true (r !! "is_active") = true ->
              status_among ["completed"; "in_progress"; "not_started"; "on_hold"] r = true).
Proof.
  intros t stats counted.
  set (active := List.filter (fun r => DB.is_true (r !! "is_active")) t).
  assert (Hsum : counted
                 = count_rows (status_among ["completed"; "in_progress"; "not_started"; "on_hold"])
                     active).
  { unfold status_among. rewrite count_rows_tokens.
    - unfold counted, stats, TasksService.getTaskStats, TasksService.ensureTables. simpl. fold active. lia.
    - apply (bool_decide_unpack _). by vm_compute. }
  assert (Htotal : TasksService.Stats.total stats = Z.of_nat (length active)).
  { unfold stats, TasksService.getTaskStats, TasksService.ensureTables. simpl.
    apply count_rows_true. }
  rewrite Hsum, Htotal. split; [|split].
  - split; [apply count_rows_nonneg | apply count_rows_le].
  - unfold stats, TasksService.getTaskStats, TasksService.ensureTables. simpl.
    split; [apply count_rows_nonneg | apply count_rows_le].
  - rewrite count_rows_all. unfold active. split.
    + intros H r Hr Ha. apply H. apply list_elem_of_In, filter_In.
      split; [by apply list_elem_of_In | exact Ha].
    + intros H r Hr. apply list_elem_of_In, filter_In in Hr as [Hr Ha].
      apply H; [by apply list_elem_of_In | exact Ha].
Qed.

(** X3. The counters of getClientsStats: [total] and the three status
    counters are the totals the list operation reports without a filter
    and with the matching status filter; the status counters together, and
    [thisMonth], never exceed [total]; with a later start of the month no
    more clients are of this month. *)
Theorem X3_client_stats_counters :
  forall (month_start : Z) (t : DB.table),
    let stats := ClientsService.getClientsStats month_start t in
    let listed status :=
      reported_total (ClientsService.getClients t (clients_by status)) in
    listed None = Some (ClientsService.Stats.total stats)
    /\ listed (Some "active") = Some (ClientsService.Stats.active stats)
    /\ listed (Some "inactive") = Some (ClientsService.Stats.inactive stats)
    /\ listed (Some "pending") = Some (ClientsService.Stats.pending stats)
    /\ (0 <= ClientsService.Stats.active stats + ClientsService.Stats.inactive stats
             + ClientsService.Stats.pending stats
        <= ClientsService.Stats.total stats)%Z
    /\ (0 <= ClientsService.Stats.thisMonth stats <= ClientsService.Stats.total stats)%Z
    /\ forall later, (month_start <= later)%Z ->
         (ClientsService.Stats.thisMonth (ClientsService.getClientsStats later t)
          <= ClientsService.Stats.thisMonth stats)%Z.
Proof.
  intros month_start t stats listed.
  set (active := List.filter (fun r => DB.is_true (r !! "is_active")) t).
  assert (Hlisted : forall s w,
            (forall r, ClientsService.where_ (clients_by s) r
                       = DB.is_true (r !! "is_active") && w r) ->
            listed s = Some (count_rows w active)).
  { intros s w Hw. unfold listed, ClientsService.getClients, ClientsService.ensureTables.
    cbn [ClientsService.Filters.page ClientsService.Filters.limit clients_by].
    rewrite list_rows_default_total. unfold active. rewrite count_rows_filter.
    f_equal. apply count_rows_ext. intros r _. apply Hw. }
  assert (Hwhere : forall s, s <> "" -> forall r,
            ClientsService.where_ (clients_by (Some s)) r
            = DB.is_true (r !! "is_active") && DB.text_eq (r !! "status") s).
  { intros s Hs r. unfold ClientsService.where_. simpl.
    destruct (String.eqb_spec s ""); [contradiction|]. simpl. by rewrite !andb_true_r. }
  unfold stats, ClientsService.getClientsStats, ClientsService.ensureTables.
  cbn [ClientsService.Stats.total ClientsService.Stats.active ClientsService.Stats.inactive
       ClientsService.Stats.pending ClientsService.Stats.thisMonth].
  fold active.
  split; [apply Hlisted; intros r; unfold ClientsService.where_; simpl;
          by rewrite !andb_true_r|].
  split; [apply Hlisted, Hwhere; discriminate|].
  split; [apply Hlisted, Hwhere; discriminate|].
  split; [apply Hlisted, Hwhere; discriminate|].
  rewrite count_rows_true. split; [|split].
  - pose proof (count_rows_tokens "status" ["active"; "inactive"; "pending"] active
                  ltac:(apply (bool_decide_unpack _); by vm_compute)) as Hsum.
    simpl in Hsum.
    pose proof (count_rows_le (fun r => DB.text_eq (r !! "status") "active"
                                        || (DB.text_eq (r !! "status") "inactive"
                                            || (DB.text_eq (r !! "status") "pending" || false)))
                  active) as Hle.
    pose proof (count_rows_nonneg (fun r => DB.text_eq (r !! "status") "active") active).
    pose proof (count_rows_nonneg (fun r => DB.text_eq (r !! "status") "inactive") active).
    pose proof (count_rows_nonneg (fun r => DB.text_eq (r !! "status") "pending") active).
    lia.
  - split; [apply count_rows_nonneg | apply count_rows_le].
  - intros later Hlater. unfold count_rows. clear Hlisted.
    generalize active. intros l. induction l as [|r l IH]; simpl; [lia|].
    destruct (DB.created_at r) as [n|]; [|exact IH].
    destruct (Z.leb_spec later n), (Z.leb_spec month_start n); simpl; lia.
Qed.

(** ** Walking through the pages of a list *)

Lemma take_drop_pages {A} (l : list A) (L k : nat) :
  concat ((fun i => take L (drop (i * L) l)) <$> seq 0 k) = take (k * L) l.
Proof.
  induction k as [|k IH]; [reflexivity|].
  rewrite seq_S, fmap_app, concat_app, IH. simpl.
  rewrite app_nil_r, take_take_drop. f_equal. lia.
Qed.

Lemma or_num_page (i : nat) : JS.or_num (Some (Z.of_nat (S i))) 1 = Z.of_nat (S i).
Proof.
  unfold JS.or_num, JS.truthy_num. destruct (Z.eqb_spec (Z.of_nat (S i)) 0); [lia|reflexivity].
Qed.

(** Page [i + 1] of a list operation is the [i]-th run of [limit] rows of
    the matching rows, newest first. *)
Lemma list_rows_page (i : nat) filters_limit where_ (t : DB.table) :
  (1 <= JS.or_num filters_limit 50)%Z ->
  rows_of (list_rows (Some (Z.of_nat (S i))) filters_limit where_ t)
  = take (Z.to_nat (JS.or_num filters_limit 50))
      (drop (i * Z.to_nat (JS.or_num filters_limit 50))
         (DB.order_by_created_desc (List.filter where_ t))).
Proof.
  intros HL. unfold list_rows. rewrite or_num_page.
  rewrite limit_offset_ok by nia. simpl. do 2 f_equal. nia.
Qed.

Lemma list_rows_pages filters_limit where_ (t : DB.table) (p : Z) :
  (1 <= JS.or_num filters_limit 50)%Z -> (1 <= p)%Z ->
  pages_upto (fun f : Z => list_rows (Some f) filters_limit where_ t) (fun p => p)
    (reported_pages (list_rows (Some p) filters_limit where_ t))
  = DB.order_by_created_desc (List.filter where_ t).
Proof.
  intros HL Hp. set (L := JS.or_num filters_limit 50) in *.
  set (sorted := DB.order_by_created_desc (List.filter where_ t)).
  assert (Hpages : reported_pages (list_rows (Some p) filters_limit where_ t)
                   = ceil_div (Z.of_nat (length (List.filter where_ t))) L).
  { unfold list_rows. fold L.
    assert (JS.or_num (Some p) 1 = p) as ->.
    { unfold JS.or_num, JS.truthy_num. destruct (Z.eqb_spec p 0); [lia|reflexivity]. }
    rewrite limit_offset_ok by nia. reflexivity. }
  rewrite Hpages. unfold pages_upto.
  rewrite (list_fmap_ext _ (fun i => take (Z.to_nat L) (drop (i * Z.to_nat L) sorted)))
    by (intros i x _; by apply list_rows_page).
  rewrite take_drop_pages. apply take_ge.
  unfold sorted. rewrite (Permutation_length (order_by_created_desc_Permutation _)).
  pose proof (ceil_div_spec (Z.of_nat (length (List.filter where_ t))) L ltac:(lia)). nia.
Qed.

(** X4. Walking through a list page by page misses nothing and repeats
    nothing: over a table that does not change between the calls and in
    which no two rows have the same creation time (which fixes the order
    of ORDER BY created_at DESC), for a limit of at least one (50 when
    absent or 0), the pages 1 to [totalPages] of getTasks, getProjects and
    getClients, one after the other, are exactly the rows of the table
    that match the filters, newest first. *)
Theorem X4_pages_hold_every_matching_row_once :
  forall (t : DB.table) (ft : TasksService.Filters.t)
         (fp : ProjectsService.Filters.t) (fc : ClientsService.Filters.t),
    NoDup (DB.created_at <$> t) ->
    (1 <= JS.or_num (TasksService.Filters.limit ft) 50)%Z ->
    (1 <= JS.or_num (ProjectsService.Filters.limit fp) 50)%Z ->
    (1 <= JS.or_num (ClientsService.Filters.limit fc) 50)%Z ->
    pages_upto (TasksService.getTasks t) (fun p => tasks_page p ft)
      (reported_pages (TasksService.getTasks t (tasks_page 1 ft)))
    = DB.order_by_created_desc
        (List.filter (TasksService.where_ ft) (TasksService.ensureTables t))
    /\ pages_upto (ProjectsService.getProjects t) (fun p => projects_page p fp)
         (reported_pages (ProjectsService.getProjects t (projects_page 1 fp)))
       = DB.order_by_created_desc
           (List.filter (ProjectsService.where_ fp) (ProjectsService.ensureTables t))
    /\ pages_upto (ClientsService.getClients t) (fun p => clients_page p fc)
         (reported_pages (ClientsService.getClients t (clients_page 1 fc)))
       = DB.order_by_created_desc
           (List.filter (ClientsService.where_ fc) (ClientsService.ensureTables t)).
Proof.
  intros t ft fp fc _ Ht Hp Hc. split; [|split].
  - exact (list_rows_pages (TasksService.Filters.limit ft) (TasksService.where_ ft)
             (TasksService.ensureTables t) 1 Ht ltac:(lia)).
  - exact (list_rows_pages (ProjectsService.Filters.limit fp) (ProjectsService.where_ fp)
             (ProjectsService.ensureTables t) 1 Hp ltac:(lia)).
  - exact (list_rows_pages (ClientsService.Filters.limit fc) (ClientsService.where_ fc)
             (ClientsService.ensureTables t) 1 Hc ltac:(lia)).
Qed.

(** One hundred and twenty projects in pages of 50: the pages the first
    call reports, one after the other, are the whole list. *)
Lemma X4_pages_hold_every_matching_row_once_witness :
  pages_upto (ProjectsService.getProjects projects_120)
    (fun p => projects_page p (page_of_50 1))
    (reported_pages (ProjectsService.getProjects projects_120
                       (projects_page 1 (page_of_50 1))))
  = DB.order_by_created_desc
      (List.filter (ProjectsService.where_ (page_of_50 1))
         (ProjectsService.ensureTables projects_120)).
Proof.
  refine (proj1 (proj2 (X4_pages_hold_every_matching_row_once projects_120
                          (tasks_by None None) (page_of_50 1) (clients_by None) _ _ _ _)));
    [|vm_compute; discriminate..].
  apply (bool_decide_unpack _). by vm_compute.
Defined.

(** ** Pages at the edges *)



(** ** The search filter *)

Lemma like_percent p s :
  DB.like ("%"%char :: p) s = true
  <-> exists s1 s2, s = s1 ++ s2 /\ DB.like p s2 = true.
Proof.
  change (DB.like ("%"%char :: p) s)
    with ((fix any (s : list ascii) : bool :=
             DB.like p s || match s with [] => false | _ :: s' => any s' end) s).
  induction s as [|x s IH].
  - rewrite orb_false_r. split.
    + intros H. by exists [], [].
    + intros (s1 & s2 & Hs & H). symmetry in Hs. apply app_eq_nil in Hs as [_ ->]. exact H.
  - rewrite orb_true_iff, IH. split.
    + intros [H|(s1 & s2 & -> & H)].
      * by exists [], (x :: s).
      * by exists (x :: s1), s2.
    + intros (s1 & s2 & Hs & H). destruct s1 as [|y s1]; simpl in Hs.
      * left. by rewrite Hs.
      * injection Hs as -> ->. right. by exists s1, s2.
Qed.

Lemma like_literal c p s :
  wildcard c = false ->
  DB.like (c :: p) s = true <-> exists s', s = c :: s' /\ DB.like p s' = true.
Proof.
  unfold wildcard. intros Hc.
  apply orb_false_elim in Hc as [Hc Hb]. apply orb_false_elim in Hc as [Hp Hu].
  simpl. rewrite Hp, Hu, Hb. destruct s as [|x s].
  - split; [discriminate | by intros (s' & [=] & _)].
  - rewrite andb_true_iff. split.
    + intros [Hx H]. apply Ascii.eqb_eq in Hx as ->. by exists s.
    + intros (s' & [= -> ->] & H). by rewrite Ascii.eqb_refl.
Qed.

Lemma like_literals q p s :
  forallb (fun c => negb (wildcard c)) q = true ->
  DB.like (q ++ p) s = true <-> exists s', s = q ++ s' /\ DB.like p s' = true.
Proof.
  revert s. induction q as [|c q IH]; intros s Hq; simpl in Hq |- *.
  - split; [intros H; by exists s | by intros (s' & -> & H)].
  - apply andb_prop in Hq as [Hc Hq]. apply negb_true_iff in Hc.
    rewrite (like_literal c (q ++ p) s Hc). split.
    + intros (s' & -> & H). apply IH in H as (s'' & -> & H); [|exact Hq]. by exists s''.
    + intros (s' & -> & H). exists (q ++ s'). split; [reflexivity|].
      apply IH; [exact Hq|]. by exists s'.
Qed.

Lemma like_percent_last s : DB.like ["%"%char] s = true.
Proof. apply like_percent. exists s, []. by rewrite app_nil_r. Qed.

Lemma list_ascii_of_string_app s1 s2 :
  list_ascii_of_string (s1 +:+ s2) = list_ascii_of_string s1 ++ list_ascii_of_string s2.
Proof. induction s1 as [|c s1 IH]; simpl; [reflexivity | by rewrite IH]. Qed.

Lemma folded_app s1 s2 : folded (s1 +:+ s2) = folded s1 ++ folded s2.
Proof. unfold folded. by rewrite list_ascii_of_string_app, fmap_app. Qed.

Lemma wildcard_lower c : wildcard (DB.lower c) = wildcard c.
Proof. destruct c as [[] [] [] [] [] [] [] []]; reflexivity. Qed.

Lemma plain_folded q :
  plain q = true -> forallb (fun c => negb (wildcard c)) (folded q) = true.
Proof.
  unfold plain, folded. induction (list_ascii_of_string q) as [|c l IH]; [done|].
  rewrite fmap_cons. cbn [forallb]. intros H. apply andb_prop in H as [Hc Hl].
  by rewrite wildcard_lower, Hc, IH.
Qed.

Lemma ilike_text c q :
  DB.ilike c q = true
  <-> exists s, c = Some (DB.Scalar (VStr s))
                /\ DB.like (folded ("%" +:+ q +:+ "%")) (folded s) = true.
Proof.
  unfold DB.ilike, folded. split.
  - destruct c as [[[| | | |s| |]|]|]; try discriminate. intros H. by exists s.
  - by intros (s & -> & H).
Qed.



(** ** The row migrations of ProjectsService.ensureTables *)

(** One conditional UPDATE of a column, read column by column. *)
Lemma fill_lookup (b : bool) (o : option DB.cell) (k k' : string) (r : DB.row) :
  (if b then match o with Some c => <[k := c]> r | None => r end else r) !! k'
  = if b && bool_decide (k = k')
    then match o with Some c => Some c | None => r !! k' end
    else r !! k'.
Proof.
  destruct b; simpl; [|reflexivity]. case_bool_decide as Hk.
  - subst k'. destruct o; [apply lookup_insert_eq | reflexivity].
  - destruct o; [by apply lookup_insert_ne | reflexivity].
Qed.

Lemma fill_due_lookup (b : bool) (o : option Z) (k' : string) (r : DB.row) :
  (if b then match o with
             | Some n => <["due_date" := DB.Scalar (VNum (n + 30 * 86400))]> r
             | None => r
             end
   else r) !! k'
  = if b && bool_decide ("due_date" = k')
    then match o with
         | Some n => Some (DB.Scalar (VNum (n + 30 * 86400)))
         | None => r !! k'
         end
    else r !! k'.
Proof.
  destruct b; simpl; [|reflexivity]. case_bool_decide as Hk.
  - subst k'. destruct o; [apply lookup_insert_eq | reflexivity].
  - destruct o; [by apply lookup_insert_ne | reflexivity].
Qed.

(** The columns of a row after the UPDATE statements of
    ProjectsService.ensureTables. *)
Lemma backfill_columns (r : DB.row) (k : string) :
  ProjectsService.backfill r !! k
  = if bool_decide (k = "start_date") then
      if DB.is_null (r !! "start_date")
      then match r !! "created_at" with Some c => Some c | None => r !! "start_date" end
      else r !! "start_date"
    else if bool_decide (k = "due_date") then
      if DB.is_null (r !! "due_date")
      then if negb (DB.is_null (r !! "end_date")) then r !! "end_date"
           else match DB.created_at r with
                | Some n => Some (DB.Scalar (VNum (n + 30 * 86400)))
                | None => r !! "due_date"
                end
      else r !! "due_date"
    else r !! k.
Proof.
  unfold ProjectsService.backfill.
  set (r1 := if DB.is_null (r !! "due_date") && _ then _ else r).
  cbv zeta.
  set (r2 := if DB.is_null (r1 !! "start_date") then _ else r1).
  assert (H1 : forall k', r1 !! k'
            = if DB.is_null (r !! "due_date") && negb (DB.is_null (r !! "end_date"))
                 && bool_decide ("due_date" = k')
              then match r !! "end_date" with Some c => Some c | None => r !! k' end
              else r !! k').
  { intros k'. subst r2 r1. apply fill_lookup. }
  assert (H2 : forall k', r2 !! k'
            = if DB.is_null (r1 !! "start_date") && bool_decide ("start_date" = k')
              then match r1 !! "created_at" with Some c => Some c | None => r1 !! k' end
              else r1 !! k').
  { intros k'. subst r2. apply fill_lookup. }
  assert (Hc : DB.created_at r2 = DB.created_at r).
  { unfold DB.created_at. rewrite !H2, !H1. simpl. by rewrite !andb_false_r. }
  assert (HN : DB.is_null None = true) by reflexivity.
  rewrite fill_due_lookup, Hc, !H2, !H1. clear H1 H2 Hc. clearbody r2 r1. clear r2 r1.
  revert HN. generalize DB.is_null. intros N HN.
  generalize (DB.created_at r). intros ca.
  generalize (r !! "created_at"). intros c.
  destruct (decide (k = "start_date")) as [->|Hs];
    [|destruct (decide (k = "due_date")) as [->|Hd]].
  - rewrite (bool_decide_eq_true_2 _ eq_refl). simpl. rewrite !andb_false_r, !andb_true_r.
    by destruct (N (r !! "start_date")).
  - rewrite (bool_decide_eq_false_2 _ Hs), (bool_decide_eq_true_2 _ eq_refl).
    simpl. rewrite !andb_false_r, !andb_true_r.
    generalize (r !! "due_date"). intros d.
    destruct (r !! "end_date") as [e|]; rewrite ?HN; simpl; rewrite ?andb_false_r.
    + destruct (N d) eqn:Nd; simpl; rewrite ?Nd; [|reflexivity].
      destruct (N (Some e)) eqn:Ne; simpl; rewrite ?Nd, ?Ne; reflexivity.
    + by destruct (N d) eqn:Nd; rewrite ?Nd.
  - rewrite (bool_decide_eq_false_2 _ Hs), (bool_decide_eq_false_2 _ Hd).
    rewrite (bool_decide_eq_false_2 ("due_date" = k)), (bool_decide_eq_false_2 ("start_date" = k))
      by congruence.
    by rewrite !andb_false_r.
Qed.

(** Running the UPDATE statements again changes nothing. *)
Lemma backfill_idempotent (r : DB.row) :
  ProjectsService.backfill (ProjectsService.backfill r) = ProjectsService.backfill r.
Proof.
  assert (Hca : DB.created_at (ProjectsService.backfill r) = DB.created_at r).
  { unfold DB.created_at. by rewrite backfill_columns. }
  apply map_eq. intros k. rewrite (backfill_columns (ProjectsService.backfill r)).
  rewrite Hca, !(backfill_columns r). simpl.
  assert (HN : DB.is_null None = true) by reflexivity.
  revert HN. generalize DB.is_null. intros N HN.
  destruct (decide (k = "start_date")) as [->|Hs];
    [|destruct (decide (k = "due_date")) as [->|Hd]].
  - rewrite (bool_decide_eq_true_2 _ eq_refl).
    destruct (N (r !! "start_date")) eqn:Ns; [|by rewrite Ns].
    destruct (r !! "created_at") as [c|]; [|by rewrite Ns].
    by destruct (N (Some c)).
  - rewrite (bool_decide_eq_false_2 _ Hs), (bool_decide_eq_true_2 _ eq_refl).
    destruct (N (r !! "due_date")) eqn:Nd; [|by rewrite Nd].
    destruct (N (r !! "end_date")) eqn:Ne; simpl.
    + destruct (DB.created_at r) as [n|]; [|by rewrite Nd].
      by destruct (N (Some _)).
    + by rewrite Ne.
  - by rewrite (bool_decide_eq_false_2 _ Hs), (bool_decide_eq_false_2 _ Hd).
Qed.

Lemma created_at_Some (r : DB.row) n :
  DB.created_at r = Some n -> r !! "created_at" = Some (DB.Scalar (VNum n)).
Proof.
  unfold DB.created_at. destruct (r !! "created_at") as [[[| | |m| | |]|]|]; try discriminate.
  by intros [= ->].
Qed.

(** X7. The row migrations of ProjectsService.ensureTables, which run
    before every operation of the service. Running them again changes
    nothing. They keep the number of rows and touch no column other than
    start_date and due_date, and neither of these when it already holds a
    value. Every row with a creation time leaves them with a start date and
    a due date, which is what the SET NOT NULL statements that follow
    require. *)
Theorem X7_projects_ensureTables_row_migrations :
  forall t : DB.table,
    ProjectsService.ensureTables (ProjectsService.ensureTables t)
    = ProjectsService.ensureTables t
    /\ length (ProjectsService.ensureTables t) = length t
    /\ forall i r,
         t !! i = Some r ->
         exists r',
           ProjectsService.ensureTables t !! i = Some r'
           /\ (forall k, k <> "start_date" -> k <> "due_date" -> r' !! k = r !! k)
           /\ (DB.is_null (r !! "start_date") = false ->
               r' !! "start_date" = r !! "start_date")
           /\ (DB.is_null (r !! "due_date") = false -> r' !! "due_date" = r !! "due_date")
           /\ (forall n, DB.created_at r = Some n ->
                 DB.is_null (r' !! "start_date") = false
                 /\ DB.is_null (r' !! "due_date") = false).
Proof.
  intros t. unfold ProjectsService.ensureTables. split; [|split].
  - rewrite <- list_fmap_compose. apply list_fmap_ext. intros i x _. simpl.
    apply backfill_idempotent.
  - apply length_fmap.
  - intros i r Hr. exists (ProjectsService.backfill r).
    split; [by rewrite list_lookup_fmap, Hr|].
    split; [intros k Hs Hd; by apply backfill_lookup|].
    rewrite !backfill_columns. simpl.
    split; [by intros ->|]. split; [by intros ->|].
    intros n Hn. rewrite Hn, (created_at_Some r n Hn). split.
    + by destruct (DB.is_null (r !! "start_date")) eqn:E.
    + destruct (DB.is_null (r !! "due_date")) eqn:Ed; [|exact Ed].
      by destruct (DB.is_null (r !! "end_date")) eqn:Ee.
Qed.

(** A row from before the date columns were required gets both dates. *)
Lemma X7_projects_ensureTables_row_migrations_witness :
  exists r',
    ProjectsService.ensureTables [legacy_project "p0" 100] !! 0%nat = Some r'
    /\ r' !! "title" = legacy_project "p0" 100 !! "title"
    /\ DB.is_null (r' !! "start_date") = false
    /\ DB.is_null (r' !! "due_date") = false.
Proof.
  destruct (proj2 (proj2 (X7_projects_ensureTables_row_migrations [legacy_project "p0" 100]))
              0%nat (legacy_project "p0" 100) eq_refl)
    as (r' & Hrow & Hother & _ & _ & Hdates).
  exists r'. split; [exact Hrow|].
  split; [apply Hother; discriminate|].
  apply (Hdates 100%Z). vm_compute. reflexivity.
Defined.

(** ** Create, then read *)

Lemma insert_appends def new_id now (t : DB.table) (data : gmap string value) t' r :
  DB.insertInTenantSchema def new_id now t data = Ok (t', r) ->
  t' = t ++ [r]
  /\ r = (DB.bind_value <$> data) ∪ <["id" := DB.Scalar (VStr new_id)]> (DB.defaults def now).
Proof.
  unfold DB.insertInTenantSchema.
  destruct (negb (forallb _ _)); [discriminate|].
  destruct (negb (DB.checks _ _)); [discriminate|].
  by intros [= <- <-].
Qed.

(** A column the payload leaves out holds the table's default. *)
Lemma inserted_row_default def new_id now (t : DB.table) (data : gmap string value) t' r c :
  DB.insertInTenantSchema def new_id now t data = Ok (t', r) ->
  data !! c = None ->
  r !! c = <["id" := DB.Scalar (VStr new_id)]> (DB.defaults def now) !! c.
Proof.
  intros H Hc. apply insert_appends in H as [_ ->].
  apply lookup_union_r. by rewrite lookup_fmap, Hc.
Qed.

Lemma get_by_id_app (t1 t2 : DB.table) id :
  get_by_id (t1 ++ t2) id
  = match get_by_id t1 id with Some r => Some r | None => get_by_id t2 id end.
Proof.
  unfold get_by_id. rewrite List.filter_app.
  by destruct (List.filter _ t1).
Qed.

Lemma get_by_id_absent (t : DB.table) id :
  (forall x, x ∈ t -> DB.has_id id x = false) -> get_by_id t id = None.
Proof.
  intros H. unfold get_by_id.
  induction t as [|x t IH]; [reflexivity|]. simpl.
  rewrite (H x) by left. simpl. apply IH. intros y Hy. apply H. by right.
Qed.

Lemma get_by_id_one (r : DB.row) id :
  get_by_id [r] id = if DB.has_id id r && DB.is_true (r !! "is_active") then Some r else None.
Proof. unfold get_by_id. simpl. by destruct (_ && _). Qed.

Lemma has_id_other (r : DB.row) id id' :
  r !! "id" = Some (DB.Scalar (VStr id')) -> id <> id' -> DB.has_id id r = false.
Proof.
  intros Hr Hne. unfold DB.has_id. rewrite Hr. simpl.
  destruct (String.eqb_spec id' id); [congruence | reflexivity].
Qed.

Lemma has_id_same (r : DB.row) id :
  r !! "id" = Some (DB.Scalar (VStr id)) -> DB.has_id id r = true.
Proof. intros Hr. unfold DB.has_id. rewrite Hr. simpl. apply String.eqb_refl. Qed.

Lemma is_true_active (r : DB.row) :
  r !! "is_active" = Some (DB.Scalar (VBool true)) -> DB.is_true (r !! "is_active") = true.
Proof. by intros ->. Qed.

(** What the row of an insert is to the readers, for a payload that
    leaves the server-side columns to the table. *)
Lemma inserted_row_read def new_id now (t : DB.table) (data : gmap string value) t' r
    createdBy (where_ : DB.row -> bool) :
  DB.insertInTenantSchema def new_id now t data = Ok (t', r) ->
  (forall x, x ∈ t -> DB.has_id new_id x = false) ->
  data !! "id" = None -> data !! "is_active" = None ->
  data !! "created_at" = None -> data !! "updated_at" = None ->
  data !! "created_by" = Some (VStr createdBy) ->
  DB.defaults def now !! "is_active" = Some (DB.Scalar (VBool true)) ->
  DB.defaults def now !! "created_at" = Some (DB.Scalar (VNum now)) ->
  DB.defaults def now !! "updated_at" = Some (DB.Scalar (VNum now)) ->
  (forall x, where_ x = DB.is_true (x !! "is_active")) ->
  get_by_id t' new_id = Some r
  /\ (forall id, id <> new_id -> get_by_id t' id = get_by_id t id)
  /\ r !! "id" = Some (DB.Scalar (VStr new_id))
  /\ r !! "is_active" = Some (DB.Scalar (VBool true))
  /\ r !! "created_by" = Some (DB.Scalar (VStr createdBy))
  /\ r !! "created_at" = Some (DB.Scalar (VNum now))
  /\ r !! "updated_at" = Some (DB.Scalar (VNum now))
  /\ count_rows where_ t' = Z.succ (count_rows where_ t).
Proof.
  intros Hins Hfresh Hid Hact Hca Hua Hby Dact Dca Dua Hwhere.
  assert (Rid : r !! "id" = Some (DB.Scalar (VStr new_id))).
  { rewrite (inserted_row_default _ _ _ _ _ _ _ _ Hins Hid). apply lookup_insert_eq. }
  assert (Ract : r !! "is_active" = Some (DB.Scalar (VBool true))).
  { rewrite (inserted_row_default _ _ _ _ _ _ _ _ Hins Hact).
    by rewrite lookup_insert_ne by discriminate. }
  assert (Rca : r !! "created_at" = Some (DB.Scalar (VNum now))).
  { rewrite (inserted_row_default _ _ _ _ _ _ _ _ Hins Hca).
    by rewrite lookup_insert_ne by discriminate. }
  assert (Rua : r !! "updated_at" = Some (DB.Scalar (VNum now))).
  { rewrite (inserted_row_default _ _ _ _ _ _ _ _ Hins Hua).
    by rewrite lookup_insert_ne by discriminate. }
  pose proof (inserted_row_lookup _ _ _ _ _ _ _ _ _ Hins Hby) as Rby.
  destruct (insert_appends _ _ _ _ _ _ _ Hins) as [-> _].
  repeat split; try assumption.
  - rewrite get_by_id_app, (get_by_id_absent t new_id Hfresh), get_by_id_one.
    by rewrite (has_id_same r new_id Rid), (is_true_active r Ract).
  - intros id Hne. rewrite get_by_id_app, get_by_id_one.
    rewrite (has_id_other r id new_id Rid Hne). simpl. by destruct (get_by_id t id).
  - unfold count_rows. rewrite List.filter_app, length_app. simpl.
    rewrite Hwhere, (is_true_active r Ract). simpl. lia.
Qed.

Lemma createTask_data_system taskData createdBy data :
  TasksService.createTask_data taskData createdBy = Ok data ->
  data !! "id" = None /\ data !! "is_active" = None
  /\ data !! "created_at" = None /\ data !! "updated_at" = None
  /\ data !! "created_by" = Some (VStr createdBy).
Proof.
  unfold TasksService.createTask_data.
  destruct (negb _); [discriminate|]. destruct (negb _); [discriminate|].
  intros [= <-]. repeat split; read_payload; reflexivity.
Qed.

Lemma createProject_data_system projectData createdBy data :
  ProjectsService.createProject_data projectData createdBy = Ok data ->
  data !! "id" = None /\ data !! "is_active" = None
  /\ data !! "created_at" = None /\ data !! "updated_at" = None
  /\ data !! "created_by" = Some (VStr createdBy)
  /\ (exists s, data !! "start_date" = Some (VStr s))
  /\ (exists s, data !! "due_date" = Some (VStr s)).
Proof.
  unfold ProjectsService.createProject_data.
  destruct (negb (JS.truthy_str (ProjectsService.title projectData))); [discriminate|].
  destruct (negb (JS.truthy_str (ProjectsService.clientName projectData))); [discriminate|].
  destruct (ProjectsService.startDate projectData) as [sd|];
    cbn [negb JS.truthy_str]; [|discriminate].
  destruct (negb (negb (String.eqb sd ""))); [discriminate|].
  destruct (ProjectsService.dueDate projectData) as [dd|];
    cbn [negb JS.truthy_str]; [|discriminate].
  destruct (negb (negb (String.eqb dd ""))); [discriminate|].
  destruct (String.eqb createdBy ""); [discriminate|].
  intros [= <-]. repeat split; read_payload; try reflexivity; eexists; reflexivity.
Qed.

Lemma createClient_data_system clientData createdBy :
  let data := ClientsService.createClient_data clientData createdBy in
  data !! "id" = None /\ data !! "is_active" = None
  /\ data !! "created_at" = None /\ data !! "updated_at" = None
  /\ data !! "created_by" = Some (VStr createdBy).
Proof.
  unfold ClientsService.createClient_data. repeat split; read_payload; reflexivity.
Qed.

Lemma has_id_backfill id r :
  DB.has_id id (ProjectsService.backfill r) = DB.has_id id r.
Proof. unfold DB.has_id. by rewrite backfill_lookup by discriminate. Qed.

(** The table createProject returns needs no further migration. *)
Lemma createProject_ensured new_id now (t : DB.table) projectData createdBy t' r :
  ProjectsService.createProject new_id now t projectData createdBy = Ok (t', r) ->
  ProjectsService.ensureTables t' = t'
  /\ t' = ProjectsService.ensureTables t ++ [r].
Proof.
  intros Hcreate. unfold ProjectsService.createProject in Hcreate.
  destruct (ProjectsService.createProject_data projectData createdBy) as [payload|e] eqn:Hdata;
    [|discriminate]. simpl in Hcreate.
  destruct (createProject_data_system _ _ _ Hdata)
    as (_ & _ & _ & _ & _ & [sd Hsd] & [dd Hdd]).
  destruct (insert_appends _ _ _ _ _ _ _ Hcreate) as [Ht' _].
  split; [|exact Ht']. rewrite Ht'.
  unfold ProjectsService.ensureTables. rewrite fmap_app. simpl. f_equal.
  - rewrite <- list_fmap_compose. apply list_fmap_ext. intros i x _. simpl.
    apply backfill_idempotent.
  - f_equal. apply backfill_dated.
    + by rewrite (inserted_row_lookup _ _ _ _ _ _ _ _ _ Hcreate Hsd).
    + by rewrite (inserted_row_lookup _ _ _ _ _ _ _ _ _ Hcreate Hdd).
Qed.



(** ** What the tenant access middleware lets through, and what it answers *)

Lemma role_is_true u r :
  TenantAccess.role_is u r = true -> TenantAccess.role u = Some r.
Proof. unfold TenantAccess.role_is. intros H. by apply bool_decide_eq_true_1 in H. Qed.

Lemma role_is_decide u r :
  TenantAccess.role_is u r = false -> TenantAccess.role u <> Some r.
Proof. unfold TenantAccess.role_is. intros H. by apply bool_decide_eq_false_1 in H. Qed.

Lemma truthy_str_Some o :
  JS.truthy_str o = true -> exists s, o = Some s /\ s <> "".
Proof.
  destruct o as [s|]; [|discriminate]. simpl. intros H. exists s. split; [reflexivity|].
  intros ->. discriminate.
Qed.

Lemma tenant_eta (t : TenantAccess.Tenant) :
  {| TenantAccess.tenant_id := TenantAccess.tenant_id t;
     TenantAccess.name := TenantAccess.name t;
     TenantAccess.isActive := TenantAccess.isActive t |} = t.
Proof. by destruct t. Qed.

(** X9. Whatever the tenant directory and the handle factory do, a request
    of a regular user (not admin, superadmin or the demo user) reaches the
    handlers only bound to the user's own tenant: the user has a non-empty
    tenant id, the directory knows an active tenant for exactly that id,
    [req.tenant] is that tenant, [req.tenantDB] is the handle the factory
    returned for exactly that id, the user is unchanged, and the directory
    and the factory were each consulted once, in this order. *)
Theorem X9_regular_users_pass_only_with_their_own_active_tenant :
  forall getTenantById getTenantDatabase req calls req' u,
    TenantAccess.validateTenantAccess getTenantById getTenantDatabase req
    = (calls, TenantAccess.Next req') ->
    TenantAccess.user req = Some u ->
    regular u ->
    exists tid t h,
      TenantAccess.tenantId u = Some tid /\ tid <> ""
      /\ getTenantById tid = Ok (Some t) /\ TenantAccess.isActive t = true
      /\ getTenantDatabase tid = Ok h
      /\ req' = {| TenantAccess.user := Some u;
                   TenantAccess.tenant := Some t;
                   TenantAccess.tenantDB := Some h |}
      /\ calls = [TenantAccess.GetTenantById tid; TenantAccess.GetTenantDatabase tid].
Proof.
  intros dir fac req calls req' u Hrun Hu (Ha & Hs & Hd).
  unfold TenantAccess.validateTenantAccess in Hrun. rewrite Hu in Hrun.
  rewrite (role_is_false _ _ Ha), (role_is_false _ _ Hs) in Hrun. simpl in Hrun.
  rewrite bool_decide_eq_false_2 in Hrun by exact Hd.
  destruct (JS.truthy_str (TenantAccess.tenantId u)) eqn:Ht; simpl in Hrun; [|discriminate].
  apply truthy_str_Some in Ht as (tid & Htid & Hne). rewrite Htid in Hrun. simpl in Hrun.
  destruct (dir tid) as [[t|]|e] eqn:Hdir; try discriminate.
  destruct (TenantAccess.isActive t) eqn:Hact; simpl in Hrun; [|discriminate].
  destruct (fac tid) as [h|e] eqn:Hfac; [|discriminate].
  injection Hrun as <- <-.
  exists tid, t, h. repeat split; try assumption.
  rewrite <- Hact at 1. by rewrite tenant_eta.
Qed.

(** A regular user of an active tenant. *)
Lemma X9_regular_users_pass_only_with_their_own_active_tenant_witness :
  let dir := fun tid : string =>
    Ok (Some {| TenantAccess.tenant_id := tid; TenantAccess.name := "Open";
                TenantAccess.isActive := true |}) in
  let fac := fun tid : string =>
    Ok {| TenantAccess.handle_tenantId := tid;
          TenantAccess.schemaName := "tenant_" +:+ tid |} in
  let u := {| TenantAccess.id := Some "u7"; TenantAccess.userId := Some "u7";
              TenantAccess.tenantId := Some "t1";
              TenantAccess.role := Some "user";
              TenantAccess.accountType := Some "SIMPLES" |} in
  let req := {| TenantAccess.user := Some u; TenantAccess.tenant := None;
                TenantAccess.tenantDB := None |} in
  exists tid t h,
    TenantAccess.tenantId u = Some tid /\ tid <> ""
    /\ dir tid = Ok (Some t) /\ TenantAccess.isActive t = true
    /\ fac tid = Ok h
    /\ {| TenantAccess.user := Some u;
          TenantAccess.tenant := Some {| TenantAccess.tenant_id := "t1";
                                         TenantAccess.name := "Open";
                                         TenantAccess.isActive := true |};
          TenantAccess.tenantDB := Some {| TenantAccess.handle_tenantId := "t1";
                                           TenantAccess.schemaName := "tenant_t1" |} |}
       = {| TenantAccess.user := Some u;
            TenantAccess.tenant := Some t;
            TenantAccess.tenantDB := Some h |}
    /\ [TenantAccess.GetTenantById "t1"; TenantAccess.GetTenantDatabase "t1"]
       = [TenantAccess.GetTenantById tid; TenantAccess.GetTenantDatabase tid].
Proof.
  intros dir fac u req.
  apply (X9_regular_users_pass_only_with_their_own_active_tenant dir fac req).
  - reflexivity.
  - reflexivity.
  - repeat split; discriminate.
Defined.

(** X10. Every answer of the middleware other than [next()] has a cause.
    It answers 401 exactly for a request without a user, without
    consulting anything. For a regular user it answers 403 without
    consulting anything when the tenant id is absent or empty, 403 after
    one directory lookup when the directory knows no tenant for the id or
    an inactive one, and 503 only when the directory lookup, or the handle
    factory called after it for an active tenant, failed. It gives no other
    answer, and never an answer to an administrator or the demo user. *)
Theorem X10_every_refusal_has_a_cause :
  forall getTenantById getTenantDatabase req calls status error,
    TenantAccess.validateTenantAccess getTenantById getTenantDatabase req
    = (calls, TenantAccess.Respond status error) ->
    (status = 401%Z /\ TenantAccess.user req = None /\ calls = [])
    \/ exists u,
         TenantAccess.user req = Some u /\ regular u
         /\ ((status = 403%Z /\ calls = []
              /\ (TenantAccess.tenantId u = None \/ TenantAccess.tenantId u = Some ""))
             \/ exists tid,
                  TenantAccess.tenantId u = Some tid /\ tid <> ""
                  /\ ((status = 403%Z /\ calls = [TenantAccess.GetTenantById tid]
                       /\ (getTenantById tid = Ok None
                           \/ exists t, getTenantById tid = Ok (Some t)
                                        /\ TenantAccess.isActive t = false))
                      \/ (status = 503%Z /\ calls = [TenantAccess.GetTenantById tid]
                          /\ exists e, getTenantById tid = Throw e)
                      \/ (status = 503%Z
                          /\ calls = [TenantAccess.GetTenantById tid;
                                      TenantAccess.GetTenantDatabase tid]
                          /\ (exists t, getTenantById tid = Ok (Some t)
                                        /\ TenantAccess.isActive t = true)
                          /\ exists e, getTenantDatabase tid = Throw e))).
Proof.
  intros dir fac req calls status error Hrun.
  unfold TenantAccess.validateTenantAccess in Hrun.
  destruct (TenantAccess.user req) as [u|] eqn:Hu.
  2: { injection Hrun as <- <- <-. left. by repeat split. }
  right. exists u. split; [reflexivity|].
  destruct (TenantAccess.role_is u "admin") eqn:Ha; [discriminate|].
  destruct (TenantAccess.role_is u "superadmin") eqn:Hs; [discriminate|].
  simpl in Hrun. case_bool_decide as Hd; [discriminate|].
  split; [by repeat split; [apply role_is_decide..|]|].
  destruct (TenantAccess.tenantId u) as [tid|] eqn:Htid; simpl in Hrun.
  2: { injection Hrun as <- <- <-. left. by repeat split; [left]. }
  destruct (String.eqb_spec tid "") as [->|Hne]; simpl in Hrun.
  { injection Hrun as <- <- <-. left. by repeat split; [right]. }
  right. exists tid. split; [reflexivity|]. split; [exact Hne|].
  destruct (dir tid) as [[t|]|e] eqn:Hdir.
  - destruct (TenantAccess.isActive t) eqn:Hact; simpl in Hrun.
    + destruct (fac tid) as [h|e] eqn:Hfac; [discriminate|].
      injection Hrun as <- <- <-. right. right. repeat split; eauto.
    + injection Hrun as <- <- <-. left. repeat split. right. eauto.
  - injection Hrun as <- <- <-. left. repeat split. by left.
  - injection Hrun as <- <- <-. right. left. repeat split. eauto.
Qed.

(** A regular user whose tenant is active, with the handle factory down. *)
Lemma X10_every_refusal_has_a_cause_witness :
  let dir := fun tid : string =>
    Ok (Some {| TenantAccess.tenant_id := tid; TenantAccess.name := "Open";
                TenantAccess.isActive := true |}) in
  let fac := fun _ : string =>
    Throw "connection refused" : result TenantAccess.TenantDatabase in
  let u := {| TenantAccess.id := Some "u7"; TenantAccess.userId := Some "u7";
              TenantAccess.tenantId := Some "t1";
              TenantAccess.role := Some "user";
              TenantAccess.accountType := Some "SIMPLES" |} in
  let req := {| TenantAccess.user := Some u; TenantAccess.tenant := None;
                TenantAccess.tenantDB := None |} in
  TenantAccess.validateTenantAccess dir fac req
  = ([TenantAccess.GetTenantById "t1"; TenantAccess.GetTenantDatabase "t1"],
     TenantAccess.Respond 503 "Service temporarily unavailable")
  /\ exists e, fac "t1" = Throw e.
Proof.
  intros dir fac u req. split; [reflexivity|].
  destruct (X10_every_refusal_has_a_cause dir fac req _ _ _ eq_refl)
    as [(H & _) | (u' & _ & _ & [(H & _) | (tid & _ & _ &
         [(H & _) | [(_ & H & _) | (_ & _ & _ & He)]])])];
    try discriminate H.
  exact He.
Defined.

(** ** The account type gate *)

Lemma validateTenantAccess_keeps_user dir fac req calls req' :
  TenantAccess.validateTenantAccess dir fac req = (calls, TenantAccess.Next req') ->
  TenantAccess.user req' = TenantAccess.user req /\ is_Some (TenantAccess.user req).
Proof.
  unfold TenantAccess.validateTenantAccess.
  destruct (TenantAccess.user req) as [u|] eqn:Hu; [|discriminate].
  intros H. split; [|eauto]. revert H.
  destruct (_ || _); [by intros [= _ <-]|].
  case_bool_decide; [by intros [= _ <-]|].
  destruct (negb _); [discriminate|].
  destruct (dir _) as [[t|]|e]; try discriminate.
  destruct (negb _); [discriminate|].
  destruct (fac _); [|discriminate]. by intros [= _ <-].
Qed.

Lemma account_type_allowed (o : option string) (l : list string) :
  existsb (fun a => bool_decide (o = Some a)) l = true
  <-> exists a, o = Some a /\ a ∈ l.
Proof.
  rewrite existsb_exists. split.
  - intros (a & Hin & Ha). apply bool_decide_eq_true_1 in Ha.
    exists a. split; [exact Ha | by apply list_elem_of_In].
  - intros (a & Ha & Hin). exists a. split; [by apply list_elem_of_In|].
    by apply bool_decide_eq_true_2.
Qed.

(** X11. The account type gate, ensureTenantIsolation. For a request with
    a user it always answers, with [next()] on the unchanged request or
    with 403; it lets the request through exactly when the user is an
    admin or superadmin, or no list of account types was given, or the
    user's account type is in the list. So an empty list stops every
    regular user, and the demo user is not exempt. On a request without a
    user it throws; behind the tenant access middleware that cannot
    happen. *)
Theorem X11_account_type_gate :
  forall (allowedAccountTypes : option (list string)) (req : TenantAccess.TenantRequest),
    (TenantAccess.user req = None ->
     is_ok (TenantAccess.ensureTenantIsolation allowedAccountTypes req) = false)
    /\ (forall dir fac calls req',
          TenantAccess.validateTenantAccess dir fac req = (calls, TenantAccess.Next req') ->
          is_ok (TenantAccess.ensureTenantIsolation allowedAccountTypes req') = true)
    /\ forall u,
         TenantAccess.user req = Some u ->
         exists o,
           TenantAccess.ensureTenantIsolation allowedAccountTypes req = Ok o
           /\ (o = TenantAccess.Next req
               \/ o = TenantAccess.Respond 403
                        "Access denied: Insufficient account permissions")
           /\ (o = TenantAccess.Next req
               <-> TenantAccess.role u = Some "admin"
                   \/ TenantAccess.role u = Some "superadmin"
                   \/ allowedAccountTypes = None
                   \/ exists allowed a,
                        allowedAccountTypes = Some allowed
                        /\ TenantAccess.accountType u = Some a /\ a ∈ allowed).
Proof.
  intros allowed req.
  assert (Hgate : forall r u,
    TenantAccess.user r = Some u ->
    exists o,
      TenantAccess.ensureTenantIsolation allowed r = Ok o
      /\ (o = TenantAccess.Next r
          \/ o = TenantAccess.Respond 403 "Access denied: Insufficient account permissions")
      /\ (o = TenantAccess.Next r
          <-> TenantAccess.role u = Some "admin"
              \/ TenantAccess.role u = Some "superadmin"
              \/ allowed = None
              \/ exists l a, allowed = Some l
                             /\ TenantAccess.accountType u = Some a /\ a ∈ l)).
  { intros r u Hu. unfold TenantAccess.ensureTenantIsolation. rewrite Hu.
    destruct (TenantAccess.role_is u "admin") eqn:Ha; simpl.
    { apply role_is_true in Ha. eexists. split; [reflexivity|]. split; [by left|].
      split; [by left | reflexivity]. }
    destruct (TenantAccess.role_is u "superadmin") eqn:Hs; simpl.
    { apply role_is_true in Hs. eexists. split; [reflexivity|]. split; [by left|].
      split; [by right; left | reflexivity]. }
    apply role_is_decide in Ha, Hs.
    destruct allowed as [l|].
    2: { eexists. split; [reflexivity|]. split; [by left|].
         split; [by right; right; left | reflexivity]. }
    destruct (existsb _ l) eqn:Hl; simpl.
    - apply account_type_allowed in Hl as (a & Hacc & Hin).
      eexists. split; [reflexivity|]. split; [by left|].
      split; [|reflexivity]. intros _. right. right. right. by exists l, a.
    - eexists. split; [reflexivity|]. split; [by right|].
      split; [discriminate|].
      intros [H|[H|[H|(l' & a & [= <-] & Hacc & Hin)]]]; try congruence.
      assert (existsb (fun a => bool_decide (TenantAccess.accountType u = Some a)) l = true)
        as Hyes by (apply account_type_allowed; eauto).
      congruence. }
  split; [|split].
  - intros Hu. unfold TenantAccess.ensureTenantIsolation. by rewrite Hu.
  - intros dir fac calls req' Hrun.
    destruct (validateTenantAccess_keeps_user _ _ _ _ _ Hrun) as [Hsame [u Hu]].
    rewrite Hu in Hsame. destruct (Hgate req' u Hsame) as (o & -> & _). reflexivity.
  - apply Hgate.
Qed.

(** The demo user before a gate with an empty list. *)
Lemma X11_account_type_gate_witness :
  let demo := {| TenantAccess.id := Some "demo-user-id"; TenantAccess.userId := None;
                 TenantAccess.tenantId := None;
                 TenantAccess.role := Some "user";
                 TenantAccess.accountType := Some "SIMPLES" |} in
  let req := {| TenantAccess.user := Some demo; TenantAccess.tenant := None;
                TenantAccess.tenantDB := None |} in
  TenantAccess.ensureTenantIsolation (Some []) req
  = Ok (TenantAccess.Respond 403 "Access denied: Insufficient account permissions").
Proof.
  intros demo req.
  destruct (proj2 (proj2 (X11_account_type_gate (Some []) req)) demo eq_refl)
    as (o & Ho & [-> | ->] & Hiff); [|exact Ho].
  destruct (proj1 Hiff eq_refl) as [H|[H|[H|(l & a & [= <-] & _ & Hin)]]];
    try discriminate H.
  by apply elem_of_nil in Hin.
Defined.

(** ** The statements the ensure-schema step sends *)

Section EnsureTablesTraces.

Variable S : Type.
Variable exec : S -> string -> S * result (list (gmap string value)).

Lemma traced_run s ran q :
  traced exec (s, ran) q = ((fst (exec s q), ran ++ [q]), snd (exec s q)).
Proof. unfold traced. by destruct (exec s q). Qed.

(** A run of guarded statements sends every one of them, in order,
    whatever fails; it prints one line for each that fails, and nothing
    else. *)
Lemma attempts_trace (ms : list (string * string)) s ran l :
  exists s' l',
    fold_left (fun st m => EnsureTables.attempt _ (traced exec) (fst m) (snd m) st)
      ms ((s, ran), l)
    = ((s', ran ++ (snd <$> ms)), l ++ l')
    /\ (length l' <= length ms)%nat
    /\ (all_succeed exec (snd <$> ms) -> l' = [])
    /\ (all_fail exec (snd <$> ms) -> l' = fst <$> ms).
Proof.
  revert s ran l. induction ms as [|[msg sql] ms IH]; intros s ran l.
  - exists s, []. simpl. rewrite !app_nil_r. repeat split; auto.
  - cbn [fold_left fst snd]. unfold EnsureTables.attempt at 2. rewrite traced_run.
    destruct (exec s sql) as [s1 r] eqn:Hrun. cbn [fst snd].
    assert (Htail : forall P : S -> string -> Prop,
              (forall s q, q ∈ snd <$> (msg, sql) :: ms -> P s q) ->
              forall s q, q ∈ snd <$> ms -> P s q).
    { intros P HP s0 q Hq. apply HP. rewrite fmap_cons. by right. }
    assert (Hhead : sql ∈ snd <$> (msg, sql) :: ms) by (rewrite fmap_cons; by left).
    destruct r as [rows|e].
    + destruct (IH s1 (ran ++ [sql]) l) as (s' & l' & Hfold & Hlen & Hok & Hfail).
      exists s', l'. rewrite Hfold, fmap_cons, <- app_assoc. simpl.
      repeat split; [lia | |].
      * intros H. apply Hok. exact (Htail _ H).
      * intros H. specialize (H s sql Hhead).
        rewrite Hrun in H. discriminate.
    + destruct (IH s1 (ran ++ [sql]) (l ++ [msg])) as (s' & l' & Hfold & Hlen & Hok & Hfail).
      exists s', (msg :: l'). rewrite Hfold, fmap_cons, <- !app_assoc. simpl.
      repeat split; [lia | |].
      * intros H. specialize (H s sql Hhead).
        rewrite Hrun in H. discriminate.
      * intros H. f_equal. apply Hfail. exact (Htail _ H).
Qed.

Lemma alters_as_attempts (stmts : list string) msg (st : (S * list string) * EnsureTables.log) :
  fold_left (fun st sql => EnsureTables.attempt _ (traced exec) msg sql st) stmts st
  = fold_left (fun st m => EnsureTables.attempt _ (traced exec) (fst m) (snd m) st)
      ((fun sql => (msg, sql)) <$> stmts) st.
Proof.
  revert st. induction stmts as [|q stmts IH]; intros st; [reflexivity|]. simpl. apply IH.
Qed.

(** The loop without guards sends the statements in order up to the first
    that fails, and rethrows what that one threw. *)
Lemma run_all_trace (stmts : list string) s ran :
  exists s' sent rest r,
    EnsureTables.run_all _ (traced exec) stmts (s, ran) = ((s', ran ++ sent), r)
    /\ stmts = sent ++ rest
    /\ (r = Ok tt -> rest = [])
    /\ (forall e, r = Throw e ->
          exists before q s1 s2, sent = before ++ [q] /\ exec s1 q = (s2, Throw e))
    /\ (all_succeed exec stmts -> r = Ok tt).
Proof.
  revert s ran. induction stmts as [|q stmts IH]; intros s ran.
  - exists s, [], [], (Ok tt). simpl. rewrite app_nil_r.
    repeat split; auto. discriminate.
  - cbn [EnsureTables.run_all]. unfold EnsureTables.queryTenantSchema. rewrite traced_run.
    destruct (exec s q) as [s1 [rows|e]] eqn:Hrun; cbn [fst snd].
    + destruct (IH s1 (ran ++ [q])) as (s' & sent & rest & r & Hall & Hs & Hok & Hthrow & Hsucc).
      exists s', (q :: sent), rest, r. rewrite Hall, <- app_assoc. simpl.
      repeat split; [by rewrite Hs | exact Hok | |].
      * intros e He. destruct (Hthrow e He) as (before & q' & s2 & s3 & -> & Hq').
        by exists (q :: before), q', s2, s3.
      * intros H. apply Hsucc. intros s0 q0 Hq0. apply H. by right.
    + exists s1, [q], stmts, (Throw e). repeat split; [discriminate | |].
      * intros e' [= <-]. by exists [], q, s, s1.
      * intros H. specialize (H s q ltac:(by left)). rewrite Hrun in H. discriminate.
Qed.

(** X12. ProjectsService.ensureTables against any tenant database. When
    its table check fails, the error is rethrown and nothing else is sent.
    When the check finds no table, it prints one line, sends nothing else
    and returns. Otherwise it sends the seven ALTER statements and the five
    migration statements, all twelve, in the order of the source, whichever
    of them fail, and returns normally; it prints at most twelve lines:
    none when every statement succeeds, twelve when every statement
    fails. *)
Theorem X12_projects_ensureTables_sends_every_statement :
  forall (s : S) (l : EnsureTables.log),
    let '(((_, sent), printed), returned) :=
      EnsureTables.projects_ensureTables _ (traced exec) ((s, []), l) in
    match snd (exec s EnsureTables.projects_checkTableQuery) with
    | Throw e =>
        returned = Throw e
        /\ sent = [EnsureTables.projects_checkTableQuery]
        /\ printed = l
    | Ok rows =>
        returned = Ok tt
        /\ if EnsureTables.table_missing rows
           then sent = [EnsureTables.projects_checkTableQuery]
                /\ printed = l ++ ["Table projects does not exist in tenant schema"]
           else sent = EnsureTables.projects_checkTableQuery :: projects_statements
                /\ exists lines,
                     printed = l ++ lines
                     /\ (length lines <= 12)%nat
                     /\ (all_succeed exec projects_statements -> lines = [])
                     /\ (all_fail exec projects_statements -> length lines = 12%nat)
    end.
Proof.
  intros s l. unfold EnsureTables.projects_ensureTables, EnsureTables.queryTenantSchema.
  rewrite traced_run. destruct (exec s EnsureTables.projects_checkTableQuery) as [s1 [rows|e]].
  2: { cbn [fst snd]. by repeat split. }
  cbn [fst snd]. destruct (EnsureTables.table_missing rows); [by repeat split|].
  rewrite alters_as_attempts.
  set (alters := (fun sql => ("Alter table statement failed (ignored):", sql))
                   <$> EnsureTables.projects_alterStatements).
  destruct (attempts_trace alters s1 ([] ++ [EnsureTables.projects_checkTableQuery]) l)
    as (s2 & l1 & -> & Hlen1 & Hok1 & Hfail1).
  destruct (attempts_trace EnsureTables.projects_migrations s2
              (([] ++ [EnsureTables.projects_checkTableQuery]) ++ (snd <$> alters)) (l ++ l1))
    as (s3 & l2 & -> & Hlen2 & Hok2 & Hfail2).
  assert (Halters : snd <$> alters = EnsureTables.projects_alterStatements) by reflexivity.
  rewrite Halters in *.
  split; [reflexivity|]. split.
  { unfold projects_statements. by rewrite <- !app_assoc. }
  exists (l1 ++ l2). split; [by rewrite app_assoc|].
  assert (Hsplit : forall P : S -> string -> Prop,
            (forall s q, q ∈ projects_statements -> P s q) ->
            (forall s q, q ∈ EnsureTables.projects_alterStatements -> P s q)
            /\ (forall s q, q ∈ snd <$> EnsureTables.projects_migrations -> P s q)).
  { intros P HP. split; intros s0 q Hq; apply HP; unfold projects_statements;
      apply elem_of_app; [by left | by right]. }
  rewrite length_app. split; [|split].
  - change (length alters) with 7%nat in Hlen1.
    change (length EnsureTables.projects_migrations) with 5%nat in Hlen2. lia.
  - intros H. destruct (Hsplit _ H) as [Ha Hm]. by rewrite (Hok1 Ha), (Hok2 Hm).
  - intros H. destruct (Hsplit _ H) as [Ha Hm]. by rewrite (Hfail1 Ha), (Hfail2 Hm).
Qed.

(** X13. TasksService.ensureTables and ClientsService.ensureTables against
    any tenant database: the CREATE TABLE statement and the CREATE INDEX
    statements are sent in the order of the source up to the first that
    fails; what that statement threw is rethrown and nothing after it is
    sent. The step returns normally only when all of them were sent, and
    it does so when every one succeeds. *)
Theorem X13_tasks_and_clients_ensureTables_stop_at_the_first_failure :
  forall s : S,
    (let '((_, sent), returned) := EnsureTables.tasks_ensureTables _ (traced exec) (s, []) in
     let stmts := EnsureTables.tasks_createTableQuery :: EnsureTables.tasks_indexes in
     sent `prefix_of` stmts
     /\ (returned = Ok tt -> sent = stmts)
     /\ (forall e, returned = Throw e ->
           exists before q s1 s2, sent = before ++ [q] /\ exec s1 q = (s2, Throw e))
     /\ (all_succeed exec stmts -> returned = Ok tt))
    /\ (let '((_, sent), returned) :=
          EnsureTables.clients_ensureTables _ (traced exec) (s, []) in
        let stmts := EnsureTables.clients_createTableQuery :: EnsureTables.clients_indexes in
        sent `prefix_of` stmts
        /\ (returned = Ok tt -> sent = stmts)
        /\ (forall e, returned = Throw e ->
              exists before q s1 s2, sent = before ++ [q] /\ exec s1 q = (s2, Throw e))
        /\ (all_succeed exec stmts -> returned = Ok tt)).
Proof.
  intros s. split.
  - change (EnsureTables.tasks_ensureTables _ (traced exec) (s, []))
      with (EnsureTables.run_all _ (traced exec)
              (EnsureTables.tasks_createTableQuery :: EnsureTables.tasks_indexes) (s, [])).
    destruct (run_all_trace
                (EnsureTables.tasks_createTableQuery :: EnsureTables.tasks_indexes) s [])
      as (s' & sent & rest & r & -> & Hs & Hok & Hthrow & Hsucc).
    cbn [app]. repeat split.
    + by exists rest.
    + intros Hr. rewrite Hs, (Hok Hr). by rewrite app_nil_r.
    + exact Hthrow.
    + exact Hsucc.
  - change (EnsureTables.clients_ensureTables _ (traced exec) (s, []))
      with (EnsureTables.run_all _ (traced exec)
              (EnsureTables.clients_createTableQuery :: EnsureTables.clients_indexes) (s, [])).
    destruct (run_all_trace
                (EnsureTables.clients_createTableQuery :: EnsureTables.clients_indexes) s [])
      as (s' & sent & rest & r & -> & Hs & Hok & Hthrow & Hsucc).
    cbn [app]. repeat split.
    + by exists rest.
    + intros Hr. rewrite Hs, (Hok Hr). by rewrite app_nil_r.
    + exact Hthrow.
    + exact Hsucc.
Qed.

End EnsureTablesTraces.

(** A database that rejects every statement but the table check: twelve
    statements are sent after the check, twelve lines are printed. *)
Lemma X12_projects_ensureTables_sends_every_statement_witness :
  let rejects sql := negb (String.eqb sql EnsureTables.projects_checkTableQuery) in
  let run :=
    EnsureTables.projects_ensureTables _ (traced (recording rejects)) (([], []), []) in
  snd run = Ok tt
  /\ snd (fst (fst run)) = EnsureTables.projects_checkTableQuery :: projects_statements
  /\ length (snd (fst run)) = 12%nat.
Proof.
  intros rejects run.
  pose proof (X12_projects_ensureTables_sends_every_statement _ (recording rejects) [] [])
    as H.
  fold run in H. destruct run as [[[s' sent] printed] returned]. cbn [fst snd].
  change (snd (recording rejects [] EnsureTables.projects_checkTableQuery))
    with (Ok [ ({[ "exists" := VBool true ]} : gmap string value) ]) in H.
  destruct H as (Hret & H).
  change (EnsureTables.table_missing [ ({[ "exists" := VBool true ]} : gmap string value) ])
    with false in H.
  destruct H as (Hsent & lines & -> & _ & _ & Hall).
  split; [exact Hret|]. split; [exact Hsent|].
  apply Hall. intros s q Hq.
  assert (Hrej : forallb rejects projects_statements = true) by (vm_compute; reflexivity).
  rewrite forallb_forall in Hrej. unfold recording. simpl.
  by rewrite (Hrej q) by (by apply list_elem_of_In).
Defined.

(** A database that accepts every statement: the ensure step of the tasks
    service sends all eight and returns. *)
Lemma X13_tasks_and_clients_ensureTables_stop_at_the_first_failure_witness :
  let run :=
    EnsureTables.tasks_ensureTables _ (traced (recording (fun _ => false))) ([], []) in
  snd run = Ok tt
  /\ snd (fst run) = EnsureTables.tasks_createTableQuery :: EnsureTables.tasks_indexes.
Proof.
  intros run.
  pose proof (X13_tasks_and_clients_ensureTables_stop_at_the_first_failure
                _ (recording (fun _ => false)) []) as [H _].
  fold run in H. destruct run as [[s' sent] returned]. cbn [fst snd].
  destruct H as (_ & Hall & _ & Hok).
  assert (Hret : returned = Ok tt) by (apply Hok; intros s q _; reflexivity).
  split; [exact Hret | exact (Hall Hret)].
Defined.

(** ** An update with nothing to write *)

Lemma set_if_empty c k v (m : gmap string value) :
  set_if c k v m = ∅ <-> c = false /\ m = ∅.
Proof.
  destruct c; simpl.
  - split; [intros H; by apply insert_non_empty in H | by intros [? _]].
  - split; [by intros -> | by intros [_ ->]].
Qed.

Lemma payload_from_empty columns (m : gmap string value) :
  payload_from m columns = ∅ <-> m = ∅ /\ no_member_supplied columns = true.
Proof.
  revert m. induction columns as [|[k v] columns IH]; intros m.
  - simpl. tauto.
  - change (payload_from m ((k, v) :: columns))
      with (payload_from (set_if (value_defined v) k v m) columns).
    rewrite IH, set_if_empty. cbn [no_member_supplied forallb snd].
    rewrite andb_true_iff, negb_true_iff. tauto.
Qed.

Lemma size_zero (m : gmap string value) : (size m =? 0)%nat = true <-> m = ∅.
Proof. rewrite Nat.eqb_eq. apply map_size_empty_iff. Qed.

(** An update whose payload is not empty does not fail for want of
    fields. *)
Lemma update_with_fields def now (t : DB.table) id (data : gmap string value) :
  data <> ∅ ->
  DB.updateInTenantSchema def now t id data <> Throw "No fields to update".
Proof.
  intros Hne. unfold DB.updateInTenantSchema.
  destruct (size data =? 0)%nat eqn:E; [by apply size_zero in E|].
  destruct (forallb _ _); discriminate.
Qed.

(** X14. An update that supplies none of the members the service maps is
    refused with [No fields to update], and that is the only way to get
    this error: for updateProject the seventeen members of its statements,
    for updateTask its seventeen, for updateClient its fifteen. Members the
    service has no statement for do not count, so updateClient given only
    a level is refused. *)
Theorem X14_update_with_nothing_to_write_is_refused :
  (forall now (t : DB.table) id u,
     ProjectsService.updateProject now t id u = Throw "No fields to update"
     <-> no_member_supplied (project_update_columns u) = true)
  /\ (forall now (t : DB.table) id u,
        TasksService.updateTask now t id u = Throw "No fields to update"
        <-> no_member_supplied (task_update_columns u) = true
            /\ TasksService.subtasks u = None)
  /\ (forall now (t : DB.table) id u,
        ClientsService.updateClient now t id u = Throw "No fields to update"
        <-> no_member_supplied (client_update_columns u) = true
            /\ ClientsService.address u = None).
Proof.
  assert (Hbind : forall def now (t : DB.table) id (payload : result (gmap string value))
                         (data : gmap string value),
            payload = (if (size data =? 0)%nat then Throw "No fields to update" else Ok data) ->
            bind payload (fun data => DB.updateInTenantSchema def now t id data)
            = Throw "No fields to update"
            <-> data = ∅).
  { intros def now t id payload data ->.
    destruct (size data =? 0)%nat eqn:E; simpl.
    - apply size_zero in E. tauto.
    - split; [|intros ->; discriminate].
      intros H. exfalso. revert H. apply update_with_fields.
      intros ->. discriminate. }
  split; [|split]; intros now t id u.
  - unfold ProjectsService.updateProject. rewrite Hbind; [|reflexivity].
    transitivity (payload_from ∅ (project_update_columns u) = ∅).
    { unfold_payload project_update_columns. reflexivity. }
    rewrite payload_from_empty. tauto.
  - unfold TasksService.updateTask. rewrite Hbind; [|reflexivity].
    rewrite set_if_empty.
    transitivity (JS.defined (TasksService.subtasks u) = false
                  /\ payload_from ∅ (task_update_columns u) = ∅).
    { unfold_payload task_update_columns. reflexivity. }
    rewrite payload_from_empty.
    destruct (TasksService.subtasks u); simpl; split; intros H; try tauto;
      destruct H as [? ?]; try discriminate; tauto.
  - unfold ClientsService.updateClient. rewrite Hbind; [|reflexivity].
    set (code_columns :=
           take 4 (client_update_columns u)
           ++ ("address", JS.JSON_stringify (JS.str (ClientsService.address u)))
              :: drop 4 (client_update_columns u)).
    transitivity (payload_from ∅ code_columns = ∅).
    { cbv [payload_from code_columns client_update_columns firstn skipn app fold_left fst snd].
      rewrite ?defined_stringify_str, ?defined_str, ?defined_num, ?defined_strs.
      reflexivity. }
    rewrite payload_from_empty. unfold code_columns, no_member_supplied.
    rewrite <- (take_drop 4 (client_update_columns u)) at 3.
    rewrite !forallb_app. cbn [forallb snd].
    rewrite defined_stringify_str.
    match goal with
    | |- context [forallb ?f (take 4 ?l)] => generalize (forallb f (take 4 l)); intros b1
    end.
    match goal with
    | |- context [forallb ?f (drop 4 ?l)] => generalize (forallb f (drop 4 l)); intros b2
    end.
    destruct (ClientsService.address u), b1, b2; simpl;
      split; intros [? ?]; try discriminate; by split.
Qed.

(** updateClient given only a level, which it has no statement for. *)
Lemma X14_update_with_nothing_to_write_is_refused_witness :
  ClientsService.updateClient 99 [stored_client "c1" "silver"] "c1"
    (client_data None None (Some "gold") None)
  = Throw "No fields to update".
Proof.
  apply (proj2 (proj2 X14_update_with_nothing_to_write_is_refused)).
  split; reflexivity.
Defined.

(** ** The mutations of the clients hook *)

Lemma loadClients_settled {Client : Type} (mockClients : list Client) api st :
  settled mockClients (fst (UseClients.loadClients mockClients api st)).
Proof.
  unfold UseClients.loadClients, settled.
  destruct api as [[[[|c l]|] pg]|e]; simpl; repeat split; try tauto; discriminate.
Qed.

Section UseClientsMutations.

Variables Client Server Data Saved : Type.
Variable mockClients : list Client.
Variables data_name data_email : Data -> value.
Variable client_id : Saved -> value.
Variable api_getClients : Server -> Server * result (UseClients.Response Client).
Variable api_createClient : Server -> Data -> Server * result Saved.
Variable api_updateClient : Server -> string -> Data -> Server * result Saved.
Variable api_deleteClient : Server -> string -> Server * result unit.
Variable api_createNotification : Server -> value -> Server * result unit.

Lemma reload_settled srv st :
  settled mockClients (snd (UseClients.reload mockClients api_getClients (srv, st))).
Proof.
  unfold UseClients.reload. destruct (api_getClients srv) as [srv' api]. simpl.
  apply loadClients_settled.
Qed.

(** X15. The mutations of the clients hook and the API calls they wrap.
    When the API call of createClient, updateClient or deleteClient is
    rejected, the mutation rethrows the same error, leaves the hook's
    state as it was and makes no further call. When it resolves, the
    mutation resolves, whatever the list call that follows does, and for
    createClient also whatever the notification call does; create and
    update resolve to what the API call resolved to; and the list has
    been loaded again: not loading, no error shown, and not empty unless
    the sample data is. *)
Theorem X15_client_mutations_rethrow_or_reload :
  forall (id : string) (data : Data),
    rethrows_or_reloads mockClients (fun srv => api_createClient srv data)
      (UseClients.createClient mockClients data_name data_email client_id
         api_getClients api_createClient api_createNotification data)
    /\ rethrows_or_reloads mockClients (fun srv => api_updateClient srv id data)
         (UseClients.updateClient mockClients api_getClients api_updateClient id data)
    /\ rethrows_or_reloads mockClients (fun srv => api_deleteClient srv id)
         (UseClients.deleteClient mockClients api_getClients api_deleteClient id)
    /\ (forall srv st,
          snd (UseClients.createClient mockClients data_name data_email client_id
                 api_getClients api_createClient api_createNotification data (srv, st))
          = snd (api_createClient srv data))
    /\ (forall srv st,
          snd (UseClients.updateClient mockClients api_getClients api_updateClient
                 id data (srv, st))
          = snd (api_updateClient srv id data)).
Proof.
  intros id data. repeat split.
  - intros srv st. unfold UseClients.createClient.
    destruct (api_createClient srv data) as [srv1 [response|err]]; [|reflexivity].
    destruct (api_createNotification srv1 _) as [srv2 notified].
    split; [reflexivity | apply reload_settled].
  - intros srv st. unfold UseClients.updateClient.
    destruct (api_updateClient srv id data) as [srv1 [response|err]]; [|reflexivity].
    split; [reflexivity | apply reload_settled].
  - intros srv st. unfold UseClients.deleteClient.
    destruct (api_deleteClient srv id) as [srv1 [[]|err]]; [|reflexivity].
    split; [reflexivity | apply reload_settled].
  - intros srv st. unfold UseClients.createClient.
    destruct (api_createClient srv data) as [srv1 [response|err]]; [|reflexivity].
    by destruct (api_createNotification srv1 _).
  - intros srv st. unfold UseClients.updateClient.
    by destruct (api_updateClient srv id data) as [srv1 [response|err]].
Qed.

End UseClientsMutations.

(** A client is created while the notification service and the list call
    are down: the create resolves, the three calls are made in order, and
    the list shows the sample data. *)
Lemma X15_client_mutations_rethrow_or_reload_witness :
  let st0 := {| UseClients.clients := ([] : list string);
                UseClients.isLoading := false;
                UseClients.error := None |} in
  let run := UseClients.createClient ["Ana"] VStr (fun _ => VUndef) VStr
               offline_getClients offline_createClient offline_createNotification
               "Bia" ([], st0) in
  snd run = Ok "id of Bia"
  /\ fst (fst run) = ["createClient"; "createNotification"; "getClients"]
  /\ UseClients.clients (snd (fst run)) = ["Ana"].
Proof.
  intros st0 run. split; [|split; reflexivity].
  exact (proj1 (proj2 (proj2 (proj2
           (X15_client_mutations_rethrow_or_reload string (list string) string string
              ["Ana"] VStr (fun _ => VUndef) VStr offline_getClients offline_createClient
              (fun calls _ _ => (calls, Throw "unused"))
              (fun calls _ => (calls, Throw "unused"))
              offline_createNotification "c1" "Bia")))) [] st0).
Defined.

(** ** The statistics the projects hook computes itself *)

Section ProjectStatsProps.

Variable today : Z.
Variable midnight_of : string -> option Z.

Lemma count_cons (f : UseProjects.Project -> bool) p l :
  UseProjects.count f (p :: l) = ((if f p then 1 else 0) + UseProjects.count f l)%Z.
Proof. unfold UseProjects.count. simpl. destruct (f p); simpl; lia. Qed.

Lemma count_nonneg (f : UseProjects.Project -> bool) l : (0 <= UseProjects.count f l)%Z.
Proof. unfold UseProjects.count. lia. Qed.

Lemma sum_from (f : UseProjects.Project -> Z) l a :
  fold_left (fun acc p => (acc + f p)%Z) l a = (a + UseProjects.sum f l)%Z.
Proof.
  unfold UseProjects.sum. revert a. induction l as [|p l IH]; intros a; simpl; [lia|].
  rewrite (IH (a + f p)%Z), (IH (0 + f p)%Z). lia.
Qed.

Lemma sum_cons (f : UseProjects.Project -> Z) p l :
  UseProjects.sum f (p :: l) = (f p + UseProjects.sum f l)%Z.
Proof. unfold UseProjects.sum at 1. simpl. by rewrite sum_from. Qed.

Lemma sum_bounds (f : UseProjects.Project -> Z) l lo hi :
  (forall p, p ∈ l -> (lo <= f p <= hi)%Z) ->
  (lo * Z.of_nat (length l) <= UseProjects.sum f l <= hi * Z.of_nat (length l))%Z.
Proof.
  induction l as [|p l IH]; intros H.
  - unfold UseProjects.sum. simpl. lia.
  - rewrite sum_cons. simpl length.
    pose proof (H p ltac:(left)) as Hp.
    pose proof (IH (fun x Hx => H x ltac:(by right))) as Hl. lia.
Qed.

(** [Math.round] of a quotient stays between integer bounds of the
    quotient. *)
Lemma round_div_bounds a n lo hi :
  (0 < n)%Z -> (lo * n <= a <= hi * n)%Z ->
  (lo <= UseProjects.round_div a n <= hi)%Z.
Proof.
  intros Hn [Hlo Hhi]. unfold UseProjects.round_div. split.
  - apply Z.div_le_lower_bound; lia.
  - apply Z.lt_succ_r, Z.div_lt_upper_bound; lia.
Qed.

Lemma status_counts l :
  let by_status s :=
    UseProjects.count (fun p => String.eqb (UseProjects.status p) s) l in
  (by_status "contacted" + by_status "proposal" + by_status "won" + by_status "lost"
   = UseProjects.count
       (fun p => existsb (String.eqb (UseProjects.status p))
                   ["contacted"; "proposal"; "won"; "lost"]) l)%Z.
Proof.
  intros by_status. unfold by_status. induction l as [|p l IH]; [reflexivity|].
  rewrite !count_cons. cbn [existsb] in *.
  destruct (String.eqb_spec (UseProjects.status p) "contacted") as [Hs|_];
    [rewrite Hs; cbn [String.eqb Ascii.eqb Bool.eqb orb]; lia|].
  destruct (String.eqb_spec (UseProjects.status p) "proposal") as [Hs|_];
    [rewrite Hs; cbn [String.eqb Ascii.eqb Bool.eqb orb]; lia|].
  destruct (String.eqb_spec (UseProjects.status p) "won") as [Hs|_];
    [rewrite Hs; cbn [String.eqb Ascii.eqb Bool.eqb orb]; lia|].
  destruct (String.eqb (UseProjects.status p) "lost"); cbn [orb]; lia.
Qed.

Lemma count_le_length (f : UseProjects.Project -> bool) l :
  (UseProjects.count f l <= Z.of_nat (length l))%Z.
Proof.
  induction l as [|p l IH]; [reflexivity|]. rewrite count_cons. simpl length.
  destruct (f p); lia.
Qed.

Lemma count_all (f : UseProjects.Project -> bool) l :
  UseProjects.count f l = Z.of_nat (length l) <-> forall p, p ∈ l -> f p = true.
Proof.
  induction l as [|p l IH].
  - split; [intros _ x Hx; by apply elem_of_nil in Hx | reflexivity].
  - rewrite count_cons. simpl length. pose proof (count_le_length f l) as Hle. split.
    + intros H x Hx. destruct (f p) eqn:E; [|lia].
      apply elem_of_cons in Hx as [->|Hx]; [exact E|]. apply IH; [lia | exact Hx].
    + intros H. rewrite (H p) by left.
      assert (UseProjects.count f l = Z.of_nat (length l))
        by (apply IH; intros x Hx; apply H; by right).
      lia.
Qed.

(** X16. The statistics calculateStatsFromProjects computes from a list of
    projects. [total] is the length of the list. The four status counters
    never add up to more than [total], and do so exactly when every
    project has one of the four statuses. A project is never both overdue
    and won or lost, so [overdue + won + lost] is at most [total]. The
    average progress of an empty list is 0; otherwise it lies between any
    two integers that bound the progress of every project, so between 0
    and 100 for progresses in that range. *)
Theorem X16_computed_project_stats_are_consistent :
  forall l : list UseProjects.Project,
    let stats := UseProjects.calculateStatsFromProjects today midnight_of l in
    let by_status := UseProjects.byStatus stats in
    let counted := (UseProjects.contacted by_status + UseProjects.proposal by_status
                    + UseProjects.won by_status + UseProjects.lost by_status)%Z in
    UseProjects.total stats = Z.of_nat (length l)
    /\ (0 <= counted <= UseProjects.total stats)%Z
    /\ (counted = UseProjects.total stats
        <-> forall p, p ∈ l ->
              UseProjects.status p ∈ ["contacted"; "proposal"; "won"; "lost"])
    /\ (0 <= UseProjects.overdue stats)%Z
    /\ (UseProjects.overdue stats + UseProjects.won by_status + UseProjects.lost by_status
        <= UseProjects.total stats)%Z
    /\ (l = [] -> UseProjects.avgProgress stats = 0%Z)
    /\ forall lo hi,
         l <> [] ->
         (forall p, p ∈ l -> (lo <= UseProjects.progress p <= hi)%Z) ->
         (lo <= UseProjects.avgProgress stats <= hi)%Z.
Proof.
  intros l stats by_status counted.
  assert (Hcounted : counted
                     = UseProjects.count
                         (fun p => existsb (String.eqb (UseProjects.status p))
                                     ["contacted"; "proposal"; "won"; "lost"]) l)
    by apply status_counts.
  split; [reflexivity|]. split; [|split; [|split; [|split; [|split]]]].
  - rewrite Hcounted. split; [apply count_nonneg | apply count_le_length].
  - rewrite Hcounted. change (UseProjects.total stats) with (Z.of_nat (length l)).
    rewrite count_all. split; intros H p Hp; specialize (H p Hp).
    + apply existsb_exists in H as (s & Hs & Heq). apply String.eqb_eq in Heq as ->.
      by apply list_elem_of_In.
    + apply existsb_exists. exists (UseProjects.status p).
      split; [by apply list_elem_of_In | apply String.eqb_refl].
  - apply count_nonneg.
  - change (UseProjects.total stats) with (Z.of_nat (length l)).
    unfold stats, by_status. simpl. clear.
    induction l as [|p l IH]; [reflexivity|].
    rewrite !count_cons. simpl length. unfold UseProjects.is_overdue at 1.
    destruct (String.eqb_spec (UseProjects.status p) "won") as [Hw|_];
      destruct (String.eqb_spec (UseProjects.status p) "lost") as [Hl|_];
      try (rewrite Hw in Hl; discriminate Hl);
      destruct (negb _); try destruct (midnight_of _) as [d|];
      try destruct (d <? today)%Z; simpl; lia.
  - intros ->. reflexivity.
  - intros lo hi Hne Hall. unfold stats. simpl.
    destruct l as [|p l']; [contradiction|].
    change (0 <? length (p :: l'))%nat with true. cbv iota.
    apply round_div_bounds; [simpl length; lia|].
    apply sum_bounds. exact Hall.
Qed.

Lemma count_fmap (f : UseProjects.Project -> bool) (g : UseProjects.Project -> UseProjects.Project) l :
  UseProjects.count f (g <$> l) = UseProjects.count (fun p => f (g p)) l.
Proof.
  induction l as [|p l IH]; [reflexivity|]. rewrite fmap_cons, !count_cons. by rewrite IH.
Qed.

Lemma count_ext (f g : UseProjects.Project -> bool) l :
  (forall p, f p = g p) -> UseProjects.count f l = UseProjects.count g l.
Proof.
  intros H. induction l as [|p l IH]; [reflexivity|]. by rewrite !count_cons, H, IH.
Qed.

Lemma sum_filter_fmap (f : UseProjects.Project -> Z) (w : UseProjects.Project -> bool)
    (g : UseProjects.Project -> UseProjects.Project) l :
  UseProjects.sum f (List.filter w (g <$> l))
  = UseProjects.sum (fun p => f (g p)) (List.filter (fun p => w (g p)) l).
Proof.
  induction l as [|p l IH]; [reflexivity|]. rewrite fmap_cons. simpl.
  destruct (w (g p)); rewrite ?sum_cons, IH; reflexivity.
Qed.

Lemma sum_fmap (f : UseProjects.Project -> Z)
    (g : UseProjects.Project -> UseProjects.Project) l :
  UseProjects.sum f (g <$> l) = UseProjects.sum (fun p => f (g p)) l.
Proof.
  induction l as [|p l IH]; [reflexivity|]. by rewrite fmap_cons, !sum_cons, IH.
Qed.

Lemma priority_counts l :
  let by_priority s :=
    UseProjects.count (fun p => String.eqb (UseProjects.priority p) s) l in
  (by_priority "low" + by_priority "medium" + by_priority "high" + by_priority "urgent"
   = UseProjects.count
       (fun p => existsb (String.eqb (UseProjects.priority p))
                   ["low"; "medium"; "high"; "urgent"]) l)%Z.
Proof.
  intros by_priority. unfold by_priority. induction l as [|p l IH]; [reflexivity|].
  rewrite !count_cons. cbn [existsb] in *.
  destruct (String.eqb_spec (UseProjects.priority p) "low") as [Hs|_];
    [rewrite Hs; cbn [String.eqb Ascii.eqb Bool.eqb orb]; lia|].
  destruct (String.eqb_spec (UseProjects.priority p) "medium") as [Hs|_];
    [rewrite Hs; cbn [String.eqb Ascii.eqb Bool.eqb orb]; lia|].
  destruct (String.eqb_spec (UseProjects.priority p) "high") as [Hs|_];
    [rewrite Hs; cbn [String.eqb Ascii.eqb Bool.eqb orb]; lia|].
  destruct (String.eqb (UseProjects.priority p) "urgent"); cbn [orb]; lia.
Qed.

(** X17. What the conversion of the sample projects does, and what it
    does to the statistics computed from them. The converted list has the
    same projects in the same order, each with every member unchanged
    except that a priority [urgent] has become [high]; converting again
    changes nothing. So the statistics of the converted list differ from
    those of the original only in [high], which also counts the urgent
    projects; and the three priority counters add up to [total] exactly
    when every sample project has one of the priorities low, medium, high
    and urgent. *)
Theorem X17_sample_projects_are_converted_for_display :
  forall l : list UseProjects.Project,
    let shown := UseProjects.convertProjects l in
    let stats := UseProjects.calculateStatsFromProjects today midnight_of l in
    let stats' := UseProjects.calculateStatsFromProjects today midnight_of shown in
    let urgent := UseProjects.count (fun p => String.eqb (UseProjects.priority p) "urgent") l in
    length shown = length l
    /\ (forall i p, l !! i = Some p ->
          exists p', shown !! i = Some p'
                     /\ UseProjects.priority p'
                        = (if String.eqb (UseProjects.priority p) "urgent" then "high"
                           else UseProjects.priority p)
                     /\ UseProjects.id p' = UseProjects.id p
                     /\ UseProjects.title p' = UseProjects.title p
                     /\ UseProjects.status p' = UseProjects.status p
                     /\ UseProjects.progress p' = UseProjects.progress p
                     /\ UseProjects.budget p' = UseProjects.budget p
                     /\ UseProjects.dueDate p' = UseProjects.dueDate p)
    /\ (forall p', p' ∈ shown -> UseProjects.priority p' <> "urgent")
    /\ UseProjects.convertProjects shown = shown
    /\ UseProjects.total stats' = UseProjects.total stats
    /\ UseProjects.avgProgress stats' = UseProjects.avgProgress stats
    /\ UseProjects.overdue stats' = UseProjects.overdue stats
    /\ UseProjects.revenue stats' = UseProjects.revenue stats
    /\ UseProjects.byStatus stats' = UseProjects.byStatus stats
    /\ UseProjects.low (UseProjects.byPriority stats')
       = UseProjects.low (UseProjects.byPriority stats)
    /\ UseProjects.medium (UseProjects.byPriority stats')
       = UseProjects.medium (UseProjects.byPriority stats)
    /\ UseProjects.high (UseProjects.byPriority stats')
       = (UseProjects.high (UseProjects.byPriority stats) + urgent)%Z
    /\ ((UseProjects.low (UseProjects.byPriority stats')
         + UseProjects.medium (UseProjects.byPriority stats')
         + UseProjects.high (UseProjects.byPriority stats'))%Z
        = UseProjects.total stats'
        <-> forall p, p ∈ l ->
              UseProjects.priority p ∈ ["low"; "medium"; "high"; "urgent"]).
Proof.
  intros l shown stats stats' urgent.
  assert (Hlen : length shown = length l) by apply length_fmap.
  assert (Hcount : forall (f : UseProjects.Project -> bool) (g : UseProjects.Project -> bool),
            (forall p, f (let p' := p in
                          {| UseProjects.id := UseProjects.id p';
                             UseProjects.title := UseProjects.title p';
                             UseProjects.description := UseProjects.description p';
                             UseProjects.clientId := UseProjects.clientId p';
                             UseProjects.clientName := UseProjects.clientName p';
                             UseProjects.organization := UseProjects.organization p';
                             UseProjects.address := UseProjects.address p';
                             UseProjects.budget := UseProjects.budget p';
                             UseProjects.currency := UseProjects.currency p';
                             UseProjects.status := UseProjects.status p';
                             UseProjects.priority :=
                               if String.eqb (UseProjects.priority p') "urgent"
                               then "high" else UseProjects.priority p';
                             UseProjects.progress := UseProjects.progress p';
                             UseProjects.startDate := UseProjects.startDate p';
                             UseProjects.dueDate := UseProjects.dueDate p';
                             UseProjects.completedAt := UseProjects.completedAt p';
                             UseProjects.tags := UseProjects.tags p';
                             UseProjects.assignedTo := UseProjects.assignedTo p';
                             UseProjects.notes := UseProjects.notes p';
                             UseProjects.contacts := UseProjects.contacts p';
                             UseProjects.createdAt := UseProjects.createdAt p';
                             UseProjects.updatedAt := UseProjects.updatedAt p' |}) = g p) ->
            UseProjects.count f shown = UseProjects.count g l).
  { intros f g H. unfold shown, UseProjects.convertProjects. rewrite count_fmap.
    apply count_ext. exact H. }
  assert (Hhigh : UseProjects.count (fun p => String.eqb (UseProjects.priority p) "high") shown
                  = (UseProjects.count (fun p => String.eqb (UseProjects.priority p) "high") l
                     + urgent)%Z).
  { unfold shown, urgent, UseProjects.convertProjects. rewrite count_fmap. clear.
    induction l as [|p l IH]; [reflexivity|]. rewrite !count_cons, IH. cbn [UseProjects.priority].
    destruct (String.eqb_spec (UseProjects.priority p) "urgent") as [Hu|_].
    - rewrite Hu. cbn [String.eqb Ascii.eqb Bool.eqb]. lia.
    - destruct (String.eqb (UseProjects.priority p) "high"); lia. }
  assert (Hlow : forall s, s <> "high" -> s <> "urgent" ->
            UseProjects.count (fun p => String.eqb (UseProjects.priority p) s) shown
            = UseProjects.count (fun p => String.eqb (UseProjects.priority p) s) l).
  { intros s Hh Hu. apply Hcount. intros p. cbn [UseProjects.priority].
    destruct (String.eqb_spec (UseProjects.priority p) "urgent") as [Hp|_]; [|reflexivity].
    rewrite Hp. destruct (String.eqb_spec "high" s), (String.eqb_spec "urgent" s);
      congruence. }
  split; [exact Hlen|]. split.
  { intros i p Hp. unfold shown, UseProjects.convertProjects.
    rewrite list_lookup_fmap, Hp. simpl. eexists. split; [reflexivity|]. by repeat split. }
  split.
  { intros p' Hp'. unfold shown, UseProjects.convertProjects in Hp'.
    apply list_elem_of_fmap in Hp' as (p & -> & _). cbn [UseProjects.priority].
    destruct (String.eqb_spec (UseProjects.priority p) "urgent"); [discriminate | assumption]. }
  split.
  { unfold shown, UseProjects.convertProjects. rewrite <- list_fmap_compose.
    apply list_fmap_ext. intros i p _. simpl.
    destruct (String.eqb_spec (UseProjects.priority p) "urgent") as [Hp|Hp]; [reflexivity|].
    by rewrite (proj2 (String.eqb_neq _ _) Hp). }
  split; [unfold stats', stats; simpl; by rewrite Hlen|].
  split.
  { unfold stats', stats. simpl. rewrite Hlen.
    destruct (0 <? length l)%nat; [|reflexivity]. f_equal.
    unfold shown, UseProjects.convertProjects. by rewrite sum_fmap. }
  split; [apply Hcount; reflexivity|].
  split.
  { unfold stats', stats, shown, UseProjects.convertProjects. simpl.
    by rewrite sum_filter_fmap. }
  split.
  { unfold stats', stats. simpl. f_equal; apply Hcount; reflexivity. }
  split; [apply Hlow; discriminate|]. split; [apply Hlow; discriminate|].
  split; [exact Hhigh|].
  unfold stats', stats. simpl. rewrite Hlen, Hhigh, !Hlow by discriminate.
  fold urgent. unfold urgent.
  pose proof (priority_counts l) as Hsum. simpl in Hsum.
  transitivity (UseProjects.count
                  (fun p => existsb (String.eqb (UseProjects.priority p))
                              ["low"; "medium"; "high"; "urgent"]) l
                = Z.of_nat (length l)).
  { simpl. split; lia. }
  rewrite count_all. split; intros H p Hp; specialize (H p Hp).
  - apply existsb_exists in H as (s & Hs & Heq). apply String.eqb_eq in Heq as ->.
    by apply list_elem_of_In.
  - apply existsb_exists. exists (UseProjects.priority p).
    split; [by apply list_elem_of_In | apply String.eqb_refl].
Qed.

End ProjectStatsProps.

(** Two projects with progress 40 and 75: the average shown is 58. *)
Lemma X16_computed_project_stats_are_consistent_witness :
  let l := [sample_project "p1" "won" "high" 40; sample_project "p2" "proposal" "urgent" 75] in
  let stats := UseProjects.calculateStatsFromProjects 0 (fun _ => None) l in
  (0 <= UseProjects.avgProgress stats <= 100)%Z
  /\ UseProjects.avgProgress stats = 58%Z.
Proof.
  intros l stats. split; [|reflexivity].
  apply (X16_computed_project_stats_are_consistent 0%Z (fun _ => None) l); [discriminate|].
  intros p Hp. apply elem_of_cons in Hp as [->|Hp]; [simpl; lia|].
  apply list_elem_of_singleton in Hp as ->. simpl. lia.
Defined.

(** An urgent sample project is shown, and counted, as a high one. *)
Lemma X17_sample_projects_are_converted_for_display_witness :
  let l := [sample_project "p1" "won" "high" 40; sample_project "p2" "proposal" "urgent" 75] in
  let stats' :=
    UseProjects.calculateStatsFromProjects 0 (fun _ => None) (UseProjects.convertProjects l) in
  UseProjects.high (UseProjects.byPriority stats') = 2%Z
  /\ forall p', p' ∈ UseProjects.convertProjects l -> UseProjects.priority p' <> "urgent".
Proof.
  intros l stats'.
  destruct (X17_sample_projects_are_converted_for_display 0%Z (fun _ => None) l)
    as (_ & _ & Hnone & _ & _ & _ & _ & _ & _ & _ & _ & Hhigh & _).
  split; [|exact Hnone]. unfold stats'. rewrite Hhigh. reflexivity.
Defined.

(** ** A populated response *)

(** X18. What the list hooks do with a response that has rows, and in
    every case. A response with at least one row is shown as it is and
    returned unchanged; loadProjects then leaves the statistics as they
    were (they are recomputed only when the sample data is shown).
    Whatever the list call returns or throws, the hook ends not loading,
    shows no error, and shows a list that is not empty unless the sample
    data is. *)
Theorem X18_list_hooks_show_a_populated_response_as_it_is :
  (forall (Client : Type) (mockClients : list Client) response rows st,
     UseClients.response_clients response = Some rows -> rows <> [] ->
     UseClients.loadClients mockClients (Ok response) st
     = ({| UseClients.clients := rows;
           UseClients.isLoading := false;
           UseClients.error := None |}, response))
  /\ (forall mockProjectsData today midnight_of response rows st,
        UseProjects.response_projects response = Some rows -> rows <> [] ->
        UseProjects.loadProjects mockProjectsData today midnight_of (Ok response) st
        = ({| UseProjects.projects := rows;
              UseProjects.stats := UseProjects.stats st;
              UseProjects.isLoading := false;
              UseProjects.error := None |}, response))
  /\ (forall (Client : Type) (mockClients : list Client) api st,
        settled mockClients (fst (UseClients.loadClients mockClients api st)))
  /\ (forall mockProjectsData today midnight_of api st,
        let st' := fst (UseProjects.loadProjects mockProjectsData today midnight_of api st) in
        UseProjects.isLoading st' = false
        /\ UseProjects.error st' = None
        /\ (mockProjectsData <> [] -> UseProjects.projects st' <> [])).
Proof.
  split; [|split; [|split]].
  - intros Client mock response rows st Hrows Hne. unfold UseClients.loadClients.
    rewrite Hrows. destruct rows; [contradiction | reflexivity].
  - intros mock today mid response rows st Hrows Hne. unfold UseProjects.loadProjects.
    rewrite Hrows. destruct rows; [contradiction | reflexivity].
  - intros Client mock api st. apply loadClients_settled.
  - intros mock today mid api st st'. unfold st', UseProjects.loadProjects.
    destruct api as [[[[|p l]|] pg]|e]; simpl; repeat split; try discriminate;
      intros Hne; destruct mock; try contradiction; discriminate.
Qed.

(** A response with one project, while older statistics are shown. *)
Lemma X18_list_hooks_show_a_populated_response_as_it_is_witness :
  let rows := [sample_project "p1" "won" "high" 40] in
  let response := {| UseProjects.response_projects := Some rows;
                     UseProjects.response_pagination := None |} in
  let st0 := {| UseProjects.projects := [];
                UseProjects.stats := None;
                UseProjects.isLoading := false;
                UseProjects.error := None |} in
  UseProjects.loadProjects [] 0 (fun _ => None) (Ok response) st0
  = ({| UseProjects.projects := rows;
        UseProjects.stats := None;
        UseProjects.isLoading := false;
        UseProjects.error := None |}, response).
Proof.
  intros rows response st0.
  apply (proj1 (proj2 X18_list_hooks_show_a_populated_response_as_it_is)
           [] 0%Z (fun _ => None) response rows st0); [reflexivity | discriminate].
Defined.

(** ** The tasks page: filters, boards and counters *)

Lemma includes_empty a : TasksPage.includes a [] = true.
Proof. by destruct a. Qed.

Lemma distinct_spec seen l x :
  x ∈ TasksPage.distinct seen l <-> x ∈ l /\ x ∉ seen.
Proof.
  revert seen. induction l as [|y l IH]; intros seen; simpl.
  - split; [intros H; by apply elem_of_nil in H | intros [H _]; by apply elem_of_nil in H].
  - destruct (existsb (String.eqb y) seen) eqn:E.
    + apply existsb_exists in E as (z & Hz & Heq). apply String.eqb_eq in Heq as <-.
      apply list_elem_of_In in Hz. rewrite IH, elem_of_cons. split; [tauto|].
      intros [[->|H] Hn]; [contradiction | tauto].
    + assert (Hy : y ∉ seen).
      { intros Hy. apply not_true_iff_false in E. apply E, existsb_exists.
        exists y. split; [by apply list_elem_of_In | apply String.eqb_refl]. }
      rewrite !elem_of_cons, IH, not_elem_of_cons.
      destruct (decide (x = y)) as [->|Hne]; tauto.
Qed.

Lemma distinct_NoDup seen l : NoDup (TasksPage.distinct seen l).
Proof.
  revert seen. induction l as [|y l IH]; intros seen; simpl; [constructor|].
  destruct (existsb (String.eqb y) seen); [apply IH|].
  constructor; [|apply IH]. rewrite distinct_spec, not_elem_of_cons. tauto.
Qed.

Section TasksPageProps.

Variable Task : Type.
Variable title : Task -> string.
Variable description clientName : Task -> option string.
Variable status priority assignedTo : Task -> string.

Local Abbreviation filtered :=
  (TasksPage.filteredTasks title description clientName status priority assignedTo).

Lemma matchesSearch_empty task :
  TasksPage.matchesSearch title description clientName "" task = true.
Proof. unfold TasksPage.matchesSearch. by rewrite includes_empty. Qed.

(** What a task the filters let through satisfies. *)
Lemma filteredTasks_elem tasks searchTerm statusFilter priorityFilter assigneeFilter task :
  task ∈ filtered tasks searchTerm statusFilter priorityFilter assigneeFilter ->
  (statusFilter <> "all" -> status task = statusFilter)
  /\ (priorityFilter <> "all" -> priority task = priorityFilter)
  /\ (assigneeFilter <> "all" -> assignedTo task = assigneeFilter).
Proof.
  intros Htask. unfold TasksPage.filteredTasks in Htask.
  apply list_elem_of_In, filter_In in Htask as [_ H].
  apply andb_prop in H as [H Ha]. apply andb_prop in H as [H Hp].
  apply andb_prop in H as [_ Hs].
  apply orb_prop in Hs, Hp, Ha. rewrite !String.eqb_eq in Hs, Hp, Ha.
  repeat split; intros Hne; tauto.
Qed.

Lemma filter_length_all (f : Task -> bool) (l : list Task) :
  length (List.filter f l) = length l <-> forall t, t ∈ l -> f t = true.
Proof.
  induction l as [|t l IH]; simpl.
  - split; [intros _ x Hx; by apply elem_of_nil in Hx | reflexivity].
  - pose proof (List.filter_length_le f l) as Hle. destruct (f t) eqn:E; simpl.
    + split.
      * intros H x Hx. apply elem_of_cons in Hx as [->|Hx]; [exact E|].
        apply IH; [lia | exact Hx].
      * intros H. f_equal. apply IH. intros x Hx. apply H. by right.
    + split; [lia|]. intros H. specialize (H t ltac:(left)). congruence.
Qed.

(** X19. The filters of the tasks page. With an empty search text and
    every filter on [all] the page shows every task. Whatever the filters,
    the tasks shown are tasks of the list, in the order of the list, and
    each of them has the status, the priority and the assignee asked for
    by the filters that are not on [all]. The assignees offered by the
    assignee filter are exactly the assignees of the tasks, each once, and
    choosing any of them other than one named [all] shows at least one
    task. *)
Theorem X19_task_filters :
  forall (tasks : list Task) (searchTerm statusFilter priorityFilter assigneeFilter : string),
    filtered tasks "" "all" "all" "all" = tasks
    /\ filtered tasks searchTerm statusFilter priorityFilter assigneeFilter `sublist_of` tasks
    /\ (forall task,
          task ∈ filtered tasks searchTerm statusFilter priorityFilter assigneeFilter ->
          (statusFilter <> "all" -> status task = statusFilter)
          /\ (priorityFilter <> "all" -> priority task = priorityFilter)
          /\ (assigneeFilter <> "all" -> assignedTo task = assigneeFilter))
    /\ NoDup (TasksPage.uniqueAssignees assignedTo tasks)
    /\ (forall a, a ∈ TasksPage.uniqueAssignees assignedTo tasks
                  <-> exists task, task ∈ tasks /\ assignedTo task = a)
    /\ (forall a, a ∈ TasksPage.uniqueAssignees assignedTo tasks -> a <> "all" ->
                  filtered tasks "" "all" "all" a <> []).
Proof.
  intros tasks searchTerm statusFilter priorityFilter assigneeFilter.
  assert (Hoffered : forall a, a ∈ TasksPage.uniqueAssignees assignedTo tasks
                               <-> exists task, task ∈ tasks /\ assignedTo task = a).
  { intros a. unfold TasksPage.uniqueAssignees. rewrite distinct_spec.
    rewrite list_elem_of_In, in_map_iff. split.
    - intros [(task & Ha & Hin) _]. exists task. split; [by apply list_elem_of_In | exact Ha].
    - intros (task & Hin & Ha). split; [|apply not_elem_of_nil].
      exists task. split; [exact Ha | by apply list_elem_of_In]. }
  split; [|split; [|split; [|split; [|split]]]].
  - unfold TasksPage.filteredTasks. apply forallb_filter_id.
    apply forallb_forall. intros task _. by rewrite matchesSearch_empty.
  - unfold TasksPage.filteredTasks. clear.
    induction tasks as [|task tasks IH]; simpl; [constructor|].
    destruct (_ && _); [by apply sublist_skip | by apply sublist_cons].
  - intros task. apply filteredTasks_elem.
  - apply distinct_NoDup.
  - exact Hoffered.
  - intros a Ha Hne. apply Hoffered in Ha as (task & Hin & Htask).
    assert (Hshown : task ∈ filtered tasks "" "all" "all" a).
    { unfold TasksPage.filteredTasks. apply list_elem_of_In, filter_In.
      split; [by apply list_elem_of_In|].
      rewrite matchesSearch_empty, Htask, !String.eqb_refl. simpl. by rewrite orb_true_r. }
    intros Hnil. rewrite Hnil in Hshown. by apply elem_of_nil in Hshown.
Qed.

Lemma filter_length_Z (f : Task -> bool) (l : list Task) :
  (0 <= Z.of_nat (length (List.filter f l)) <= Z.of_nat (length l))%Z.
Proof. pose proof (List.filter_length_le f l). lia. Qed.

Lemma board_lengths (l : list Task) :
  let on s := Z.of_nat (length (List.filter (fun t => String.eqb (status t) s) l)) in
  (on "not_started" + on "in_progress" + on "completed" + on "on_hold" + on "cancelled"
   = Z.of_nat (length (List.filter
                         (fun t => existsb (String.eqb (status t)) TasksService.statuses) l)))%Z.
Proof.
  intros on. unfold on, TasksService.statuses. induction l as [|t l IH]; [reflexivity|].
  cbn [List.filter existsb] in *.
  destruct (String.eqb_spec (status t) "not_started") as [Hs|_];
    [rewrite Hs; cbn [String.eqb Ascii.eqb Bool.eqb orb length]; lia|].
  destruct (String.eqb_spec (status t) "in_progress") as [Hs|_];
    [rewrite Hs; cbn [String.eqb Ascii.eqb Bool.eqb orb length]; lia|].
  destruct (String.eqb_spec (status t) "completed") as [Hs|_];
    [rewrite Hs; cbn [String.eqb Ascii.eqb Bool.eqb orb length]; lia|].
  destruct (String.eqb_spec (status t) "on_hold") as [Hs|_];
    [rewrite Hs; cbn [String.eqb Ascii.eqb Bool.eqb orb length]; lia|].
  destruct (String.eqb (status t) "cancelled"); cbn [orb length]; lia.
Qed.


End TasksPageProps.

(** Three tasks, two assignees: choosing [bia] shows her one task, and the
    search for [APPEAL] with status [completed] shows one task. *)
Lemma X19_task_filters_witness :
  page_filtered page_tasks "" "all" "all" "bia" <> []
  /\ page_filtered page_tasks "APPEAL" "completed" "all" "all"
     = [("Draft the appeal", "completed", "ana")].
Proof.
  split; [|reflexivity].
  apply (X19_task_filters _ (fun t => fst (fst t)) (fun _ => None) (fun _ => None)
           (fun t => snd (fst t)) (fun _ => "medium") snd page_tasks "" "all" "all" "all");
    [|discriminate].
  vm_compute. right. left.
Defined.


(** ** The rows create stores *)

Lemma insert_checked def new_id now (t : DB.table) (data : gmap string value) t' r :
  DB.insertInTenantSchema def new_id now t data = Ok (t', r) ->
  DB.checks def r = true.
Proof.
  unfold DB.insertInTenantSchema.
  destruct (negb (forallb _ _)); [discriminate|].
  destruct (DB.checks _ _) eqn:E; [|discriminate].
  by intros [= _ <-].
Qed.

Lemma check_in_text s allowed :
  DB.check_in (Some (DB.Scalar (VStr s))) allowed = true -> s ∈ allowed.
Proof.
  unfold DB.check_in. simpl. intros H. apply existsb_exists in H as (x & Hin & Hx).
  apply String.eqb_eq in Hx as ->. by apply list_elem_of_In.
Qed.

Lemma str_or_text o d : exists s, JS.str_or o (VStr d) = VStr s /\ (s = d \/ (o = Some s /\ s <> "")).
Proof.
  unfold JS.str_or. destruct o as [s|]; simpl; [|by eauto].
  destruct (String.eqb_spec s ""); simpl; [by eauto|].
  exists s. split; [reflexivity|]. by right.
Qed.

Lemma num_or_number o d : exists n, JS.num_or o (VNum d) = VNum n.
Proof.
  unfold JS.num_or. destruct o as [n|]; simpl; [|by eauto].
  destruct (n =? 0)%Z; simpl; eauto.
Qed.

(** X21. The row createTask stores always has a status, a priority and a
    progress, whatever the caller left out or sent empty: the status is
    the supplied one or [not_started] and is one of the five statuses of
    the table, the priority is the supplied one or [medium] and is one of
    its four priorities, the progress is a number from 0 to 100; tags and
    subtasks are never NULL; the title and the assignee are the non-empty
    texts that were supplied. *)
Theorem X21_created_tasks_are_well_formed :
  forall new_id now (t : DB.table) taskData createdBy t' r,
    TasksService.createTask new_id now t taskData createdBy = Ok (t', r) ->
    (exists s, r !! "status" = Some (DB.Scalar (VStr s))
               /\ s ∈ TasksService.statuses
               /\ (s = "not_started" \/ TasksService.status taskData = Some s))
    /\ (exists s, r !! "priority" = Some (DB.Scalar (VStr s))
                  /\ s ∈ TasksService.priorities
                  /\ (s = "medium" \/ TasksService.priority taskData = Some s))
    /\ (exists n, r !! "progress" = Some (DB.Scalar (VNum n)) /\ (0 <= n <= 100)%Z)
    /\ (exists s, TasksService.title taskData = Some s /\ s <> ""
                  /\ r !! "title" = Some (DB.Scalar (VStr s)))
    /\ (exists s, TasksService.assignedTo taskData = Some s /\ s <> ""
                  /\ r !! "assigned_to" = Some (DB.Scalar (VStr s)))
    /\ DB.is_null (r !! "tags") = false
    /\ DB.is_null (r !! "subtasks") = false.
Proof.
  intros new_id now t taskData createdBy t' r Hcreate.
  unfold TasksService.createTask, TasksService.ensureTables in Hcreate.
  destruct (TasksService.createTask_data taskData createdBy) as [data|e] eqn:Hdata;
    [|discriminate]. simpl in Hcreate.
  pose proof (insert_checked _ _ _ _ _ _ _ Hcreate) as Hchecks.
  unfold TasksService.createTask_data in Hdata.
  destruct (JS.truthy_str (TasksService.title taskData)) eqn:Htitle; [|discriminate].
  destruct (JS.truthy_str (TasksService.assignedTo taskData)) eqn:Hassigned; [|discriminate].
  simpl in Hdata. injection Hdata as <-.
  apply truthy_str_Some in Htitle as (title & Htitle & Htitle').
  apply truthy_str_Some in Hassigned as (assigned & Hassigned & Hassigned').
  destruct (str_or_text (TasksService.status taskData) "not_started") as (s & Hs & Hs').
  destruct (str_or_text (TasksService.priority taskData) "medium") as (p & Hp & Hp').
  destruct (num_or_number (TasksService.progress taskData) 0) as (n & Hn).
  assert (Rs : r !! "status" = Some (DB.Scalar (VStr s))).
  { rewrite (inserted_row_lookup _ _ _ _ _ _ _ "status" (VStr s) Hcreate); [reflexivity|].
    read_payload. by rewrite Hs. }
  assert (Rp : r !! "priority" = Some (DB.Scalar (VStr p))).
  { rewrite (inserted_row_lookup _ _ _ _ _ _ _ "priority" (VStr p) Hcreate); [reflexivity|].
    read_payload. by rewrite Hp. }
  assert (Rn : r !! "progress" = Some (DB.Scalar (VNum n))).
  { rewrite (inserted_row_lookup _ _ _ _ _ _ _ "progress" (VNum n) Hcreate); [reflexivity|].
    read_payload. by rewrite Hn. }
  unfold TasksService.table_def in Hchecks. cbn [DB.checks] in Hchecks.
  rewrite Rs, Rp, Rn in Hchecks.
  apply andb_prop in Hchecks as [Hchecks Hrange].
  apply andb_prop in Hchecks as [Hstatus Hpriority].
  apply check_in_text in Hstatus, Hpriority.
  unfold DB.check_range in Hrange. simpl in Hrange.
  apply andb_prop in Hrange as [Hlo Hhi]. apply Z.leb_le in Hlo, Hhi.
  split; [exists s; intuition congruence|].
  split; [exists p; intuition congruence|].
  split; [by exists n|].
  split.
  { exists title. repeat split; try assumption.
    rewrite (inserted_row_lookup _ _ _ _ _ _ _ "title" (VStr title) Hcreate); [reflexivity|].
    read_payload. by rewrite Htitle. }
  split.
  { exists assigned. repeat split; try assumption.
    rewrite (inserted_row_lookup _ _ _ _ _ _ _ "assigned_to" (VStr assigned) Hcreate);
      [reflexivity|].
    read_payload. by rewrite Hassigned. }
  split.
  - destruct (TasksService.tags taskData) as [[|x l]|] eqn:Htags.
    + rewrite (inserted_row_default _ _ _ _ _ _ _ "tags" Hcreate); [reflexivity|].
      read_payload. reflexivity.
    + rewrite (inserted_row_lookup _ _ _ _ _ _ _ "tags" (VArr (map VStr (x :: l))) Hcreate);
        [reflexivity|].
      read_payload. reflexivity.
    + rewrite (inserted_row_default _ _ _ _ _ _ _ "tags" Hcreate); [reflexivity|].
      read_payload. reflexivity.
  - destruct (TasksService.subtasks taskData) as [[|x l]|] eqn:Hsub.
    + rewrite (inserted_row_default _ _ _ _ _ _ _ "subtasks" Hcreate); [reflexivity|].
      read_payload. reflexivity.
    + rewrite (inserted_row_lookup _ _ _ _ _ _ _ "subtasks"
                 (JS.JSON_stringify (VArr (x :: l))) Hcreate); [reflexivity|].
      read_payload. reflexivity.
    + rewrite (inserted_row_default _ _ _ _ _ _ _ "subtasks" Hcreate); [reflexivity|].
      read_payload. reflexivity.
Qed.

(** A task created with an empty status gets the default one. *)
Lemma X21_created_tasks_are_well_formed_witness :
  match TasksService.createTask "t1" 5 []
          (new_task (Some "Brief") (Some "u1") (Some "")) "u1" with
  | Ok (_, r) => r !! "status" = Some (DB.Scalar (VStr "not_started"))
  | Throw _ => False
  end.
Proof.
  assert (Hok : is_ok (TasksService.createTask "t1" 5 []
                         (new_task (Some "Brief") (Some "u1") (Some "")) "u1") = true)
    by (vm_compute; reflexivity).
  destruct (TasksService.createTask "t1" 5 []
              (new_task (Some "Brief") (Some "u1") (Some "")) "u1")
    as [[t' r]|e] eqn:Hcreate; [|discriminate].
  destruct (X21_created_tasks_are_well_formed _ _ _ _ _ _ _ Hcreate)
    as ((s & Hs & Hin & [-> | Hsupplied]) & _); [exact Hs|].
  injection Hsupplied as <-. exfalso. revert Hin. vm_compute.
  intros Hin. repeat (apply elem_of_cons in Hin as [Hin|Hin]; [discriminate Hin|]).
  by apply elem_of_nil in Hin.
Defined.

(** ** Get-by-id and the list *)

Lemma get_by_id_Some (t : DB.table) id r :
  get_by_id t id = Some r ->
  r ∈ t /\ DB.has_id id r = true /\ DB.is_true (r !! "is_active") = true.
Proof.
  unfold get_by_id. intros H.
  assert (Hin : In r (List.filter (fun r => DB.has_id id r && DB.is_true (r !! "is_active")) t)).
  { destruct (List.filter _ t) as [|x l]; [discriminate|]. injection H as ->. by left. }
  apply filter_In in Hin as [Hin Hr]. apply andb_prop in Hr as [Hid Hact].
  split; [by apply list_elem_of_In | by split].
Qed.

Lemma get_by_id_found (t : DB.table) id r :
  r ∈ t -> DB.has_id id r = true -> DB.is_true (r !! "is_active") = true ->
  is_Some (get_by_id t id).
Proof.
  intros Hin Hid Hact. unfold get_by_id.
  assert (Hr : In r (List.filter (fun r => DB.has_id id r && DB.is_true (r !! "is_active")) t)).
  { apply filter_In. split; [by apply list_elem_of_In | by rewrite Hid, Hact]. }
  destruct (List.filter _ t); [contradiction | eauto].
Qed.

(** With room for all of them, the first page of a list operation holds
    the rows of the table its WHERE clause keeps. *)
Lemma listed_rows_elem where_ (t : DB.table) r :
  r ∈ listed (fun l : option Z => list_rows None l where_ t) (fun l => l)
  <-> r ∈ t /\ where_ r = true.
Proof.
  unfold listed. cbv beta. rewrite list_rows_default_total. cbn [default from_option id].
  set (L := Z.max 1 (count_rows where_ t)).
  assert (HL : JS.or_num (Some L) 50 = L).
  { unfold JS.or_num, JS.truthy_num. destruct (Z.eqb_spec L 0); [lia|reflexivity]. }
  unfold list_rows. rewrite HL. change (JS.or_num None 1) with 1%Z.
  rewrite limit_offset_ok by lia. cbn [bind rows_of]. rewrite drop_0, take_ge.
  - rewrite order_by_created_desc_Permutation, list_elem_of_In, filter_In.
    by rewrite <- list_elem_of_In.
  - rewrite (Permutation_length (order_by_created_desc_Permutation _)).
    unfold L, count_rows. lia.
Qed.

(** X22. Get-by-id and the unfiltered list agree on the entities there
    are, for tasks, projects and clients: the row get-by-id returns for an
    id has that id and is among the rows of the unfiltered list, and for
    the id of every row of the list get-by-id returns a row. *)
Theorem X22_readable_entities_are_the_listed_ones :
  readable_is_listed TasksService.getTaskById
    (fun t => listed (TasksService.getTasks t)
                (fun l => tasks_paged None l (tasks_by None None)))
  /\ readable_is_listed ProjectsService.getProjectById
       (fun t => listed (ProjectsService.getProjects t)
                   (fun l => projects_paged None l (projects_by None)))
  /\ readable_is_listed ClientsService.getClientById
       (fun t => listed (ClientsService.getClients t)
                   (fun l => clients_paged None l (clients_by None))).
Proof.
  assert (Hgen : forall (ensure : DB.table -> DB.table) (where_ : DB.row -> bool),
            (forall r, where_ r = DB.is_true (r !! "is_active")) ->
            readable_is_listed (fun t id => get_by_id (ensure t) id)
              (fun t => listed (fun l : option Z => list_rows None l where_ (ensure t))
                          (fun l => l))).
  { intros ensure where_ Hwhere t. split.
    - intros id r Hget. apply get_by_id_Some in Hget as (Hin & Hid & Hact).
      split; [|exact Hid]. apply listed_rows_elem. by rewrite Hwhere.
    - intros r id Hr Hid. apply listed_rows_elem in Hr as [Hin Hw].
      rewrite Hwhere in Hw. by apply (get_by_id_found _ id r). }
  split; [|split].
  - apply (Hgen TasksService.ensureTables (TasksService.where_ (tasks_by None None))).
    intros r. unfold TasksService.where_. simpl. by rewrite !andb_true_r.
  - apply (Hgen ProjectsService.ensureTables (ProjectsService.where_ (projects_by None))).
    intros r. unfold ProjectsService.where_. simpl. by rewrite !andb_true_r.
  - apply (Hgen ClientsService.ensureTables (ClientsService.where_ (clients_by None))).
    intros r. unfold ClientsService.where_. simpl. by rewrite !andb_true_r.
Qed.

(** ** Tags, from create to the tags filter *)

Lemma has_any_strings (l wanted : list string) :
  DB.has_any (Some (DB.Jsonb (VArr (map VStr l)))) wanted = true
  <-> exists x, x ∈ wanted /\ x ∈ l.
Proof.
  unfold DB.has_any. rewrite existsb_exists. split.
  - intros (x & Hx & Hin). exists x. split; [by apply list_elem_of_In|].
    unfold DB.str_in in Hin. apply existsb_exists in Hin as (v & Hv & Heq).
    apply in_map_iff in Hv as (y & <- & Hy). apply String.eqb_eq in Heq as ->.
    by apply list_elem_of_In.
  - intros (x & Hx & Hl). exists x. split; [by apply list_elem_of_In|].
    unfold DB.str_in. apply existsb_exists. exists (VStr x).
    split; [apply in_map, list_elem_of_In, Hl | apply String.eqb_refl].
Qed.

(** X23. Tags survive the way from create to the tags filter. A project
    or a client created with a list of tags is among the rows of the list
    filtered by a non-empty list of wanted tags exactly when one of the
    wanted tags is among its tags (create hands the tags over as an array,
    so they are stored as a JSON array, which is what the filter tests). *)
Theorem X23_created_entities_are_found_by_their_tags :
  forall new_id now (t : DB.table) createdBy (tags wanted : list string) t' r,
    wanted <> [] ->
    (forall projectData,
       ProjectsService.tags projectData = Some tags ->
       ProjectsService.createProject new_id now t projectData createdBy = Ok (t', r) ->
       r ∈ listed (ProjectsService.getProjects t')
             (fun l => projects_paged None l (projects_tagged wanted))
       <-> exists x, x ∈ wanted /\ x ∈ tags)
    /\ (forall clientData,
          ClientsService.tags clientData = Some tags ->
          ClientsService.createClient new_id now t clientData createdBy = Ok (t', r) ->
          r ∈ listed (ClientsService.getClients t')
                (fun l => clients_paged None l (clients_tagged wanted))
          <-> exists x, x ∈ wanted /\ x ∈ tags).
Proof.
  intros new_id now t createdBy tags wanted t' r Hwanted. split.
  - intros projectData Htags Hcreate.
    destruct (createProject_ensured _ _ _ _ _ _ _ Hcreate) as [Hensured Ht'].
    unfold ProjectsService.createProject in Hcreate.
    destruct (ProjectsService.createProject_data projectData createdBy) as [payload|e] eqn:Hdata;
      [|discriminate]. simpl in Hcreate.
    destruct (createProject_data_system _ _ _ Hdata) as (_ & Hact & _).
    assert (Rtags : r !! "tags" = Some (DB.Jsonb (VArr (map VStr tags)))).
    { rewrite (inserted_row_lookup _ _ _ _ _ _ _ "tags" (VArr (map VStr tags)) Hcreate);
        [reflexivity|].
      revert Hdata. unfold ProjectsService.createProject_data.
      repeat (destruct (negb _); [discriminate|]). destruct (String.eqb _ _); [discriminate|].
      intros [= <-]. read_payload. by rewrite Htags. }
    assert (Ract : r !! "is_active" = Some (DB.Scalar (VBool true))).
    { rewrite (inserted_row_default _ _ _ _ _ _ _ _ Hcreate Hact).
      by rewrite lookup_insert_ne by discriminate. }
    transitivity (r ∈ ProjectsService.ensureTables t'
                  /\ ProjectsService.where_ (projects_tagged wanted) r = true).
    { apply (listed_rows_elem (ProjectsService.where_ (projects_tagged wanted))
               (ProjectsService.ensureTables t') r). }
    rewrite Hensured, Ht'. unfold ProjectsService.where_.
    cbn [ProjectsService.Filters.status ProjectsService.Filters.priority
         ProjectsService.Filters.search ProjectsService.Filters.tags projects_tagged
         JS.truthy_str JS.nonempty default].
    rewrite Ract, Rtags. destruct wanted as [|w wanted']; [contradiction|].
    cbn [DB.is_true andb]. rewrite has_any_strings. split; [tauto|].
    intros H. split; [|exact H]. apply elem_of_app. right. by left.
  - intros clientData Htags Hcreate.
    unfold ClientsService.createClient, ClientsService.ensureTables in Hcreate.
    destruct (createClient_data_system clientData createdBy) as (_ & Hact & _).
    assert (Rtags : r !! "tags" = Some (DB.Jsonb (VArr (map VStr tags)))).
    { rewrite (inserted_row_lookup _ _ _ _ _ _ _ "tags" (VArr (map VStr tags)) Hcreate);
        [reflexivity|].
      unfold ClientsService.createClient_data. read_payload. by rewrite Htags. }
    assert (Ract : r !! "is_active" = Some (DB.Scalar (VBool true))).
    { rewrite (inserted_row_default _ _ _ _ _ _ _ _ Hcreate Hact).
      by rewrite lookup_insert_ne by discriminate. }
    transitivity (r ∈ ClientsService.ensureTables t'
                  /\ ClientsService.where_ (clients_tagged wanted) r = true).
    { apply (listed_rows_elem (ClientsService.where_ (clients_tagged wanted))
               (ClientsService.ensureTables t') r). }
    destruct (insert_appends _ _ _ _ _ _ _ Hcreate) as [-> _].
    unfold ClientsService.where_, ClientsService.ensureTables.
    cbn [ClientsService.Filters.status ClientsService.Filters.search
         ClientsService.Filters.tags clients_tagged JS.truthy_str JS.nonempty default].
    rewrite Ract, Rtags. destruct wanted as [|w wanted']; [contradiction|].
    cbn [DB.is_true andb]. rewrite has_any_strings. split; [tauto|].
    intros H. split; [|exact H]. apply elem_of_app. right. by left.
Qed.

(** A client tagged [civil] and [tax] is found by the filter for [tax] or
    [labor]. *)
Lemma X23_created_entities_are_found_by_their_tags_witness :
  let data := tagged_client (Some "Ana") (Some "ana@example.org") (Some ["civil"; "tax"]) in
  match ClientsService.createClient "c1" 5 [] data "u1" with
  | Ok (t', r) =>
      r ∈ listed (ClientsService.getClients t')
            (fun l => clients_paged None l (clients_tagged ["tax"; "labor"]))
  | Throw _ => False
  end.
Proof.
  intros data.
  assert (Hok : is_ok (ClientsService.createClient "c1" 5 [] data "u1") = true)
    by (vm_compute; reflexivity).
  destruct (ClientsService.createClient "c1" 5 [] data "u1") as [[t' r]|e] eqn:Hcreate;
    [|discriminate].
  apply (proj2 (X23_created_entities_are_found_by_their_tags "c1" 5%Z [] "u1"
                  ["civil"; "tax"] ["tax"; "labor"] t' r ltac:(discriminate))
           data eq_refl Hcreate).
  exists "tax". split; [by left | right; by left].
Defined.

(** The project get-by-id returns is among the rows of the list. *)
Lemma X22_readable_entities_are_the_listed_ones_witness :
  match ProjectsService.getProjectById [stored_project "p1" 10] "p1" with
  | Some r =>
      r ∈ listed (ProjectsService.getProjects [stored_project "p1" 10])
            (fun l => projects_paged None l (projects_by None))
  | None => False
  end.
Proof.
  assert (Hfound : match ProjectsService.getProjectById [stored_project "p1" 10] "p1" with
                   | Some _ => true | None => false end = true)
    by (vm_compute; reflexivity).
  destruct (ProjectsService.getProjectById [stored_project "p1" 10] "p1") as [r|] eqn:Hget;
    [|discriminate].
  exact (proj1 (proj1 (proj1 (proj2 X22_readable_entities_are_the_listed_ones)
                         [stored_project "p1" 10]) "p1" r Hget)).
Defined.

(** ** What createProject sends *)

Lemma str_or_defined o d : d <> VUndef -> JS.str_or o d <> VUndef.
Proof. unfold JS.str_or. destruct o as [s|]; simpl; [destruct (negb _)|]; congruence. Qed.

Lemma strs_or_defined o d : d <> VUndef -> JS.strs_or o d <> VUndef.
Proof. destruct o; simpl; congruence. Qed.

Lemma arr_or_defined o d : d <> VUndef -> JS.arr_or o d <> VUndef.
Proof. destruct o; simpl; congruence. Qed.

Lemma num_nullish_defined o d : d <> VUndef -> JS.num_nullish o d <> VUndef.
Proof. destruct o; simpl; congruence. Qed.

(** X24. Unlike createTask and createClient, createProject leaves no
    column to the table: whenever its checks pass, the mapping it hands to
    the insert helper has exactly its eighteen columns, none of them
    [undefined]; a member that is absent or empty is replaced by the
    default written in the service (status [contacted], priority
    [medium], currency [BRL], budget 0, progress 0, empty texts and empty
    arrays). The checks pass exactly when title, client name, start date,
    due date and the creating user are all non-empty. *)
Theorem X24_createProject_sends_every_column :
  forall projectData createdBy,
    (is_ok (ProjectsService.createProject_data projectData createdBy)
     = JS.truthy_str (ProjectsService.title projectData)
       && JS.truthy_str (ProjectsService.clientName projectData)
       && JS.truthy_str (ProjectsService.startDate projectData)
       && JS.truthy_str (ProjectsService.dueDate projectData)
       && negb (String.eqb createdBy ""))
    /\ forall data,
         ProjectsService.createProject_data projectData createdBy = Ok data ->
         size data = 18%nat
         /\ (forall c, c ∈ project_create_columns ->
               exists v, data !! c = Some v /\ v <> VUndef)
         /\ (ProjectsService.status projectData = None ->
             data !! "status" = Some (VStr "contacted"))
         /\ (ProjectsService.priority projectData = None ->
             data !! "priority" = Some (VStr "medium"))
         /\ (ProjectsService.currency projectData = None ->
             data !! "currency" = Some (VStr "BRL"))
         /\ (ProjectsService.budget projectData = None -> data !! "budget" = Some (VNum 0))
         /\ (ProjectsService.progress projectData = None ->
             data !! "progress" = Some (VNum 0))
         /\ (ProjectsService.tags projectData = None -> data !! "tags" = Some (VArr [])).
Proof.
  intros projectData createdBy. split.
  { unfold ProjectsService.createProject_data.
    destruct (JS.truthy_str (ProjectsService.title projectData)); [|reflexivity].
    destruct (JS.truthy_str (ProjectsService.clientName projectData)); [|reflexivity].
    destruct (JS.truthy_str (ProjectsService.startDate projectData)); [|reflexivity].
    destruct (JS.truthy_str (ProjectsService.dueDate projectData)); [|reflexivity].
    by destruct (String.eqb createdBy ""). }
  intros data. unfold ProjectsService.createProject_data.
  destruct (JS.truthy_str (ProjectsService.title projectData)) eqn:Htitle; [|discriminate].
  destruct (JS.truthy_str (ProjectsService.clientName projectData)) eqn:Hclient;
    [|discriminate].
  destruct (JS.truthy_str (ProjectsService.startDate projectData)) eqn:Hstart;
    [|discriminate].
  destruct (JS.truthy_str (ProjectsService.dueDate projectData)) eqn:Hdue; [|discriminate].
  destruct (String.eqb createdBy ""); [discriminate|]. simpl. intros [= <-].
  apply truthy_str_Some in Htitle as (title & Htitle & _).
  apply truthy_str_Some in Hclient as (client & Hclient & _).
  apply truthy_str_Some in Hstart as (start & Hstart & _).
  apply truthy_str_Some in Hdue as (due & Hdue & _).
  split.
  { repeat (rewrite map_size_insert_None by (read_payload; reflexivity)).
    by rewrite map_size_empty. }
  split.
  { intros c Hc. unfold project_create_columns in Hc.
    repeat (apply elem_of_cons in Hc as [->|Hc];
            [eexists; split; [read_payload; reflexivity|];
             rewrite ?Htitle, ?Hclient, ?Hstart, ?Hdue;
             first [ discriminate
                   | apply str_or_defined; discriminate
                   | apply strs_or_defined; discriminate
                   | apply arr_or_defined; discriminate
                   | apply num_nullish_defined; discriminate ]|]).
    by apply elem_of_nil in Hc. }
  repeat split; intros ->; read_payload; reflexivity.
Qed.

(** ** The mutations of the projects hook *)

Section UseProjectsMutations.

Variable mockProjectsData : list UseProjects.Project.
Variable today : Z.
Variable midnight_of : string -> option Z.
Variables Server Data Saved : Type.
Variable data_title : Data -> value.
Variable project_id : Saved -> value.
Variable api_getProjects : Server -> Server * result UseProjects.Response.
Variable api_getProjectsStats : Server -> Server * result UseProjects.ProjectStats.
Variable api_createProject : Server -> Data -> Server * result Saved.
Variable api_updateProject : Server -> string -> Data -> Server * result Saved.
Variable api_deleteProject : Server -> string -> Server * result unit.
Variable api_createNotification : Server -> value -> Server * result unit.

Lemma loadProjects_flags api st :
  let st' := fst (UseProjects.loadProjects mockProjectsData today midnight_of api st) in
  UseProjects.isLoading st' = false /\ UseProjects.error st' = None.
Proof.
  unfold UseProjects.loadProjects. by destruct api as [[[[|p l]|] pg]|e].
Qed.

Lemma loadStats_state rendered api st :
  let st' := fst (UseProjects.loadStats mockProjectsData today midnight_of rendered api st) in
  UseProjects.projects st' = UseProjects.projects st
  /\ UseProjects.isLoading st' = UseProjects.isLoading st
  /\ UseProjects.error st' = UseProjects.error st
  /\ UseProjects.stats st'
     = Some match api with
            | Ok counted => counted
            | Throw _ =>
                UseProjects.calculateStatsFromProjects today midnight_of
                  (if (0 <? length rendered)%nat then rendered
                   else UseProjects.convertProjects mockProjectsData)
            end.
Proof.
  unfold UseProjects.loadStats. destruct api as [counted|e]; [by repeat split|].
  by destruct (0 <? length rendered)%nat.
Qed.

Lemma reload_state rendered srv st :
  let st' := snd (UseProjects.reload mockProjectsData today midnight_of
                    api_getProjects api_getProjectsStats rendered (srv, st)) in
  UseProjects.isLoading st' = false
  /\ UseProjects.error st' = None
  /\ (exists at_list,
        UseProjects.projects st'
        = UseProjects.projects
            (fst (UseProjects.loadProjects mockProjectsData today midnight_of
                    (snd (api_getProjects at_list)) st)))
  /\ (exists at_stats,
        UseProjects.stats st'
        = Some match snd (api_getProjectsStats at_stats) with
               | Ok counted => counted
               | Throw _ =>
                   UseProjects.calculateStatsFromProjects today midnight_of
                     (if (0 <? length rendered)%nat then rendered
                      else UseProjects.convertProjects mockProjectsData)
               end).
Proof.
  unfold UseProjects.reload.
  destruct (api_getProjects srv) as [srv1 listed] eqn:Hlist.
  destruct (api_getProjectsStats srv1) as [srv2 counted] eqn:Hstats. cbn [snd].
  destruct (loadStats_state rendered counted
              (fst (UseProjects.loadProjects mockProjectsData today midnight_of listed st)))
    as (Hp & Hl & He & Hs).
  destruct (loadProjects_flags listed st) as [Hl' He'].
  split; [by rewrite Hl|]. split; [by rewrite He|]. split.
  - exists srv. by rewrite Hlist, Hp.
  - exists srv1. by rewrite Hstats, Hs.
Qed.


End UseProjectsMutations.
